(** * Command synchronisation and lock-state engine of the device-lock client

    A shallow embedding of the background sync service (the scheduled poll
    task, [handleCommand], the push listeners), of the kiosk service (the
    lockdown capability), of the push callback installed by [App] and of
    the deactivation of [HomeScreen].

    Asynchronous JavaScript is rendered as programs over a small set of
    operations (storage, clock, timers, network, notifications, the native
    device-admin module).  A program is a tree whose nodes are operations
    and whose leaves are a returned value or a thrown error; [try]/[catch]
    and sequencing are functions on such trees.  An interpreter runs a
    program on a [World] (the persistent store, the clock, the pending
    timers, the log of operations performed) against an [Env] that fixes
    what the outside answers (server, notification service, native module).

    Console output is not modelled.  AsyncStorage is taken to be reliable:
    its operations do not throw.

    Besides the sync engine, the development covers the interval of [App]
    that monitors the lock and the start of the app ([initializeApp], the
    permissions it asks for, the registration of the background task, the
    push token), the latter as programs over a second set of operations
    that contains the first. *)

From stdpp Require Import gmap strings list fin_maps pretty.
From Stdlib Require Import NArith Lia.

Open Scope string_scope.
Open Scope N_scope.

(* ===================================================================== *)
(** ** Data *)
(* ===================================================================== *)

(** [Platform.OS] *)
Inductive platform := android | ios | other_os.

(** A thrown value is represented by its [message]. *)
Definition error := string.
Definition result (A : Type) : Type := (error + A)%type.

(** The object the server returns for a device ([response.data.data]), and
    also the object [{ lockMessage, keyId }] the push listeners hand to
    [handleCommand].  A field is [None] when it is missing or null. *)
Record StatusReport := {
  rep_status : option string;
  rep_command : option string;
  rep_lockMessage : option string;
  rep_keyId : option string;
}.

(** [notification.request.content.data] *)
Record PushData := {
  push_command : option string;
  push_lockMessage : option string;
  push_keyId : option string;
}.

(** [BackgroundFetch.BackgroundFetchResult] *)
Inductive BackgroundFetchResult := NoData | NewData | Failed.

(** The record [enableFullLockdown] returns. *)
Record LockdownResults := {
  deviceAdmin : bool;
  kioskMode : bool;
  appHidden : bool;
  statusBarDisabled : bool;
  restrictionsSet : bool;
}.

(** JavaScript truthiness of a value that is a string or missing. *)
Definition truthy (v : option string) : bool :=
  match v with
  | Some s => negb (String.eqb s "")
  | None => false
  end.

(** [v || d] for such a value and a string [d]. *)
Definition js_or (v : option string) (d : string) : string :=
  match v with
  | Some s => if String.eqb s "" then d else s
  | None => d
  end.

(* ===================================================================== *)
(** ** Operations and programs *)
(* ===================================================================== *)

(** The methods of [NativeModules.DeviceAdminModule]. *)
Inductive native_op :=
| DA_isDeviceAdmin
| DA_requestDeviceAdmin
| DA_startLockTaskMode
| DA_stopLockTaskMode
| DA_hideAppFromLauncher
| DA_showAppInLauncher
| DA_disableStatusBar
| DA_enableStatusBar
| DA_setUserRestrictions (enable : bool).

(** What a pending [setTimeout] will run. *)
Inductive timer_action :=
| TAbort (controller : nat)   (* () => controller.abort() *)
| TFactoryReset               (* async () => { await performFactoryReset() } *)
| TVibrationCancel.           (* () => { Vibration.cancel() } *)

(** Function entries recorded in the log (they change nothing). *)
Inductive entry :=
| in_handleCommand (command : string)
| in_performFactoryReset
| in_enableFullLockdown
| in_disableFullLockdown.

Inductive op :=
(* AsyncStorage *)
| GetItem (key : string)
| SetItem (key value : string)
| RemoveItem (key : string)
| ClearStore
(* clock and timers *)
| DateNow
| SetTimeout (a : timer_action) (ms : N)
| ClearTimeout (id : nat)
| NewAbortController
| Abort (controller : nat)
(* deviceAPI *)
| GetDeviceStatus (key : string)
| AcknowledgeCommand (keyId command : string)
(* Notifications, Vibration *)
| ScheduleNotification (title body : string)
| Vibrate
| VibrationCancel
(* Platform, NativeModules *)
| PlatformOS
| HasDeviceAdminModule
| Native (n : native_op)
(* React state of App *)
| SetIsLocked (b : bool)
(* log only *)
| Enter (f : entry).

(** The type of what an operation gives back. *)
Definition ans (o : op) : Type :=
  match o with
  | GetItem _ => option string
  | DateNow => N
  | SetTimeout _ _ => nat
  | NewAbortController => nat
  | GetDeviceStatus _ => result StatusReport
  | AcknowledgeCommand _ _ => result unit
  | ScheduleNotification _ _ => result unit
  | Vibrate => result unit
  | PlatformOS => platform
  | HasDeviceAdminModule => bool
  | Native _ => result bool
  | _ => unit
  end.

Inductive prog (A : Type) : Type :=
| Ret (a : A)
| Throw (e : error)
| Vis (o : op) (k : ans o -> prog A).

Arguments Ret {A} a.
Arguments Throw {A} e.
Arguments Vis {A} o k.

Fixpoint bind {A B} (p : prog A) (f : A -> prog B) : prog B :=
  match p with
  | Ret a => f a
  | Throw e => Throw e
  | Vis o k => Vis o (fun x => bind (k x) f)
  end.

(** [try { p } catch (e) { h e }] *)
Fixpoint try_catch {A} (p : prog A) (h : error -> prog A) : prog A :=
  match p with
  | Ret a => Ret a
  | Throw e => h e
  | Vis o k => Vis o (fun x => try_catch (k x) h)
  end.

(** An operation that cannot fail. *)
Definition call (o : op) : prog (ans o) := Vis o Ret.

(** Awaiting a promise that may reject. *)
Definition settle {A} (r : result A) : prog A :=
  match r with
  | inl e => Throw e
  | inr a => Ret a
  end.

(** A call of an async function whose promise is dropped (neither awaited
    nor given a rejection handler): a rejection does not reach the caller.

    In the running app the steps of such a call are interleaved with the
    steps the caller takes after it.  The embedding fixes one schedule:
    the steps of the call are taken at the place of the call, before the
    caller goes on.  What is proved of a program that contains a dropped
    call is therefore stated on what does not depend on the schedule (how
    often an operation occurs in the log, the store, the value returned)
    and never on the order, in the log, of a step of the call and a later
    step of the caller. *)
Definition detach (p : prog unit) : prog unit :=
  try_catch p (fun _ => Ret tt).

Declare Scope prog_scope.
Delimit Scope prog_scope with prog.
Bind Scope prog_scope with prog.
Notation "x <- p ;; q" := (bind p (fun x => q))
  (at level 100, p at next level, right associativity) : prog_scope.
Notation "p ;; q" := (bind p (fun _ => q))
  (at level 100, right associativity) : prog_scope.
Open Scope prog_scope.

(* ===================================================================== *)
(** ** kioskService: the lockdown capability *)
(* ===================================================================== *)

Module kioskService.

(** [Platform.OS !== 'android' || !DeviceAdminModule] *)
Definition unavailable : prog bool :=
  os <- call PlatformOS ;;
  match os with
  | android => m <- call HasDeviceAdminModule ;; Ret (negb m)
  | _ => Ret true
  end.

Definition isDeviceAdmin : prog bool :=
  un <- unavailable ;;
  if un then Ret false
  else try_catch (Vis (Native DA_isDeviceAdmin) settle) (fun _ => Ret false).

Definition requestDeviceAdmin : prog bool :=
  un <- unavailable ;;
  if un then Ret false
  else try_catch (Vis (Native DA_requestDeviceAdmin) settle) (fun _ => Ret false).

Definition startLockTaskMode : prog bool :=
  un <- unavailable ;;
  if un then Ret false
  else try_catch
         (Vis (Native DA_startLockTaskMode) settle ;;
          call (SetItem "kioskModeActive" "true") ;;
          Ret true)
         (fun _ => Ret false).

Definition stopLockTaskMode : prog bool :=
  un <- unavailable ;;
  if un then Ret false
  else try_catch
         (Vis (Native DA_stopLockTaskMode) settle ;;
          call (SetItem "kioskModeActive" "false") ;;
          Ret true)
         (fun _ => Ret false).

Definition hideAppFromLauncher : prog bool :=
  un <- unavailable ;;
  if un then Ret false
  else try_catch
         (Vis (Native DA_hideAppFromLauncher) settle ;;
          call (SetItem "appHidden" "true") ;;
          Ret true)
         (fun _ => Ret false).

Definition showAppInLauncher : prog bool :=
  un <- unavailable ;;
  if un then Ret false
  else try_catch
         (Vis (Native DA_showAppInLauncher) settle ;;
          call (SetItem "appHidden" "false") ;;
          Ret true)
         (fun _ => Ret false).

Definition disableStatusBar : prog bool :=
  un <- unavailable ;;
  if un then Ret false
  else try_catch
         (Vis (Native DA_disableStatusBar) settle ;; Ret true)
         (fun _ => Ret false).

Definition enableStatusBar : prog bool :=
  un <- unavailable ;;
  if un then Ret false
  else try_catch
         (Vis (Native DA_enableStatusBar) settle ;; Ret true)
         (fun _ => Ret false).

Definition setUserRestrictions (enable : bool) : prog bool :=
  un <- unavailable ;;
  if un then Ret false
  else try_catch
         (Vis (Native (DA_setUserRestrictions enable)) settle ;; Ret true)
         (fun _ => Ret false).

Definition enableFullLockdown : prog LockdownResults :=
  call (Enter in_enableFullLockdown) ;;
  admin <- isDeviceAdmin ;;
  if negb admin then
    Ret {| deviceAdmin := admin; kioskMode := false; appHidden := false;
           statusBarDisabled := false; restrictionsSet := false |}
  else
    kiosk <- startLockTaskMode ;;
    hidden <- hideAppFromLauncher ;;
    bar <- disableStatusBar ;;
    restr <- setUserRestrictions true ;;
    Ret {| deviceAdmin := admin; kioskMode := kiosk; appHidden := hidden;
           statusBarDisabled := bar; restrictionsSet := restr |}.

(** Returns nothing ([undefined]). *)
Definition disableFullLockdown : prog unit :=
  call (Enter in_disableFullLockdown) ;;
  stopLockTaskMode ;;
  showAppInLauncher ;;
  enableStatusBar ;;
  setUserRestrictions false ;;
  Ret tt.

End kioskService.

(* ===================================================================== *)
(** ** deviceService: scheduled poll, dispatcher, push listeners *)
(* ===================================================================== *)

Module deviceService.

Definition sendLocalNotification (title body : string) : prog unit :=
  Vis (ScheduleNotification title body) settle.

Definition performFactoryReset : prog unit :=
  call (Enter in_performFactoryReset) ;;
  try_catch (call ClearStore) (fun _ => Ret tt).

Definition ringDevice : prog unit :=
  try_catch
    (Vis Vibrate settle ;;
     call (SetTimeout TVibrationCancel 10000) ;;
     Ret tt)
    (fun _ => Ret tt).

Definition handleCommand (command : string) (status : StatusReport) : prog unit :=
  call (Enter (in_handleCommand command)) ;;
  if decide (command = "lock") then
    call (SetItem "isLocked" "true") ;;
    call (SetItem "lockMessage" (js_or (rep_lockMessage status) "")) ;;
    sendLocalNotification "Device Locked"
      (js_or (rep_lockMessage status) "Your device has been locked")
  else if decide (command = "unlock") then
    call (SetItem "isLocked" "false") ;;
    call (RemoveItem "lockMessage") ;;
    sendLocalNotification "Device Unlocked" "Your device has been unlocked"
  else if decide (command = "reminder") then
    sendLocalNotification "EMI Payment Reminder"
      "Your EMI payment is due. Please pay to avoid device lock."
  else if decide (command = "find" \/ command = "ring") then
    ringDevice ;;
    sendLocalNotification "Find Device" "Your device is ringing. Tap to stop."
  else if decide (command = "expired") then
    call (SetItem "isLocked" "false") ;;
    call (RemoveItem "lockMessage") ;;
    sendLocalNotification "EMI Completed"
      "Congratulations! Your EMI is complete. The device lock will be removed automatically."
  else if decide (command = "reset") then
    sendLocalNotification "Device Reset Initiated"
      "Your device will be reset in 10 seconds. All data will be erased." ;;
    call (SetTimeout TFactoryReset 10000) ;;
    Ret tt
  else Ret tt.

Definition isDeviceLocked : prog bool :=
  locked <- call (GetItem "isLocked") ;;
  Ret (bool_decide (locked = Some "true")).

Section Task.

(** [JSON.stringify] at the two places it is used: on the status object
    and on [{ error, timestamp }]. *)
Variable JSON_status : StatusReport -> string.
Variable JSON_error : string -> N -> string.

(** The body of the task defined under the name ['device-status-check']. *)
Definition BACKGROUND_FETCH_TASK : prog BackgroundFetchResult :=
  startTime <- call DateNow ;;
  try_catch
    (key <- call (GetItem "activationKey") ;;
     if negb (truthy key) then Ret NoData
     else
       let key := default "" key in
       controller <- call NewAbortController ;;
       timeoutId <- call (SetTimeout (TAbort controller) 25000) ;;
       try_catch
         (status <- Vis (GetDeviceStatus key) settle ;;
          call (ClearTimeout timeoutId) ;;
          (if truthy (rep_command status)
              && negb (bool_decide (rep_command status = Some "none"))
           then
             let command := default "" (rep_command status) in
             handleCommand command status ;;
             try_catch
               (Vis (AcknowledgeCommand key command) settle)
               (fun ackError => Ret tt)
           else Ret tt) ;;
          call (SetItem "deviceStatus" (JSON_status status)) ;;
          t <- call DateNow ;;
          call (SetItem "lastSyncTime" (pretty t)) ;;
          finish <- call DateNow ;;
          Ret NewData)
         (fun fetchError =>
            call (ClearTimeout timeoutId) ;;
            Throw fetchError))
    (fun error =>
       finish <- call DateNow ;;
       t <- call DateNow ;;
       call (SetItem "lastSyncError" (JSON_error error t)) ;;
       Ret Failed).

End Task.

(** The two listeners [setupPushNotificationListener] registers, as
    functions of the callback and of the data of the notification. *)
Section Listeners.

Variable onCommandReceived : option (string -> StatusReport -> prog unit).

Definition payload (data : PushData) : StatusReport :=
  {| rep_status := None; rep_command := None;
     rep_lockMessage := push_lockMessage data;
     rep_keyId := push_keyId data |}.

Definition notify_callback (command : string) (data : PushData) : prog unit :=
  match onCommandReceived with
  | Some f => detach (f command (payload data))
  | None => Ret tt
  end.

(** [addNotificationReceivedListener] *)
Definition foregroundListener (data : PushData) : prog unit :=
  if truthy (push_command data) then
    let command := default "" (push_command data) in
    handleCommand command (payload data) ;;
    notify_callback command data ;;
    try_catch
      (k1 <- call (GetItem "keyId") ;;
       keyId <- (if truthy k1 then Ret k1 else call (GetItem "activationKey")) ;;
       if truthy keyId
       then Vis (AcknowledgeCommand (default "" keyId) command) settle
       else Ret tt)
      (fun _ => Ret tt)
  else Ret tt.

(** [addNotificationResponseReceivedListener] *)
Definition responseListener (data : PushData) : prog unit :=
  if truthy (push_command data) then
    let command := default "" (push_command data) in
    handleCommand command (payload data) ;;
    notify_callback command data
  else Ret tt.

End Listeners.

End deviceService.

(* ===================================================================== *)
(** ** App: the callback given to [setupPushNotificationListener] *)
(* ===================================================================== *)

Module App.

Definition onCommandReceived (command : string) (data : StatusReport) : prog unit :=
  if decide (command = "lock") then
    call (SetIsLocked true) ;;
    kioskService.enableFullLockdown ;;
    Ret tt
  else if decide (command = "unlock") then
    call (SetIsLocked false) ;;
    kioskService.disableFullLockdown
  else Ret tt.

Definition foregroundListener : PushData -> prog unit :=
  deviceService.foregroundListener (Some onCommandReceived).

Definition responseListener : PushData -> prog unit :=
  deviceService.responseListener (Some onCommandReceived).

End App.

(* ===================================================================== *)
(** ** HomeScreen: deactivation *)
(* ===================================================================== *)

Module HomeScreen.

(** What the Deactivate button of the confirmation dialog runs (the
    dialogs themselves are not modelled). *)
Definition handleDeactivate : prog unit :=
  call (RemoveItem "activationKey") ;;
  call (RemoveItem "deviceInfo").

End HomeScreen.

(* ===================================================================== *)
(** ** The world and the interpreter *)
(* ===================================================================== *)

(** What the outside answers during one run.  The request for the status
    either fails with a message or gives the status object; an answer
    without a status object makes the task throw as soon as it reads it,
    and is counted among the failures.  A native call either fails or
    returns; only the value [isDeviceAdmin] returns is looked at. *)
Record Env := {
  env_platform : platform;                          (* Platform.OS *)
  env_module : bool;                                (* DeviceAdminModule is defined *)
  env_native : native_op -> result bool;            (* outcome of a native call *)
  env_fetch : string -> result StatusReport;        (* outcome of getDeviceStatus *)
  env_fetch_ms : N;                                 (* how long that request takes *)
  env_ack : string -> string -> result unit;        (* outcome of acknowledgeCommand *)
  env_notify : string -> string -> result unit;     (* outcome of scheduleNotificationAsync *)
  env_vibrate : result unit;                        (* outcome of Vibration.vibrate *)
}.

Record timer := { timer_id : nat; timer_due : N; timer_action_of : timer_action }.

Record World := {
  store : gmap string string;   (* AsyncStorage *)
  now : N;                      (* Date.now() *)
  timers : list timer;          (* pending timeouts, in firing order *)
  next_timer : nat;
  aborted : list nat;           (* abort controllers that were aborted *)
  next_controller : nat;
  ui_locked : bool;             (* the isLocked state of App *)
  trace : list op;              (* operations performed, oldest first *)
}.

Definition set_store (f : gmap string string -> gmap string string) (w : World) : World :=
  {| store := f (store w); now := now w; timers := timers w;
     next_timer := next_timer w; aborted := aborted w;
     next_controller := next_controller w; ui_locked := ui_locked w;
     trace := trace w |}.

Definition set_now (t : N) (w : World) : World :=
  {| store := store w; now := t; timers := timers w;
     next_timer := next_timer w; aborted := aborted w;
     next_controller := next_controller w; ui_locked := ui_locked w;
     trace := trace w |}.

Definition set_timers (l : list timer) (w : World) : World :=
  {| store := store w; now := now w; timers := l;
     next_timer := next_timer w; aborted := aborted w;
     next_controller := next_controller w; ui_locked := ui_locked w;
     trace := trace w |}.

Definition set_next_timer (n : nat) (w : World) : World :=
  {| store := store w; now := now w; timers := timers w;
     next_timer := n; aborted := aborted w;
     next_controller := next_controller w; ui_locked := ui_locked w;
     trace := trace w |}.

Definition set_aborted (l : list nat) (w : World) : World :=
  {| store := store w; now := now w; timers := timers w;
     next_timer := next_timer w; aborted := l;
     next_controller := next_controller w; ui_locked := ui_locked w;
     trace := trace w |}.

Definition set_next_controller (n : nat) (w : World) : World :=
  {| store := store w; now := now w; timers := timers w;
     next_timer := next_timer w; aborted := aborted w;
     next_controller := n; ui_locked := ui_locked w;
     trace := trace w |}.

Definition set_ui_locked (b : bool) (w : World) : World :=
  {| store := store w; now := now w; timers := timers w;
     next_timer := next_timer w; aborted := aborted w;
     next_controller := next_controller w; ui_locked := b;
     trace := trace w |}.

Definition log (o : op) (w : World) : World :=
  {| store := store w; now := now w; timers := timers w;
     next_timer := next_timer w; aborted := aborted w;
     next_controller := next_controller w; ui_locked := ui_locked w;
     trace := trace w ++ [o] |}.

(** The queue of timeouts is kept in firing order: by due time, and among
    equal due times by creation. *)
Fixpoint enqueue (t : timer) (q : list timer) : list timer :=
  match q with
  | [] => [t]
  | u :: q' =>
      if (timer_due u <=? timer_due t)%N then u :: enqueue t q' else t :: u :: q'
  end.

Definition is_due (t0 : N) (t : timer) : bool := (timer_due t <=? t0)%N.

(** One operation.  [wait d] is what happens to the world while the
    program is suspended for [d] milliseconds. *)
Definition exec_op (wait : N -> World -> World) (env : Env) (o : op) (w : World)
  : World * ans o :=
  match o as o' return World * ans o' with
  | GetItem k => (log (GetItem k) w, store w !! k)
  | SetItem k v => (set_store (insert k v) (log (SetItem k v) w), tt)
  | RemoveItem k => (set_store (delete k) (log (RemoveItem k) w), tt)
  | ClearStore => (set_store (fun _ => ∅) (log ClearStore w), tt)
  | DateNow => (log DateNow w, now w)
  | SetTimeout a ms =>
      let id := next_timer w in
      let t := {| timer_id := id; timer_due := now w + ms; timer_action_of := a |} in
      (set_next_timer (S id) (set_timers (enqueue t (timers w)) (log (SetTimeout a ms) w)), id)
  | ClearTimeout id =>
      (set_timers (filter (fun t => timer_id t ≠ id) (timers w)) (log (ClearTimeout id) w), tt)
  | NewAbortController =>
      let c := next_controller w in
      (set_next_controller (S c) (log NewAbortController w), c)
  | Abort c => (set_aborted (c :: aborted w) (log (Abort c) w), tt)
  | GetDeviceStatus k =>
      (wait (env_fetch_ms env) (log (GetDeviceStatus k) w), env_fetch env k)
  | AcknowledgeCommand k c => (log (AcknowledgeCommand k c) w, env_ack env k c)
  | ScheduleNotification t b => (log (ScheduleNotification t b) w, env_notify env t b)
  | Vibrate => (log Vibrate w, env_vibrate env)
  | VibrationCancel => (log VibrationCancel w, tt)
  | PlatformOS => (log PlatformOS w, env_platform env)
  | HasDeviceAdminModule => (log HasDeviceAdminModule w, env_module env)
  | Native n => (log (Native n) w, env_native env n)
  | SetIsLocked b => (set_ui_locked b (log (SetIsLocked b) w), tt)
  | Enter f => (log (Enter f) w, tt)
  end.

Fixpoint run_with (wait : N -> World -> World) (env : Env) {A} (p : prog A) (w : World)
  : World * result A :=
  match p with
  | Ret a => (w, inr a)
  | Throw e => (w, inl e)
  | Vis o k =>
      let r := exec_op wait env o w in
      run_with wait env (k (snd r)) (fst r)
  end.

(** The callback of a timeout. *)
Definition timer_body (a : timer_action) : prog unit :=
  match a with
  | TAbort c => call (Abort c)
  | TFactoryReset => deviceService.performFactoryReset
  | TVibrationCancel => call VibrationCancel
  end.

(** Running a callback: no callback suspends on the network, and what a
    callback throws is dropped. *)
Definition fire (env : Env) (w : World) (t : timer) : World :=
  fst (run_with (fun _ w => w) env (timer_body (timer_action_of t)) w).

(** The timeouts that are due leave the queue and run in order. *)
Definition fire_due (env : Env) (w : World) : World :=
  let ready := filter (fun t => is_due (now w) t = true) (timers w) in
  let later := filter (fun t => is_due (now w) t = false) (timers w) in
  foldl (fire env) (set_timers later w) ready.

(** [d] milliseconds pass. *)
Definition advance (env : Env) (d : N) (w : World) : World :=
  fire_due env (set_now (now w + d) w).

(** A program run to its end; while it is suspended, time passes and the
    timeouts that fall due fire. *)
Definition run (env : Env) {A} (p : prog A) (w : World) : World * result A :=
  run_with (advance env) env p w.

(* ===================================================================== *)
(** ** Observations on the log *)
(* ===================================================================== *)

Fixpoint count {A} (f : A -> bool) (l : list A) : nat :=
  match l with
  | [] => 0%nat
  | x :: l' => ((if f x then 1 else 0) + count f l')%nat
  end.

(** An invocation of the dispatcher. *)
Definition is_dispatch (o : op) : bool :=
  match o with Enter (in_handleCommand _) => true | _ => false end.

(** An acknowledgement sent to the server. *)
Definition is_ack (o : op) : bool :=
  match o with AcknowledgeCommand _ _ => true | _ => false end.

(** A status request sent to the server. *)
Definition is_fetch (o : op) : bool :=
  match o with GetDeviceStatus _ => true | _ => false end.

(** A write to the persistent store. *)
Definition is_write (o : op) : bool :=
  match o with SetItem _ _ | RemoveItem _ | ClearStore => true | _ => false end.

(** A local alert. *)
Definition is_alert (o : op) : bool :=
  match o with ScheduleNotification _ _ => true | _ => false end.

(** The lockdown capability: full lockdown applied, lockdown released. *)
Definition is_apply (o : op) : bool :=
  match o with Enter in_enableFullLockdown => true | _ => false end.

Definition is_release (o : op) : bool :=
  match o with Enter in_disableFullLockdown => true | _ => false end.

Definition is_capability (o : op) : bool := is_apply o || is_release o.

(** The destructive wipe. *)
Definition is_wipe (o : op) : bool :=
  match o with ClearStore => true | _ => false end.

(** A native call that undoes a step of the full lockdown, and one that
    undoes a step of its release. *)
Definition undoes_apply (o : op) : bool :=
  match o with
  | Native DA_stopLockTaskMode | Native DA_showAppInLauncher
  | Native DA_enableStatusBar | Native (DA_setUserRestrictions false) => true
  | _ => false
  end.

Definition undoes_release (o : op) : bool :=
  match o with
  | Native DA_startLockTaskMode | Native DA_hideAppFromLauncher
  | Native DA_disableStatusBar | Native (DA_setUserRestrictions true) => true
  | _ => false
  end.

(** An operation with an effect outside the program (a read of the store,
    of the clock, of the platform, and a log entry have none). *)
Definition is_effect (o : op) : bool :=
  match o with
  | GetItem _ | DateNow | PlatformOS | HasDeviceAdminModule | Enter _ => false
  | _ => true
  end.

Definition is_reset_timer (t : timer) : bool :=
  match timer_action_of t with TFactoryReset => true | _ => false end.

(** The wipes that are scheduled and have not fired. *)
Definition pending_resets (w : World) : nat := count is_reset_timer (timers w).

(** What the callback of a timeout adds to the log. *)
Definition timer_events (t : timer) : list op :=
  match timer_action_of t with
  | TAbort c => [Abort c]
  | TFactoryReset => [Enter in_performFactoryReset; ClearStore]
  | TVibrationCancel => [VibrationCancel]
  end.

Definition timer_aborts (t : timer) : list nat :=
  match timer_action_of t with TAbort c => [c] | _ => [] end.

(* ===================================================================== *)
(** ** Sequences of dispatches, and time passing between them *)
(* ===================================================================== *)

Inductive step :=
| Dispatch (env : Env) (command : string) (status : StatusReport)
| Wait (env : Env) (d : N).

Definition do_step (w : World) (s : step) : World :=
  match s with
  | Dispatch env command status =>
      fst (run env (deviceService.handleCommand command status) w)
  | Wait env d => advance env d w
  end.

Definition play (l : list step) (w : World) : World := foldl do_step w l.

Fixpoint elapsed (l : list step) : N :=
  match l with
  | [] => 0
  | Dispatch _ _ _ :: l' => elapsed l'
  | Wait _ d :: l' => d + elapsed l'
  end.

Definition is_dispatch_step (s : step) : bool :=
  match s with Dispatch _ _ _ => true | Wait _ _ => false end.

(** The same command dispatched [n] times in a row. *)
Fixpoint dispatch_times (n : nat) (env : Env) (command : string) (status : StatusReport)
  (w : World) : World :=
  match n with
  | O => w
  | S n' =>
      dispatch_times n' env command status
        (fst (run env (deviceService.handleCommand command status) w))
  end.

(* ===================================================================== *)
(** ** Two cycles in flight at once *)
(* ===================================================================== *)

(** A cycle in flight: what the outside answers to it, and what remains
    of it.  Between two operations of one cycle the other may take any
    number of its own; the clock is left alone. *)
Definition thread : Type := Env * prog unit.

Definition void {A} (p : prog A) : prog unit := p ;; Ret tt.

Definition step_thread (t : thread) (w : World) : option (World * op * thread) :=
  match snd t with
  | Vis o k =>
      let r := exec_op (fun _ w => w) (fst t) o w in
      Some (fst r, o, (fst t, k (snd r)))
  | _ => None
  end.

(** One thread alone to its end; its operations are tagged [b]. *)
Fixpoint finish (b : bool) (env : Env) (p : prog unit) (w : World)
  : World * list (bool * op) :=
  match p with
  | Vis o k =>
      let r := exec_op (fun _ w => w) env o w in
      let r' := finish b env (k (snd r)) (fst r) in
      (fst r', (b, o) :: snd r')
  | _ => (w, [])
  end.

(** [sched] says whose turn it is ([false]: the first thread, [true]: the
    second); a turn given to a thread that has ended is lost; when the
    schedule runs out the first thread is completed, then the second.  The
    result is the world and the operations in the order they were taken,
    each tagged with its thread. *)
Fixpoint interleave (sched : list bool) (t1 t2 : thread) (w : World)
  : World * list (bool * op) :=
  match sched with
  | [] =>
      let r1 := finish false (fst t1) (snd t1) w in
      let r2 := finish true (fst t2) (snd t2) (fst r1) in
      (fst r2, (snd r1 ++ snd r2)%list)
  | b :: sched' =>
      match step_thread (if b then t2 else t1) w with
      | Some (w', o, t') =>
          let r := interleave sched' (if b then t1 else t') (if b then t' else t2) w' in
          (fst r, (b, o) :: snd r)
      | None => interleave sched' t1 t2 w
      end
  end.

(** The operations of one thread in a tagged log. *)
Definition of_thread (b : bool) (l : list (bool * op)) : list op :=
  snd <$> filter (fun x => fst x = b) l.

(** Keys of the store whose value is known and stays the same: [known k]
    is [Some v] when [getItem k] is known to give [v]. *)
Definition knowledge : Type := string -> option (option string).

Definition nothing_known : knowledge := fun _ => None.

Definition holds (known : knowledge) (w : World) : Prop :=
  forall k v, known k = Some v -> store w !! k = v.

(** What the environment and the known keys fix about the answer to an
    operation. *)
Definition answer_ok (env : Env) (known : knowledge) (o : op) : ans o -> Prop :=
  match o as o' return ans o' -> Prop with
  | GetItem k => fun a => forall v, known k = Some v -> a = v
  | GetDeviceStatus k => fun a => a = env_fetch env k
  | AcknowledgeCommand k c => fun a => a = env_ack env k c
  | ScheduleNotification t b => fun a => a = env_notify env t b
  | Vibrate => fun a => a = env_vibrate env
  | PlatformOS => fun a => a = env_platform env
  | HasDeviceAdminModule => fun a => a = env_module env
  | Native n => fun a => a = env_native env n
  | _ => fun _ => True
  end.

(** The operation leaves the known keys alone. *)
Definition keeps (known : knowledge) (o : op) : Prop :=
  match o with
  | SetItem k _ | RemoveItem k => known k = None
  | ClearStore => forall k, known k = None
  | _ => True
  end.

(** [emits env known f p n]: in every run of [p] against [env] in which
    the known keys answer as known, whatever else the store, the clock and
    the timers answer, [p] leaves the known keys alone and exactly [n] of
    its operations satisfy [f]. *)
Fixpoint emits (env : Env) (known : knowledge) (f : op -> bool) {A} (p : prog A) (n : nat)
  : Prop :=
  match p with
  | Ret _ | Throw _ => n = 0%nat
  | Vis o k =>
      keeps known o /\
      exists m, n = ((if f o then 1 else 0) + m)%nat /\
                forall a, answer_ok env known o a -> emits env known f (k a) m
  end.

(** The same for a program that, moreover, always returns. *)
Fixpoint returns (env : Env) (known : knowledge) (f : op -> bool) {A} (p : prog A) (n : nat)
  : Prop :=
  match p with
  | Ret _ => n = 0%nat
  | Throw _ => False
  | Vis o k =>
      keeps known o /\
      exists m, n = ((if f o then 1 else 0) + m)%nat /\
                forall a, answer_ok env known o a -> returns env known f (k a) m
  end.

(** A predicate on tagged operations, given per thread. *)
Definition tagged (f : bool -> op -> bool) (x : bool * op) : bool := f (fst x) (snd x).

(** The world after the callbacks of the timeouts [l] have run, in closed
    form (see [foldl_fire]). *)
Definition fired (l : list timer) (w : World) : World :=
  {| store := if existsb is_reset_timer l then ∅ else store w;
     now := now w; timers := timers w; next_timer := next_timer w;
     aborted := (rev (concat (timer_aborts <$> l)) ++ aborted w)%list;
     next_controller := next_controller w; ui_locked := ui_locked w;
     trace := (trace w ++ concat (timer_events <$> l))%list |}.

(* ===================================================================== *)
(** ** The lockdown capability at its boundary *)
(* ===================================================================== *)

(** The operations of the lockdown capability. *)
Inductive capability :=
| cap_startLockTaskMode
| cap_stopLockTaskMode
| cap_hideAppFromLauncher
| cap_showAppInLauncher
| cap_disableStatusBar
| cap_enableStatusBar
| cap_setUserRestrictions (enable : bool)
| cap_enableFullLockdown
| cap_disableFullLockdown.

(** What a call of such an operation evaluates to. *)
Inductive js_value :=
| js_bool (b : bool)
| js_results (r : LockdownResults)
| js_undefined.

Definition capability_call (c : capability) : prog js_value :=
  match c with
  | cap_startLockTaskMode => b <- kioskService.startLockTaskMode ;; Ret (js_bool b)
  | cap_stopLockTaskMode => b <- kioskService.stopLockTaskMode ;; Ret (js_bool b)
  | cap_hideAppFromLauncher => b <- kioskService.hideAppFromLauncher ;; Ret (js_bool b)
  | cap_showAppInLauncher => b <- kioskService.showAppInLauncher ;; Ret (js_bool b)
  | cap_disableStatusBar => b <- kioskService.disableStatusBar ;; Ret (js_bool b)
  | cap_enableStatusBar => b <- kioskService.enableStatusBar ;; Ret (js_bool b)
  | cap_setUserRestrictions enable =>
      b <- kioskService.setUserRestrictions enable ;; Ret (js_bool b)
  | cap_enableFullLockdown => r <- kioskService.enableFullLockdown ;; Ret (js_results r)
  | cap_disableFullLockdown => kioskService.disableFullLockdown ;; Ret js_undefined
  end.

(** The native module cannot be used: another platform, or no module. *)
Definition no_native (env : Env) : Prop :=
  env_platform env <> android \/ env_module env = false.

(** The native call behind one of the seven single-step operations. *)
Definition native_of (c : capability) : option native_op :=
  match c with
  | cap_startLockTaskMode => Some DA_startLockTaskMode
  | cap_stopLockTaskMode => Some DA_stopLockTaskMode
  | cap_hideAppFromLauncher => Some DA_hideAppFromLauncher
  | cap_showAppInLauncher => Some DA_showAppInLauncher
  | cap_disableStatusBar => Some DA_disableStatusBar
  | cap_enableStatusBar => Some DA_enableStatusBar
  | cap_setUserRestrictions enable => Some (DA_setUserRestrictions enable)
  | _ => None
  end.

Definition native_fails (env : Env) (n : native_op) : Prop :=
  exists e, env_native env n = inl e.

(** A results record in which a step that could not be taken is [false]. *)
Definition marks_failures (env : Env) (r : LockdownResults) : Prop :=
  (no_native env -> r = {| deviceAdmin := false; kioskMode := false; appHidden := false;
                           statusBarDisabled := false; restrictionsSet := false |}) /\
  (native_fails env DA_isDeviceAdmin -> deviceAdmin r = false) /\
  (native_fails env DA_startLockTaskMode -> kioskMode r = false) /\
  (native_fails env DA_hideAppFromLauncher -> appHidden r = false) /\
  (native_fails env DA_disableStatusBar -> statusBarDisabled r = false) /\
  (native_fails env (DA_setUserRestrictions true) -> restrictionsSet r = false).

(* ===================================================================== *)
(** ** Inputs of the examples *)
(* ===================================================================== *)

(** Stand-ins for [JSON.stringify] in the examples. *)
Definition show_status (st : StatusReport) : string :=
  "{status:" +:+ default "" (rep_status st) +:+ ",command:"
    +:+ default "" (rep_command st) +:+ "}".

Definition show_error (e : string) (t : N) : string :=
  "{error:" +:+ e +:+ ",timestamp:" +:+ pretty t +:+ "}".

Definition report (status command : string) (lockMessage : option string) : StatusReport :=
  {| rep_status := Some status; rep_command := Some command;
     rep_lockMessage := lockMessage; rep_keyId := None |}.

Definition push (command : string) (lockMessage : option string) : PushData :=
  {| push_command := Some command; push_lockMessage := lockMessage;
     push_keyId := Some "ABC123" |}.

(** Android with the native module; every call succeeds; the server
    answers [st] after [ms] milliseconds. *)
Definition env_up (st : StatusReport) (ms : N) : Env :=
  {| env_platform := android; env_module := true;
     env_native := fun _ => inr true;
     env_fetch := fun _ => inr st; env_fetch_ms := ms;
     env_ack := fun _ _ => inr tt;
     env_notify := fun _ _ => inr tt;
     env_vibrate := inr tt |}.

(** The same, but the server cannot be reached. *)
Definition env_down (e : error) (ms : N) : Env :=
  {| env_platform := android; env_module := true;
     env_native := fun _ => inr true;
     env_fetch := fun _ => inl e; env_fetch_ms := ms;
     env_ack := fun _ _ => inl e;
     env_notify := fun _ _ => inr tt;
     env_vibrate := inr tt |}.

(** A platform without the native module. *)
Definition env_ios (st : StatusReport) : Env :=
  {| env_platform := ios; env_module := false;
     env_native := fun _ => inl "unavailable";
     env_fetch := fun _ => inr st; env_fetch_ms := 100;
     env_ack := fun _ _ => inr tt;
     env_notify := fun _ _ => inr tt;
     env_vibrate := inr tt |}.

(** A fresh installation, and an activated one at time [1000]. *)
Definition fresh : World :=
  {| store := ∅; now := 0; timers := []; next_timer := 0; aborted := [];
     next_controller := 0; ui_locked := false; trace := [] |}.

Definition activated : World :=
  {| store := {[ "activationKey" := "ABC123"; "keyId" := "ABC123" ]};
     now := 1000; timers := []; next_timer := 0; aborted := [];
     next_controller := 0; ui_locked := false; trace := [] |}.

(** The same device, locked. *)
Definition locked_device : World := set_store (insert "isLocked" "true") activated.

(** The same as [env_up], but the notification service rejects. *)
Definition env_mute (st : StatusReport) (ms : N) : Env :=
  {| env_platform := android; env_module := true;
     env_native := fun _ => inr true;
     env_fetch := fun _ => inr st; env_fetch_ms := ms;
     env_ack := fun _ _ => inr tt;
     env_notify := fun _ _ => inl "Notifications are not allowed";
     env_vibrate := inr tt |}.

(** The server reports Lock with a message; the same arrives by push. *)
Definition lock_report : StatusReport := report "locked" "lock" (Some "Pay EMI").

Definition lock_push_data : PushData := push "lock" (Some "Pay EMI").

(** The server answers after thirty seconds, and has no command. *)
Definition slow_server : Env := env_up (report "active" "none" None) 30000.

(* ===================================================================== *)
(** ** Conditions on a cycle *)
(* ===================================================================== *)

(** The report carries a command the poll acts on. *)
Definition actionable (st : StatusReport) (c : string) : Prop :=
  rep_command st = Some c /\ c <> "" /\ c <> "none".

(** Against [env], dispatching [command] raises [e] / returns. *)
Definition dispatch_raises (env : Env) (command : string) (status : StatusReport)
  (e : error) : Prop :=
  forall w, snd (run env (deviceService.handleCommand command status) w) = inl e.

Definition dispatch_returns (env : Env) (command : string) (status : StatusReport) : Prop :=
  forall w, snd (run env (deviceService.handleCommand command status) w) = inr tt.

(* ===================================================================== *)
(** ** Closed forms for the lockdown capability *)
(* ===================================================================== *)

(** The native module can be used. *)
Definition available (env : Env) : bool :=
  match env_platform env with
  | android => env_module env
  | _ => false
  end.

Definition is_ok {A} (r : result A) : bool :=
  match r with inr _ => true | inl _ => false end.

(** The common shape of the seven single-step operations: the native call
    [n], then the flag written to the store if there is one. *)
Definition single_step (n : native_op) (flag : option (string * string)) : prog bool :=
  un <- kioskService.unavailable ;;
  if un then Ret false
  else try_catch
         (Vis (Native n) settle ;;
          match flag with
          | Some (k, v) => call (SetItem k v) ;; Ret true
          | None => Ret true
          end)
         (fun _ => Ret false).

(** The world after the test of the platform and of the module. *)
Definition probed (env : Env) (w : World) : World :=
  match env_platform env with
  | android => log HasDeviceAdminModule (log PlatformOS w)
  | _ => log PlatformOS w
  end.

Definition write_flag (flag : option (string * string)) (w : World) : World :=
  match flag with
  | Some (k, v) => set_store (insert k v) (log (SetItem k v) w)
  | None => w
  end.

(** The result of a single step, and the world after it. *)
Definition step_ok (env : Env) (n : native_op) : bool :=
  available env && is_ok (env_native env n).

Definition after_step (env : Env) (n : native_op) (flag : option (string * string))
  (w : World) : World :=
  if available env then
    if is_ok (env_native env n)
    then write_flag flag (log (Native n) (probed env w))
    else log (Native n) (probed env w)
  else probed env w.

(** The answer of [isDeviceAdmin]. *)
Definition admin_granted (env : Env) : bool :=
  available env &&
  match env_native env DA_isDeviceAdmin with inr b => b | inl _ => false end.

(** The record returned by [enableFullLockdown], and the world after it. *)
Definition lockdown_results (env : Env) : LockdownResults :=
  if admin_granted env then
    {| deviceAdmin := true;
       kioskMode := step_ok env DA_startLockTaskMode;
       appHidden := step_ok env DA_hideAppFromLauncher;
       statusBarDisabled := step_ok env DA_disableStatusBar;
       restrictionsSet := step_ok env (DA_setUserRestrictions true) |}
  else
    {| deviceAdmin := false; kioskMode := false; appHidden := false;
       statusBarDisabled := false; restrictionsSet := false |}.

Definition lockdown_world (env : Env) (w : World) : World :=
  let w1 := after_step env DA_isDeviceAdmin None (log (Enter in_enableFullLockdown) w) in
  if admin_granted env then
    after_step env (DA_setUserRestrictions true) None
      (after_step env DA_disableStatusBar None
         (after_step env DA_hideAppFromLauncher (Some ("appHidden", "true"))
            (after_step env DA_startLockTaskMode (Some ("kioskModeActive", "true")) w1)))
  else w1.

(** The world after [disableFullLockdown]. *)
Definition released_world (env : Env) (w : World) : World :=
  after_step env (DA_setUserRestrictions false) None
    (after_step env DA_enableStatusBar None
       (after_step env DA_showAppInLauncher (Some ("appHidden", "false"))
          (after_step env DA_stopLockTaskMode (Some ("kioskModeActive", "false"))
             (log (Enter in_disableFullLockdown) w)))).

(** An observation that ignores the bookkeeping of a cycle: the probes of
    the platform, the native calls and the flags of the lockdown, the
    reads of the store and of the clock, the timeout of the request, the
    request itself, the acknowledgement, the record of the sync. *)
Definition ignores_bookkeeping (f : op -> bool) : Prop :=
  f PlatformOS = false /\ f HasDeviceAdminModule = false /\
  (forall n, f (Native n) = false) /\
  (forall v, f (SetItem "kioskModeActive" v) = false) /\
  (forall v, f (SetItem "appHidden" v) = false) /\
  (forall k, f (GetItem k) = false) /\
  (forall k c, f (AcknowledgeCommand k c) = false) /\
  f DateNow = false /\ f NewAbortController = false /\
  (forall a ms, f (SetTimeout a ms) = false) /\
  (forall i, f (ClearTimeout i) = false) /\
  (forall k, f (GetDeviceStatus k) = false) /\
  (forall v, f (SetItem "deviceStatus" v) = false) /\
  (forall v, f (SetItem "lastSyncTime" v) = false).

(** The known keys are none of those a cycle writes. *)
Definition apart (known : knowledge) : Prop :=
  known "isLocked" = None /\ known "lockMessage" = None /\
  known "kioskModeActive" = None /\ known "appHidden" = None /\
  known "deviceStatus" = None /\ known "lastSyncTime" = None /\
  known "lastSyncError" = None.

(** Only the identity is known. *)
Definition identity_known (key : string) : knowledge :=
  fun k => if decide (k = "activationKey") then Some (Some key) else None.

(** What a delivery of Lock does besides the bookkeeping: through the
    poll, and through the foreground listener of [App]. *)
Definition lock_dispatch (lockMessage : option string) : list op :=
  [Enter (in_handleCommand "lock");
   SetItem "isLocked" "true";
   SetItem "lockMessage" (js_or lockMessage "");
   ScheduleNotification "Device Locked" (js_or lockMessage "Your device has been locked")].

Definition lock_push (lockMessage : option string) : list op :=
  (lock_dispatch lockMessage ++ [SetIsLocked true; Enter in_enableFullLockdown])%list.

Section Threads.
Variable JSON_status : StatusReport -> string.
Variable JSON_error : string -> N -> string.

(** A poll in flight, and a push delivery in flight in the foreground
    listener of [App]. *)
Definition poll_thread (env : Env) : thread :=
  (env, void (deviceService.BACKGROUND_FETCH_TASK JSON_status JSON_error)).

Definition push_thread (env : Env) (d : PushData) : thread :=
  (env, App.foregroundListener d).

End Threads.

(* ===================================================================== *)
(** ** Properties as the specification states them *)
(* ===================================================================== *)

Section Stated.
Variable JSON_status : StatusReport -> string.
Variable JSON_error : string -> N -> string.

(** Idempotence guard: of two polls in succession that receive the same
    command, the second short-circuits to NoData; one dispatch and one
    acknowledgement in all. *)
Definition idempotence_guard (env : Env) (w : World) : Prop :=
  let r1 := run env (deviceService.BACKGROUND_FETCH_TASK JSON_status JSON_error) w in
  let r2 := run env (deviceService.BACKGROUND_FETCH_TASK JSON_status JSON_error) (fst r1) in
  snd r2 = inr NoData /\
  count is_dispatch (trace (fst r2)) = S (count is_dispatch (trace w)) /\
  count is_ack (trace (fst r2)) = S (count is_ack (trace w)).

End Stated.

(** Race safety: of two cycles in flight, exactly one lockdown-capability
    invocation in all, and one of the two performs no side effect. *)
Definition race_safe (l : list (bool * op)) : Prop :=
  count (tagged (fun _ => is_capability)) l = 1%nat /\
  exists b, count is_effect (of_thread b l) = 0%nat.

(** Single destructive reset: a second Reset dispatched while the first is
    pending schedules no further wipe, and one wipe fires. *)
Definition converges_to_one_wipe (env : Env) (status : StatusReport) (w : World) : Prop :=
  let w2 := dispatch_times 2 env "reset" status w in
  pending_resets w2 = S (pending_resets w) /\
  count is_wipe (trace (advance env 10000 w2)) = S (count is_wipe (trace w)).

(** State convergence: from the unlocked state, dispatching Lock,
    Reminder and Unlock ends unlocked, the lock message persisted by Lock
    and cleared by Unlock, with exactly two invocations of the lockdown
    capability (one apply for Lock, one release for Unlock) and none for
    Reminder. *)
Definition state_convergence (env : Env) (lock reminder unlock : StatusReport)
    (w : World) : Prop :=
  snd (run env deviceService.isDeviceLocked w) = inr false ->
  let w1 := play [Dispatch env "lock" lock] w in
  let w2 := play [Dispatch env "reminder" reminder] w1 in
  let w3 := play [Dispatch env "unlock" unlock] w2 in
  snd (run env deviceService.isDeviceLocked w3) = inr false /\
  store w1 !! "lockMessage" = Some (js_or (rep_lockMessage lock) "") /\
  store w3 !! "lockMessage" = None /\
  count is_apply (trace w1) = S (count is_apply (trace w)) /\
  count is_capability (trace w2) = count is_capability (trace w1) /\
  count is_release (trace w3) = S (count is_release (trace w2)) /\
  count is_capability (trace w3) = S (S (count is_capability (trace w))).

(** Fail-open after deactivation: once the Deactivate button has run, the
    lock query reports unlocked. *)
Definition unlocked_after_deactivation (env : Env) (w : World) : Prop :=
  snd (run env deviceService.isDeviceLocked
         (fst (run env HomeScreen.handleDeactivate w))) = inr false.

(** Capability totality: where the native module cannot be used or a
    native call fails, the operation returns false, or a results record
    with the failed steps marked false. *)
Definition false_or_results (c : capability) (env : Env) (w : World) : Prop :=
  (no_native env \/ exists n, native_fails env n) ->
  exists w' v,
    run env (capability_call c) w = (w', inr v) /\
    (v = js_bool false \/ exists r, v = js_results r /\ marks_failures env r).

(* ===================================================================== *)
(** ** The poll in closed form *)
(* ===================================================================== *)

(** The report carries a command the poll acts on (as a test). *)
Definition acts_on (st : StatusReport) : bool :=
  truthy (rep_command st) && negb (bool_decide (rep_command st = Some "none")).

(** The world when the request for the status has been sent and answered:
    the controller and its timeout of 25 s exist, the time of the request
    has passed. *)
Definition requested (env : Env) (key : string) (w : World) : World :=
  advance env (env_fetch_ms env)
    (log (GetDeviceStatus key)
       (set_next_timer (S (next_timer w))
          (set_timers
             (enqueue {| timer_id := next_timer w; timer_due := now w + 25000;
                         timer_action_of := TAbort (next_controller w) |} (timers w))
             (log (SetTimeout (TAbort (next_controller w)) 25000)
                (set_next_controller (S (next_controller w))
                   (log NewAbortController
                      (log (GetItem "activationKey") (log DateNow w)))))))).

(** [clearTimeout id] *)
Definition cleared (id : nat) (w : World) : World :=
  set_timers (filter (fun t => timer_id t ≠ id) (timers w)) (log (ClearTimeout id) w).

Section ClosedForm.
Variable JSON_status : StatusReport -> string.
Variable JSON_error : string -> N -> string.

(** The handler of the outer [catch]. *)
Definition recorded_failure (e : error) (w : World) : World :=
  set_store (insert "lastSyncError" (JSON_error e (now w)))
    (log (SetItem "lastSyncError" (JSON_error e (now w)))
       (log DateNow (log DateNow w))).

(** The end of a poll that was answered. *)
Definition recorded_sync (st : StatusReport) (w : World) : World :=
  log DateNow
    (set_store (insert "lastSyncTime" (pretty (now w)))
       (log (SetItem "lastSyncTime" (pretty (now w)))
          (log DateNow
             (set_store (insert "deviceStatus" (JSON_status st))
                (log (SetItem "deviceStatus" (JSON_status st)) w))))).

(** The result of the poll and the world after it, case by case. *)
Definition poll_outcome (env : Env) (w : World) : World * result BackgroundFetchResult :=
  if truthy (store w !! "activationKey") then
    let key := default "" (store w !! "activationKey") in
    let id := next_timer w in
    let wa := requested env key w in
    match env_fetch env key with
    | inl e => (recorded_failure e (cleared id wa), inr Failed)
    | inr st =>
        if acts_on st then
          let c := default "" (rep_command st) in
          let r := run env (deviceService.handleCommand c st) (cleared id wa) in
          match snd r with
          | inl e => (recorded_failure e (cleared id (fst r)), inr Failed)
          | inr _ =>
              (recorded_sync st (log (AcknowledgeCommand key c) (fst r)), inr NewData)
          end
        else (recorded_sync st (cleared id wa), inr NewData)
    end
  else (log (GetItem "activationKey") (log DateNow w), inr NoData).

End ClosedForm.

(** An observation that is blind to what a timeout does other than wipe. *)
Definition blind_to_timeouts (f : op -> bool) : Prop :=
  (forall c, f (Abort c) = false) /\ f VibrationCancel = false /\
  f (Enter in_performFactoryReset) = false.


(** The same environment, but the acknowledgement answers [a]. *)
Definition with_ack (a : string -> string -> result unit) (env : Env) : Env :=
  {| env_platform := env_platform env; env_module := env_module env;
     env_native := env_native env; env_fetch := env_fetch env;
     env_fetch_ms := env_fetch_ms env; env_ack := a;
     env_notify := env_notify env; env_vibrate := env_vibrate env |}.

(** The commands the dispatcher has a case for. *)
Definition known_commands : list string :=
  ["lock"; "unlock"; "reminder"; "find"; "ring"; "expired"; "reset"].

(** Controller [c] has not been aborted and no pending timeout aborts it. *)
Definition unabortable (c : nat) (w : World) : Prop :=
  (c ∉ aborted w) /\ forall t, t ∈ timers w -> timer_action_of t <> TAbort c.



(** The timeout that stops the vibration of a ring started in [w]. *)
Definition ring_timeout (w : World) : timer :=
  {| timer_id := next_timer w; timer_due := now w + 10000;
     timer_action_of := TVibrationCancel |}.

(** The identity under which the foreground listener acknowledges: the
    stored [keyId], else the stored [activationKey], else none. *)
Definition push_ack_key (s : gmap string string) : option string :=
  if truthy (s !! "keyId") then s !! "keyId"
  else if truthy (s !! "activationKey") then s !! "activationKey"
  else None.

(** An acknowledgement of [command] under the identity [key]. *)
Definition acks_as (key command : string) (o : op) : bool :=
  match o with
  | AcknowledgeCommand k c => String.eqb k key && String.eqb c command
  | _ => false
  end.

(** The acknowledgement at the end of the foreground listener, and the
    world after it. *)
Definition acknowledge_push (command : string) : prog unit :=
  try_catch
    (k1 <- call (GetItem "keyId") ;;
     keyId <- (if truthy k1 then Ret k1 else call (GetItem "activationKey")) ;;
     if truthy keyId
     then Vis (AcknowledgeCommand (default "" keyId) command) settle
     else Ret tt)
    (fun _ => Ret tt).

Definition acknowledged_push (command : string) (w : World) : World :=
  if truthy (store w !! "keyId") then
    log (AcknowledgeCommand (default "" (store w !! "keyId")) command)
      (log (GetItem "keyId") w)
  else if truthy (store w !! "activationKey") then
    log (AcknowledgeCommand (default "" (store w !! "activationKey")) command)
      (log (GetItem "activationKey") (log (GetItem "keyId") w))
  else log (GetItem "activationKey") (log (GetItem "keyId") w).

(** An observation that ignores what the callback of [App] does. *)
Definition ignores_callback (f : op -> bool) : Prop :=
  f PlatformOS = false /\ f HasDeviceAdminModule = false /\
  (forall n, f (Native n) = false) /\ (forall k v, f (SetItem k v) = false) /\
  (forall b, f (SetIsLocked b) = false) /\
  f (Enter in_enableFullLockdown) = false /\ f (Enter in_disableFullLockdown) = false.

#[global] Instance native_op_eq_dec : EqDecision native_op.
Proof. solve_decision. Defined.

(** A call of the method [n] of the native module. *)
Definition calls (n : native_op) (o : op) : bool :=
  match o with Native m => bool_decide (m = n) | _ => false end.

(** The native calls of the full lockdown, and those of its release. *)
Definition lockdown_steps : list native_op :=
  [DA_startLockTaskMode; DA_hideAppFromLauncher; DA_disableStatusBar;
   DA_setUserRestrictions true].

Definition release_steps : list native_op :=
  [DA_stopLockTaskMode; DA_showAppInLauncher; DA_enableStatusBar;
   DA_setUserRestrictions false].

Definition nothing_locked_down : LockdownResults :=
  {| deviceAdmin := false; kioskMode := false; appHidden := false;
     statusBarDisabled := false; restrictionsSet := false |}.

(* ===================================================================== *)
(** ** App: what its effect installs *)
(* ===================================================================== *)

Module AppEffect.

(** The callback of the interval that monitors the lock, in a render in
    which the state [isLocked] of [App] is [isLocked]. *)
Definition lockCheckInterval (isLocked : bool) : prog unit :=
  locked <- deviceService.isDeviceLocked ;;
  if negb (Bool.eqb locked isLocked) then call (SetIsLocked locked) else Ret tt.

End AppEffect.

(** Further inputs of the examples: a report without a command, one with
    a command the dispatcher does not know, and an environment in which
    device admin has not been granted. *)
Definition quiet_report : StatusReport := report "active" "none" None.

Definition odd_report : StatusReport := report "active" "selfdestruct" None.

Definition env_no_admin : Env :=
  {| env_platform := android; env_module := true;
     env_native := fun n => match n with DA_isDeviceAdmin => inr false | _ => inr true end;
     env_fetch := fun _ => inr lock_report; env_fetch_ms := 120;
     env_ack := fun _ _ => inr tt;
     env_notify := fun _ _ => inr tt;
     env_vibrate := inr tt |}.

(** An activated device on which a Reset has been dispatched at time
    [1000]: its wipe is pending for time [11000]. *)
Definition reset_pending : World :=
  fst (run (env_up lock_report 120) (deviceService.handleCommand "reset" quiet_report)
         activated).

(* ===================================================================== *)
(** ** The start of the app: registration of the task, the push token *)
(* ===================================================================== *)

(** The dialogs of the module [permissions] ([Alert.alert]). *)
Inductive alert :=
| PermissionsExplanation         (* 'Security Permissions Required' *)
| BackgroundLocationImportance   (* 'Background Location Required' *)
| BatteryOptimization            (* 'Battery Optimization' *)
| PermissionsDenied.             (* 'Critical Permissions Missing' *)

(** The operations the start of the app uses besides those of the sync
    engine: the task manager, the request for the notification
    permission, the push token of the device, the update of the device
    record; in the module [permissions], the dialogs and the requests
    for the camera and for the location; and, in [App], the notification
    channel, the two states [isActivated] and [isLoading], the
    installation of the listeners.

    A dialog that is awaited resolves when its button is pressed; the
    button is taken to be pressed. *)
Inductive setup_op :=
| Base (o : op)
| IsTaskRegistered     (* TaskManager.isTaskRegisteredAsync(BACKGROUND_FETCH_TASK) *)
| UnregisterTask       (* BackgroundFetch.unregisterTaskAsync(BACKGROUND_FETCH_TASK) *)
| RegisterTask (minimumInterval : N) (stopOnTerminate startOnBoot : bool)
| RequestPermissions   (* Notifications.requestPermissionsAsync() *)
| GetDevicePushToken   (* Notifications.getDevicePushTokenAsync() *)
| UpdateDeviceInfo (deviceId fcmToken : string)
| ShowAlert (a : alert)          (* Alert.alert(...) *)
| RequestCameraPermissions       (* Camera.requestCameraPermissionsAsync() *)
| RequestForegroundLocation      (* Location.requestForegroundPermissionsAsync() *)
| RequestBackgroundLocation      (* Location.requestBackgroundPermissionsAsync() *)
| SetNotificationChannel         (* Notifications.setNotificationChannelAsync(...) *)
| SetIsActivated (b : bool)
| SetIsLoading (b : bool)
| InstallListeners.              (* setupPushNotificationListener(callback) *)

(** What they give back.  A permission request gives the [status] of
    its answer; the push token gives the [data] of its answer, [None]
    when there is none. *)
Definition setup_ans (o : setup_op) : Type :=
  match o with
  | Base o' => ans o'
  | IsTaskRegistered => result bool
  | UnregisterTask | RegisterTask _ _ _ | UpdateDeviceInfo _ _ => result unit
  | RequestPermissions => result string
  | GetDevicePushToken => result (option string)
  | ShowAlert _ => unit
  | RequestCameraPermissions | RequestForegroundLocation
  | RequestBackgroundLocation => result string
  | SetNotificationChannel => result unit
  | SetIsActivated _ | SetIsLoading _ | InstallListeners => unit
  end.

Inductive setup (A : Type) : Type :=
| SRet (a : A)
| SThrow (e : error)
| SVis (o : setup_op) (k : setup_ans o -> setup A).

Arguments SRet {A} a.
Arguments SThrow {A} e.
Arguments SVis {A} o k.

Fixpoint sbind {A B} (p : setup A) (f : A -> setup B) : setup B :=
  match p with
  | SRet a => f a
  | SThrow e => SThrow e
  | SVis o k => SVis o (fun x => sbind (k x) f)
  end.

Fixpoint stry {A} (p : setup A) (h : error -> setup A) : setup A :=
  match p with
  | SRet a => SRet a
  | SThrow e => h e
  | SVis o k => SVis o (fun x => stry (k x) h)
  end.

Definition scall (o : setup_op) : setup (setup_ans o) := SVis o SRet.

Definition ssettle {A} (r : result A) : setup A :=
  match r with
  | inl e => SThrow e
  | inr a => SRet a
  end.

Declare Scope setup_scope.
Delimit Scope setup_scope with setup.
Bind Scope setup_scope with setup.
Notation "x <- p ;; q" := (sbind p (fun x => q))
  (at level 100, p at next level, right associativity) : setup_scope.
Notation "p ;; q" := (sbind p (fun _ => q))
  (at level 100, right associativity) : setup_scope.

Module deviceSetup.

Section Build.

(** The constant [__DEV__] of the build: true in a development build. *)
Variable DEV : bool.

Definition registerBackgroundFetch : setup unit :=
  stry
    (os <- scall (Base PlatformOS) ;;
     let isExpoGo := match os with android => negb DEV | _ => false end in
     if isExpoGo then SRet tt
     else
       isRegistered <- SVis IsTaskRegistered ssettle ;;
       (if isRegistered then SVis UnregisterTask ssettle else SRet tt) ;;
       SVis (RegisterTask (15 * 60) false true) ssettle ;;
       t <- scall (Base DateNow) ;;
       scall (Base (SetItem "backgroundTaskRegistered" (pretty t))))%setup
    (fun _ => SRet tt).

End Build.

Definition unregisterBackgroundFetch : setup unit :=
  stry (SVis UnregisterTask ssettle) (fun _ => SRet tt).

Definition requestNotificationPermissions : setup bool :=
  (status <- SVis RequestPermissions ssettle ;;
   SRet (bool_decide (status = "granted")))%setup.

(** Returns the token, or null ([None]). *)
Definition getFCMToken : setup (option string) :=
  stry (SVis GetDevicePushToken ssettle) (fun _ => SRet None).

Definition updateFCMToken (keyId fcmToken : string) : setup unit :=
  stry
    (deviceId <- scall (Base (GetItem "deviceId")) ;;
     if negb (truthy deviceId) then SRet tt
     else SVis (UpdateDeviceInfo (default "" deviceId) fcmToken) ssettle)%setup
    (fun _ => SRet tt).

End deviceSetup.

(* ===================================================================== *)
(** ** permissions: the permissions asked for at the start *)
(* ===================================================================== *)

Module permissions.

(** The object [results]. *)
Record PermissionResults := {
  camera : bool;
  location : bool;
  locationBackground : bool;
  notifications : bool;
}.

(** What [requestAllPermissions] returns; [results] is [None] for the
    empty object. *)
Record PermissionsResult := {
  granted : bool;
  results : option PermissionResults;
}.

Definition dquote : string := String (Ascii.ascii_of_nat 34) EmptyString.

Definition member (name : string) (b : bool) : string :=
  dquote ++ name ++ dquote ++ ":" ++ (if b then "true" else "false").

(** [JSON.stringify(results)] *)
Definition stringify (r : PermissionResults) : string :=
  "{" ++ member "camera" (camera r) ++ "," ++ member "location" (location r) ++ "," ++
  member "locationBackground" (locationBackground r) ++ "," ++
  member "notifications" (notifications r) ++ "}".

Definition requestBatteryOptimizationExemption : setup unit :=
  (os <- scall (Base PlatformOS) ;;
   match os with
   | android => stry (scall (ShowAlert BatteryOptimization)) (fun _ => SRet tt)
   | _ => SRet tt
   end)%setup.

Definition showPermissionsDeniedAlert (r : PermissionResults) : setup unit :=
  let denied :=
    ((if camera r then [] else ["Camera"]) ++
     (if location r then [] else ["Location"]) ++
     (if locationBackground r then [] else ["Background Location"]) ++
     (if notifications r then [] else ["Notifications"]))%list in
  match denied with
  | [] => SRet tt
  | _ => scall (ShowAlert PermissionsDenied)
  end.

Definition requestAllPermissions : setup PermissionsResult :=
  stry
    (alreadyRequested <- scall (Base (GetItem "permissions_requested")) ;;
     (if negb (truthy alreadyRequested)
      then scall (ShowAlert PermissionsExplanation) else SRet tt) ;;
     cam <- stry (cameraStatus <- SVis RequestCameraPermissions ssettle ;;
                  SRet (bool_decide (cameraStatus = "granted")))
                 (fun _ => SRet false) ;;
     locationForeground <- SVis RequestForegroundLocation ssettle ;;
     let loc := bool_decide (locationForeground = "granted") in
     bg <- (if loc then
              locationBackground <- SVis RequestBackgroundLocation ssettle ;;
              let bg := bool_decide (locationBackground = "granted") in
              (if negb bg then scall (ShowAlert BackgroundLocationImportance)
               else SRet tt) ;;
              SRet bg
            else SRet false) ;;
     notificationStatus <- SVis RequestPermissions ssettle ;;
     let r := {| camera := cam; location := loc; locationBackground := bg;
                 notifications := bool_decide (notificationStatus = "granted") |} in
     os <- scall (Base PlatformOS) ;;
     (match os with
      | android => requestBatteryOptimizationExemption
      | _ => SRet tt
      end) ;;
     scall (Base (SetItem "permissions_requested" "true")) ;;
     scall (Base (SetItem "permissions_status" (stringify r))) ;;
     let allGranted :=
       camera r && location r && locationBackground r && notifications r in
     (if negb allGranted then showPermissionsDeniedAlert r else SRet tt) ;;
     SRet {| granted := allGranted; results := Some r |})%setup
    (fun _ => SRet {| granted := false; results := None |}).

End permissions.

(** A program of the sync engine, run at the start of the app. *)
Fixpoint lift {A} (p : prog A) : setup A :=
  match p with
  | Ret a => SRet a
  | Throw e => SThrow e
  | Vis o k => SVis (Base o) (fun x => lift (k x))
  end.

Module AppStart.

Section Build.

Variable DEV : bool.

(** What [initializeApp] tries. *)
Definition initialize : setup unit :=
  (permissions.requestAllPermissions ;;
   os <- scall (Base PlatformOS) ;;
   (match os with
    | android => SVis SetNotificationChannel ssettle
    | _ => SRet tt
    end) ;;
   deviceSetup.requestNotificationPermissions ;;
   key <- scall (Base (GetItem "activationKey")) ;;
   scall (SetIsActivated (truthy key)) ;;
   (if truthy key then
      isAdmin <- lift kioskService.isDeviceAdmin ;;
      (if negb isAdmin then lift kioskService.requestDeviceAdmin ;; SRet tt else SRet tt) ;;
      appHidden <- scall (Base (GetItem "appHidden")) ;;
      if negb (bool_decide (appHidden = Some "true"))
      then lift kioskService.hideAppFromLauncher ;; SRet tt
      else SRet tt
    else SRet tt) ;;
   if truthy key then
     locked <- lift deviceService.isDeviceLocked ;;
     scall (Base (SetIsLocked locked)) ;;
     (if locked then lift kioskService.enableFullLockdown ;; SRet tt else SRet tt) ;;
     scall InstallListeners ;;
     fcmToken <- deviceSetup.getFCMToken ;;
     (if truthy fcmToken
      then deviceSetup.updateFCMToken (default "" key) (default "" fcmToken)
      else SRet tt) ;;
     deviceSetup.registerBackgroundFetch DEV
   else SRet tt)%setup.

(** [try { ... } catch (error) { console.error(...) } finally
    { setIsLoading(false) }] *)
Definition initializeApp : setup unit :=
  (stry initialize (fun _ => SRet tt) ;;
   scall (SetIsLoading false))%setup.

End Build.

End AppStart.

(** What the outside answers to these operations. *)
Record SetupEnv := {
  setup_env : Env;
  env_is_registered : result bool;
  env_unregister : result unit;
  env_register : result unit;
  env_permissions : result string;
  env_push_token : result (option string);
  env_update : string -> string -> result unit;
  env_camera : result string;
  env_location : result string;
  env_background_location : result string;
  env_channel : result unit;
}.

(** The world of the sync engine, and the log of the other operations
    (oldest first). *)
Record SetupWorld := {
  base : World;
  setup_log : list setup_op;
}.

Definition slog (o : setup_op) (w : SetupWorld) : SetupWorld :=
  {| base := base w; setup_log := setup_log w ++ [o] |}.

Definition setup_exec (env : SetupEnv) (o : setup_op) (w : SetupWorld)
  : SetupWorld * setup_ans o :=
  match o as o' return SetupWorld * setup_ans o' with
  | Base o0 =>
      let r := exec_op (advance (setup_env env)) (setup_env env) o0 (base w) in
      ({| base := fst r; setup_log := setup_log w |}, snd r)
  | IsTaskRegistered => (slog IsTaskRegistered w, env_is_registered env)
  | UnregisterTask => (slog UnregisterTask w, env_unregister env)
  | RegisterTask i s b => (slog (RegisterTask i s b) w, env_register env)
  | RequestPermissions => (slog RequestPermissions w, env_permissions env)
  | GetDevicePushToken => (slog GetDevicePushToken w, env_push_token env)
  | UpdateDeviceInfo d t => (slog (UpdateDeviceInfo d t) w, env_update env d t)
  | ShowAlert a => (slog (ShowAlert a) w, tt)
  | RequestCameraPermissions => (slog RequestCameraPermissions w, env_camera env)
  | RequestForegroundLocation => (slog RequestForegroundLocation w, env_location env)
  | RequestBackgroundLocation =>
      (slog RequestBackgroundLocation w, env_background_location env)
  | SetNotificationChannel => (slog SetNotificationChannel w, env_channel env)
  | SetIsActivated b => (slog (SetIsActivated b) w, tt)
  | SetIsLoading b => (slog (SetIsLoading b) w, tt)
  | InstallListeners => (slog InstallListeners w, tt)
  end.

Fixpoint setup_run (env : SetupEnv) {A} (p : setup A) (w : SetupWorld)
  : SetupWorld * result A :=
  match p with
  | SRet a => (w, inr a)
  | SThrow e => (w, inl e)
  | SVis o k =>
      let r := setup_exec env o w in
      setup_run env (k (snd r)) (fst r)
  end.

(** A registration of the task, and its removal. *)
Definition is_register (o : setup_op) : bool :=
  match o with RegisterTask _ _ _ => true | _ => false end.

Definition is_unregister (o : setup_op) : bool :=
  match o with UnregisterTask => true | _ => false end.

(** A call of the task manager. *)
Definition is_task_call (o : setup_op) : bool :=
  match o with
  | IsTaskRegistered | UnregisterTask | RegisterTask _ _ _ => true
  | _ => false
  end.

(** An observation of the log of the start that ignores what the module
    [permissions] does. *)
Definition ignores_permissions (g : setup_op -> bool) : Prop :=
  (forall a, g (ShowAlert a) = false) /\ g RequestCameraPermissions = false /\
  g RequestForegroundLocation = false /\ g RequestBackgroundLocation = false /\
  g RequestPermissions = false.

(** The steps of the module [permissions]: a dialog, a request, a read of
    the platform or of the store, a write of one of its two keys. *)
Definition permission_step (o : setup_op) : bool :=
  match o with
  | ShowAlert _ | RequestCameraPermissions | RequestForegroundLocation
  | RequestBackgroundLocation | RequestPermissions => true
  | Base PlatformOS | Base (GetItem _) => true
  | Base (SetItem k _) =>
      bool_decide (k = "permissions_requested") || bool_decide (k = "permissions_status")
  | _ => false
  end.

(** Every operation of a program satisfies [P], whatever is answered. *)
Fixpoint uses_only (P : setup_op -> bool) {A} (p : setup A) : Prop :=
  match p with
  | SRet _ | SThrow _ => True
  | SVis o k => P o = true /\ forall x, uses_only P (k x)
  end.

(** An observation of the log of the sync engine that ignores reads of
    the platform and reads and writes of the store. *)
Definition ignores_storage (f : op -> bool) : Prop :=
  f PlatformOS = false /\ (forall k, f (GetItem k) = false) /\
  (forall k v, f (SetItem k v) = false).

(** What the module [permissions] leaves alone, from a world to a later
    one: the screen state, every key but its two, what the logs show to
    observations that ignore its steps. *)
Definition left_alone (w w' : SetupWorld) : Prop :=
  ui_locked (base w') = ui_locked (base w) /\
  (forall k, k <> "permissions_requested" -> k <> "permissions_status" ->
     store (base w') !! k = store (base w) !! k) /\
  (forall f, ignores_storage f -> count f (trace (base w')) = count f (trace (base w))) /\
  (forall g, ignores_permissions g -> count g (setup_log w') = count g (setup_log w)).

(** The installation of the push listeners. *)
Definition is_install (o : setup_op) : bool :=
  match o with InstallListeners => true | _ => false end.

(** The build is taken for Expo Go: Android, and not a development build. *)
Definition taken_for_expo_go (DEV : bool) (env : SetupEnv) : bool :=
  match env_platform (setup_env env) with
  | android => negb DEV
  | _ => false
  end.

(** The way to the registration is free: the task is not registered, or
    its registration was removed. *)
Definition way_free (env : SetupEnv) : bool :=
  match env_is_registered env with
  | inr true => is_ok (env_unregister env)
  | inr false => true
  | inl _ => false
  end.

(** Inputs of the examples: a device on which the task is registered
    already, and every call succeeds. *)
Definition setup_up : SetupEnv :=
  {| setup_env := env_up lock_report 120;
     env_is_registered := inr true;
     env_unregister := inr tt;
     env_register := inr tt;
     env_permissions := inr "granted";
     env_push_token := inr (Some "fcm-token");
     env_update := fun _ _ => inr tt;
     env_camera := inr "granted";
     env_location := inr "granted";
     env_background_location := inr "granted";
     env_channel := inr tt |}.

Definition setup_ios : SetupEnv :=
  {| setup_env := env_ios lock_report;
     env_is_registered := inr true;
     env_unregister := inr tt;
     env_register := inr tt;
     env_permissions := inr "granted";
     env_push_token := inr (Some "apns-token");
     env_update := fun _ _ => inr tt;
     env_camera := inr "granted";
     env_location := inr "granted";
     env_background_location := inr "granted";
     env_channel := inr tt |}.

Definition setup_activated : SetupWorld := {| base := activated; setup_log := [] |}.

(** A device that is activated and locked. *)
Definition setup_locked : SetupWorld :=
  {| base := set_store (insert "isLocked" "true") activated; setup_log := [] |}.

(** A device on which the notification channel cannot be created. *)
Definition setup_no_channel : SetupEnv :=
  {| setup_env := env_up lock_report 120;
     env_is_registered := inr false;
     env_unregister := inr tt;
     env_register := inr tt;
     env_permissions := inr "granted";
     env_push_token := inr (Some "fcm-token");
     env_update := fun _ _ => inr tt;
     env_camera := inr "granted";
     env_location := inr "granted";
     env_background_location := inr "granted";
     env_channel := inl "channel failed" |}.

(* ===================================================================== *)
(** ** Lemmas on counting, running and timeouts *)
(* ===================================================================== *)

Lemma count_app {A} (f : A -> bool) (l1 l2 : list A) :
  count f (l1 ++ l2) = (count f l1 + count f l2)%nat.
Proof. induction l1 as [|x l1 IH]; simpl; [done|]. rewrite IH. lia. Qed.

Section Run.
Context (wait : N -> World -> World) (env : Env).

Lemma run_with_bind {A B} (p : prog A) (f : A -> prog B) w :
  run_with wait env (bind p f) w =
  match run_with wait env p w with
  | (w', inr a) => run_with wait env (f a) w'
  | (w', inl e) => (w', inl e)
  end.
Proof.
  revert w. induction p as [a|e|o k IH]; intros w; simpl; [done..|]. apply IH.
Qed.

Lemma run_with_try_catch {A} (p : prog A) (h : error -> prog A) w :
  run_with wait env (try_catch p h) w =
  match run_with wait env p w with
  | (w', inr a) => (w', inr a)
  | (w', inl e) => run_with wait env (h e) w'
  end.
Proof.
  revert w. induction p as [a|e|o k IH]; intros w; simpl; [done..|]. apply IH.
Qed.

End Run.

(** *** Timeouts *)

Lemma foldl_fire env l w : foldl (fire env) w l = fired l w.
Proof.
  revert w. induction l as [|t l IH]; intros w.
  - destruct w; unfold fired; simpl. by rewrite app_nil_r.
  - simpl. rewrite IH. destruct t as [id due []]; destruct w; unfold fired, fire; simpl.
    all: f_equal; rewrite <- ?app_assoc; try done.
    by destruct (existsb is_reset_timer l).
Qed.

Lemma advance_eq env d w :
  advance env d w =
  fired (filter (fun t => is_due (now w + d) t = true) (timers w))
        (set_timers (filter (fun t => is_due (now w + d) t = false) (timers w))
                    (set_now (now w + d) w)).
Proof. unfold advance, fire_due. by rewrite foldl_fire. Qed.

Lemma count_timer_events (f : op -> bool) (l : list timer) :
  (forall t, count f (timer_events t) = 0%nat) ->
  count f (concat (timer_events <$> l)) = 0%nat.
Proof.
  intros H. induction l as [|t l IH]; [done|].
  rewrite fmap_cons. cbn [concat]. by rewrite count_app, H, IH.
Qed.

Lemma elem_of_timer_aborts (t : timer) (l : list timer) (c : nat) :
  t ∈ l -> c ∈ timer_aborts t -> c ∈ concat (timer_aborts <$> l).
Proof.
  intros Ht Hc. induction l as [|u l IH]; [by apply elem_of_nil in Ht|].
  rewrite fmap_cons. cbn [concat]. apply elem_of_app.
  apply elem_of_cons in Ht as [<-|Ht]; [by left | right; by apply IH].
Qed.

Lemma count_wipes_fired (l : list timer) :
  count is_wipe (concat (timer_events <$> l)) = count is_reset_timer l.
Proof.
  induction l as [|t l IH]; [done|].
  rewrite fmap_cons. cbn [concat count]. rewrite count_app, IH.
  unfold timer_events, is_reset_timer. by destruct (timer_action_of t).
Qed.

Lemma existsb_reset_count (l : list timer) :
  existsb is_reset_timer l = negb (Nat.eqb (count is_reset_timer l) 0).
Proof.
  induction l as [|t l IH]; simpl; [done|].
  rewrite IH. by destruct (is_reset_timer t).
Qed.

Lemma count_filter_enqueue (f : timer -> bool) t q :
  count f (enqueue t q) = ((if f t then 1 else 0) + count f q)%nat.
Proof.
  induction q as [|u q IH]; simpl; [done|].
  destruct (timer_due u <=? timer_due t); simpl; [rewrite IH; lia | done].
Qed.

Lemma elem_of_enqueue t u q : u ∈ enqueue t q <-> u = t \/ u ∈ q.
Proof.
  induction q as [|v q IH]; simpl.
  - rewrite list_elem_of_singleton, elem_of_nil. tauto.
  - destruct (timer_due v <=? timer_due t); rewrite !elem_of_cons, ?IH; tauto.
Qed.

Lemma count_pos {A} (f : A -> bool) (x : A) (l : list A) :
  x ∈ l -> f x = true -> (1 <= count f l)%nat.
Proof.
  induction 1 as [y l|y z l _ IH]; simpl; intros Hx; [rewrite Hx; lia|].
  specialize (IH Hx). lia.
Qed.



(** *** The dispatcher *)

Lemma existsb_reset_filter (P : timer -> Prop) `{!forall t, Decision (P t)} (l : list timer) :
  count is_reset_timer l = 0%nat -> existsb is_reset_timer (filter P l) = false.
Proof.
  induction l as [|t l IH]; simpl; [done|]. intros Hc.
  destruct (is_reset_timer t) eqn:Ht; [discriminate|].
  rewrite filter_cons. destruct (decide (P t)); simpl; rewrite ?Ht; by apply IH.
Qed.

(** What one dispatch does to the world, whatever the command and whatever
    the outside answers. *)
Lemma handleCommand_effect (env : Env) (command : string) (status : StatusReport) (w : World) :
  let w' := fst (run env (deviceService.handleCommand command status) w) in
  now w' = now w /\
  count is_dispatch (trace w') = (count is_dispatch (trace w) + 1)%nat /\
  count is_ack (trace w') = count is_ack (trace w) /\
  count is_fetch (trace w') = count is_fetch (trace w) /\
  count is_capability (trace w') = count is_capability (trace w) /\
  count is_wipe (trace w') = count is_wipe (trace w) /\
  count is_apply (trace w') = count is_apply (trace w) /\
  count is_release (trace w') = count is_release (trace w) /\
  (forall k, k <> "isLocked" -> k <> "lockMessage" -> store w' !! k = store w !! k) /\
  (forall t, t ∈ timers w -> t ∈ timers w') /\
  (count is_reset_timer (timers w) <= count is_reset_timer (timers w'))%nat.
Proof.
  unfold run, deviceService.handleCommand, deviceService.ringDevice,
    deviceService.sendLocalNotification.
  repeat case_decide; simpl;
    repeat match goal with
    | |- context [env_notify env ?t ?b] => destruct (env_notify env t b); simpl
    | |- context [env_vibrate env] => destruct (env_vibrate env); simpl
    end;
    rewrite ?count_app; simpl;
    (repeat split; [lia..| | |]);
    try (intros k Hk1 Hk2;
         rewrite ?lookup_delete_ne, ?lookup_insert_ne by done; done);
    try (intros t Ht; rewrite ?elem_of_enqueue; tauto);
    rewrite ?count_filter_enqueue; simpl; lia.
Qed.

(** What one dispatch does to the store and to the state of the screen. *)
Lemma handleCommand_store (env : Env) (command : string) (status : StatusReport) (w : World) :
  let w' := fst (run env (deviceService.handleCommand command status) w) in
  ui_locked w' = ui_locked w /\
  store w' =
    if decide (command = "lock") then
      <["lockMessage" := js_or (rep_lockMessage status) ""]> (<["isLocked" := "true"]> (store w))
    else if decide (command = "unlock" \/ command = "expired") then
      delete "lockMessage" (<["isLocked" := "false"]> (store w))
    else store w.
Proof.
  unfold run, deviceService.handleCommand, deviceService.ringDevice,
    deviceService.sendLocalNotification.
  repeat case_decide; simpl;
    repeat match goal with
    | |- context [env_notify env ?t ?b] => destruct (env_notify env t b); simpl
    | |- context [env_vibrate env] => destruct (env_vibrate env); simpl
    end;
    try done; subst; try done; try tauto;
    repeat match goal with H : _ \/ _ |- _ => destruct H end; congruence.
Qed.

(** *** The lockdown capability *)

Section Kiosk.
Context (wait : N -> World -> World) (env : Env).

Lemma run_with_call (o : op) w :
  run_with wait env (call o) w =
  (fst (exec_op wait env o w), inr (snd (exec_op wait env o w))).
Proof. reflexivity. Qed.

Lemma run_unavailable w :
  run_with wait env kioskService.unavailable w = (probed env w, inr (negb (available env))).
Proof.
  unfold kioskService.unavailable, probed, available.
  cbn [bind call run_with exec_op fst snd].
  destruct (env_platform env); reflexivity.
Qed.

Lemma run_single_step n flag w :
  run_with wait env (single_step n flag) w = (after_step env n flag w, inr (step_ok env n)).
Proof.
  unfold single_step, after_step, step_ok.
  rewrite run_with_bind, run_unavailable.
  destruct (available env); cbn [negb andb]; [|reflexivity].
  rewrite run_with_try_catch. cbn [bind run_with exec_op fst snd].
  destruct (env_native env n) as [e|b]; cbn [settle bind run_with is_ok]; [reflexivity|].
  destruct flag as [[k v]|]; reflexivity.
Qed.

Lemma run_isDeviceAdmin w :
  run_with wait env kioskService.isDeviceAdmin w =
  (after_step env DA_isDeviceAdmin None w, inr (admin_granted env)).
Proof.
  unfold kioskService.isDeviceAdmin, after_step, admin_granted.
  rewrite run_with_bind, run_unavailable.
  destruct (available env); cbn [negb andb]; [|reflexivity].
  rewrite run_with_try_catch. cbn [bind run_with exec_op fst snd].
  destruct (env_native env DA_isDeviceAdmin) as [e|b]; reflexivity.
Qed.

Lemma run_enableFullLockdown w :
  run_with wait env kioskService.enableFullLockdown w =
  (lockdown_world env w, inr (lockdown_results env)).
Proof.
  unfold kioskService.enableFullLockdown, lockdown_world, lockdown_results.
  rewrite run_with_bind, run_with_call. cbn [exec_op fst snd].
  rewrite run_with_bind, run_isDeviceAdmin.
  destruct (admin_granted env); cbn [negb]; [|reflexivity].
  change kioskService.startLockTaskMode
    with (single_step DA_startLockTaskMode (Some ("kioskModeActive", "true"))).
  change kioskService.hideAppFromLauncher
    with (single_step DA_hideAppFromLauncher (Some ("appHidden", "true"))).
  change kioskService.disableStatusBar with (single_step DA_disableStatusBar None).
  change (kioskService.setUserRestrictions true)
    with (single_step (DA_setUserRestrictions true) None).
  rewrite run_with_bind, run_single_step.
  rewrite run_with_bind, run_single_step.
  rewrite run_with_bind, run_single_step.
  rewrite run_with_bind, run_single_step.
  reflexivity.
Qed.

Lemma run_disableFullLockdown w :
  run_with wait env kioskService.disableFullLockdown w = (released_world env w, inr tt).
Proof.
  unfold kioskService.disableFullLockdown, released_world.
  rewrite run_with_bind, run_with_call. cbn [exec_op fst snd].
  change kioskService.stopLockTaskMode
    with (single_step DA_stopLockTaskMode (Some ("kioskModeActive", "false"))).
  change kioskService.showAppInLauncher
    with (single_step DA_showAppInLauncher (Some ("appHidden", "false"))).
  change kioskService.enableStatusBar with (single_step DA_enableStatusBar None).
  change (kioskService.setUserRestrictions false)
    with (single_step (DA_setUserRestrictions false) None).
  rewrite run_with_bind, run_single_step.
  rewrite run_with_bind, run_single_step.
  rewrite run_with_bind, run_single_step.
  rewrite run_with_bind, run_single_step.
  reflexivity.
Qed.

(** What a single step leaves alone. *)
Lemma count_after_step (f : op -> bool) n flag w :
  f PlatformOS = false -> f HasDeviceAdminModule = false -> f (Native n) = false ->
  (forall k v, flag = Some (k, v) -> f (SetItem k v) = false) ->
  count f (trace (after_step env n flag w)) = count f (trace w).
Proof.
  intros H1 H2 H3 H4. unfold after_step, probed, write_flag.
  destruct (available env), (is_ok (env_native env n)), (env_platform env),
    flag as [[k v]|]; cbn [trace log set_store];
    rewrite ?count_app; cbn [count]; rewrite ?H1, ?H2, ?H3, ?(H4 _ _ eq_refl); lia.
Qed.

Lemma store_after_step n flag w :
  store (after_step env n flag w) =
  match flag with
  | Some (k, v) => if step_ok env n then <[k:=v]> (store w) else store w
  | None => store w
  end.
Proof.
  unfold after_step, step_ok, probed, write_flag.
  destruct (available env), (is_ok (env_native env n)), (env_platform env),
    flag as [[k v]|]; reflexivity.
Qed.

Lemma ui_after_step n flag w : ui_locked (after_step env n flag w) = ui_locked w.
Proof.
  unfold after_step, probed, write_flag.
  destruct (available env), (is_ok (env_native env n)), (env_platform env),
    flag as [[k v]|]; reflexivity.
Qed.
End Kiosk.

Lemma step_ok_no_native env n : no_native env -> step_ok env n = false.
Proof.
  unfold no_native, step_ok, available. intros [H|H].
  - by destruct (env_platform env).
  - rewrite H. by destruct (env_platform env).
Qed.

Lemma step_ok_native_fails env n : native_fails env n -> step_ok env n = false.
Proof. unfold step_ok. intros [e ->]. apply andb_false_r. Qed.

Lemma admin_granted_no_native env : no_native env -> admin_granted env = false.
Proof.
  unfold no_native, admin_granted, available. intros [H|H].
  - by destruct (env_platform env).
  - rewrite H. by destruct (env_platform env).
Qed.

Lemma lockdown_results_marks_failures env : marks_failures env (lockdown_results env).
Proof.
  unfold marks_failures, lockdown_results. split; [|split; [|split; [|split; [|split]]]].
  - intros H. by rewrite admin_granted_no_native.
  - intros [e He]. unfold admin_granted. rewrite He, andb_false_r. done.
  - intros H%step_ok_native_fails. destruct (admin_granted env); simpl; done.
  - intros H%step_ok_native_fails. destruct (admin_granted env); simpl; done.
  - intros H%step_ok_native_fails. destruct (admin_granted env); simpl; done.
  - intros H%step_ok_native_fails. destruct (admin_granted env); simpl; done.
Qed.

Ltac single_step_boundary env n flag :=
  rewrite (run_single_step _ env n flag);
  eexists _, _; split; [reflexivity|];
  exists (step_ok env n); split; [reflexivity|]; split;
  [apply step_ok_no_native
  |intros n' [= <-]; apply step_ok_native_fails].

(** C9 (amended). Every operation of the lockdown capability returns to
    its caller and never throws.  A single-step operation returns a
    boolean, which is false on another platform than Android, without the
    native module, and when its native call fails.  The full lockdown
    returns a results record in which every step that could not be taken
    is false, undoes no step that succeeded, and leaves the flag of a
    step that succeeded in the store.  The release returns no value
    (undefined) and undoes no step of its own. *)
Theorem capability_never_throws (c : capability) (env : Env) (w : World) :
  exists w' v,
    run env (capability_call c) w = (w', inr v) /\
    match c with
    | cap_enableFullLockdown =>
        exists r, v = js_results r /\ marks_failures env r /\
          count undoes_apply (trace w') = count undoes_apply (trace w) /\
          (kioskMode r = true -> store w' !! "kioskModeActive" = Some "true") /\
          (appHidden r = true -> store w' !! "appHidden" = Some "true")
    | cap_disableFullLockdown =>
        v = js_undefined /\
        count undoes_release (trace w') = count undoes_release (trace w)
    | _ =>
        exists b, v = js_bool b /\
          (no_native env -> b = false) /\
          (forall n, native_of c = Some n -> native_fails env n -> b = false)
    end.
Proof.
  unfold run, capability_call.
  destruct c; rewrite run_with_bind.
  - single_step_boundary env DA_startLockTaskMode (Some ("kioskModeActive", "true")).
  - single_step_boundary env DA_stopLockTaskMode (Some ("kioskModeActive", "false")).
  - single_step_boundary env DA_hideAppFromLauncher (Some ("appHidden", "true")).
  - single_step_boundary env DA_showAppInLauncher (Some ("appHidden", "false")).
  - single_step_boundary env DA_disableStatusBar (@None (string * string)).
  - single_step_boundary env DA_enableStatusBar (@None (string * string)).
  - single_step_boundary env (DA_setUserRestrictions enable) (@None (string * string)).
  - rewrite run_enableFullLockdown. eexists _, _; split; [reflexivity|].
    exists (lockdown_results env). split; [reflexivity|].
    split; [apply lockdown_results_marks_failures|].
    unfold lockdown_world, lockdown_results.
    destruct (admin_granted env); cbn [kioskMode appHidden].
    + rewrite !store_after_step. split; [|split].
      * rewrite !count_after_step by (try reflexivity; by intros ? ? [= <- <-]).
        cbn [trace log]. rewrite count_app. cbn [count undoes_apply]. lia.
      * intros ->. destruct (step_ok env DA_hideAppFromLauncher).
        -- rewrite lookup_insert_ne by (intros [=]). apply lookup_insert_eq.
        -- apply lookup_insert_eq.
      * intros ->. apply lookup_insert_eq.
    + split; [|split; intros [=]].
      rewrite !count_after_step by (try reflexivity; by intros ? ? [=]).
      cbn [trace log]. rewrite count_app. cbn [count undoes_apply]. lia.
  - rewrite run_disableFullLockdown. eexists _, _; split; [reflexivity|].
    split; [reflexivity|]. unfold released_world.
    rewrite !count_after_step by (try reflexivity; by intros ? ? [= <- <-]).
    cbn [trace log]. rewrite count_app. cbn [count undoes_release]. lia.
Qed.

Lemma store_after_step_other env n flag w (k : string) :
  (forall k' v, flag = Some (k', v) -> k' <> k) ->
  store (after_step env n flag w) !! k = store w !! k.
Proof.
  intros H. rewrite store_after_step. destruct flag as [[k' v]|]; [|done].
  destruct (step_ok env n); [|done]. apply lookup_insert_ne. by apply (H k' v).
Qed.

(** The full lockdown and its release are each entered once, leave the
    screen state alone, and write only their own two flags. *)
Lemma lockdown_world_facts (env : Env) (w : World) :
  ui_locked (lockdown_world env w) = ui_locked w /\
  count is_apply (trace (lockdown_world env w)) = (count is_apply (trace w) + 1)%nat /\
  count is_release (trace (lockdown_world env w)) = count is_release (trace w) /\
  (forall k, k <> "kioskModeActive" -> k <> "appHidden" ->
     store (lockdown_world env w) !! k = store w !! k).
Proof.
  unfold lockdown_world. destruct (admin_granted env).
  - rewrite !ui_after_step.
    rewrite !count_after_step by (try reflexivity; by intros ? ? [= <- <-]).
    cbn [trace log ui_locked]. rewrite !count_app. cbn [count is_apply is_release].
    split; [done|]. split; [lia|]. split; [lia|]. intros k H1 H2.
    rewrite !store_after_step_other by (intros ? ? [= <- <-]; done). done.
  - rewrite !ui_after_step.
    rewrite !count_after_step by (try reflexivity; by intros ? ? [= <- <-]).
    cbn [trace log ui_locked]. rewrite !count_app. cbn [count is_apply is_release].
    split; [done|]. split; [lia|]. split; [lia|]. intros k H1 H2.
    rewrite !store_after_step_other by (intros ? ? [= <- <-]; done). done.
Qed.

Lemma released_world_facts (env : Env) (w : World) :
  ui_locked (released_world env w) = ui_locked w /\
  count is_apply (trace (released_world env w)) = count is_apply (trace w) /\
  count is_release (trace (released_world env w)) = (count is_release (trace w) + 1)%nat /\
  (forall k, k <> "kioskModeActive" -> k <> "appHidden" ->
     store (released_world env w) !! k = store w !! k).
Proof.
  unfold released_world.
  rewrite !ui_after_step.
  rewrite !count_after_step by (try reflexivity; by intros ? ? [= <- <-]).
  cbn [trace log ui_locked]. rewrite !count_app. cbn [count is_apply is_release].
  split; [done|]. split; [lia|]. split; [lia|]. intros k H1 H2.
  rewrite !store_after_step_other by (intros ? ? [= <- <-]; done). done.
Qed.


Section Poll.

Variable JSON_status : StatusReport -> string.
Variable JSON_error : string -> N -> string.

Local Abbreviation TASK := (deviceService.BACKGROUND_FETCH_TASK JSON_status JSON_error).

(** C8. No-identity short-circuit: when the activation key is absent from
    the store (or empty), whatever the server would report, the poll
    returns NoData having only read the clock and the key: no status
    request, no dispatch, no acknowledgement, no write to the store. *)
Theorem no_identity_short_circuit (env : Env) (w : World) :
  truthy (store w !! "activationKey") = false ->
  exists w',
    run env TASK w = (w', inr NoData) /\
    trace w' = (trace w ++ [DateNow; GetItem "activationKey"])%list /\
    store w' = store w /\ timers w' = timers w /\
    count is_fetch (trace w') = count is_fetch (trace w) /\
    count is_dispatch (trace w') = count is_dispatch (trace w) /\
    count is_ack (trace w') = count is_ack (trace w) /\
    count is_write (trace w') = count is_write (trace w) /\
    count is_effect (trace w') = count is_effect (trace w).
Proof.
  intros Hkey. eexists. split.
  - unfold run, deviceService.BACKGROUND_FETCH_TASK. simpl.
    rewrite Hkey. reflexivity.
  - simpl. rewrite <- app_assoc. simpl.
    repeat split; try done; rewrite count_app; simpl; lia.
Qed.

#[local] Opaque deviceService.handleCommand.

(** C7. Failure recording: when the status request fails, or the
    dispatch of the command it brought raises, the poll returns Failed
    (it returns, it does not throw) and the store holds the error detail
    with the time of the failure under [lastSyncError]. *)
Theorem failure_recorded (env : Env) (w : World) (key : string) (e : error) :
  store w !! "activationKey" = Some key -> key <> "" ->
  (env_fetch env key = inl e \/
   exists st c, env_fetch env key = inr st /\ actionable st c /\
                dispatch_raises env c st e) ->
  exists w',
    run env TASK w = (w', inr Failed) /\
    store w' !! "lastSyncError" = Some (JSON_error e (now w')).
Proof.
  intros Hkey Hne Hfail.
  assert (String.eqb key "" = false) as Hk by (by apply String.eqb_neq).
  unfold run, deviceService.BACKGROUND_FETCH_TASK. simpl.
  rewrite Hkey. simpl. rewrite Hk. simpl.
  destruct Hfail as [Hf | (st & c & Hf & (Hc & Hc1 & Hc2) & Hd)]; rewrite Hf; simpl.
  - eexists. split; [reflexivity|]. simpl. apply lookup_insert_eq.
  - rewrite Hc. simpl.
    assert (String.eqb c "" = false) as -> by (by apply String.eqb_neq).
    rewrite bool_decide_eq_false_2 by congruence. simpl.
    rewrite !run_with_try_catch, !run_with_bind.
    match goal with |- context [run_with _ env (deviceService.handleCommand c st) ?w0] =>
      specialize (Hd w0); unfold run in Hd;
      destruct (run_with (advance env) env (deviceService.handleCommand c st) w0) as [w1 r1]
    end.
    simpl in Hd. subst r1. simpl.
    eexists. split; [reflexivity|]. simpl. apply lookup_insert_eq.
Qed.



Lemma count_timer_events_dispatch l : count is_dispatch (concat (timer_events <$> l)) = 0%nat.
Proof. apply count_timer_events. by intros [? ? []]. Qed.

Lemma count_timer_events_ack l : count is_ack (concat (timer_events <$> l)) = 0%nat.
Proof. apply count_timer_events. by intros [? ? []]. Qed.

Lemma count_timer_events_capability l :
  count is_capability (concat (timer_events <$> l)) = 0%nat.
Proof. apply count_timer_events. by intros [? ? []]. Qed.

(** One poll whose report carries a command that is acted on and whose
    dispatch returns: the command is dispatched once, one
    acknowledgement is sent, no lockdown capability is invoked, the
    result is NewData. *)
Lemma poll_applied (env : Env) (w : World) (key : string) (st : StatusReport) (c : string) :
  store w !! "activationKey" = Some key -> key <> "" ->
  env_fetch env key = inr st -> actionable st c -> dispatch_returns env c st ->
  exists w',
    run env TASK w = (w', inr NewData) /\
    count is_dispatch (trace w') = (count is_dispatch (trace w) + 1)%nat /\
    count is_ack (trace w') = (count is_ack (trace w) + 1)%nat /\
    count is_capability (trace w') = count is_capability (trace w) /\
    (pending_resets w = 0%nat -> store w' !! "activationKey" = Some key).
Proof.
  intros Hkey Hne Hf (Hc & Hc1 & Hc2) Hd.
  assert (String.eqb key "" = false) as Hk by (by apply String.eqb_neq).
  unfold run, deviceService.BACKGROUND_FETCH_TASK. simpl.
  rewrite Hkey. simpl. rewrite Hk. simpl. rewrite Hf. simpl. rewrite Hc. simpl.
  assert (String.eqb c "" = false) as -> by (by apply String.eqb_neq).
  rewrite bool_decide_eq_false_2 by congruence. simpl.
  rewrite !run_with_try_catch, !run_with_bind.
  match goal with |- context [run_with _ env (deviceService.handleCommand c st) ?w0] =>
    specialize (Hd w0); unfold run in Hd;
    pose proof (handleCommand_effect env c st w0) as He; unfold run in He;
    destruct (run_with (advance env) env (deviceService.handleCommand c st) w0) as [w1 r1]
  end.
  simpl in Hd. subst r1. simpl.
  rewrite advance_eq in He. simpl in He.
  destruct He as (_ & Hdis & Hack & _ & Hcap & _ & _ & _ & Hst & _).
  rewrite !count_app, ?count_timer_events_dispatch in Hdis.
  rewrite !count_app, ?count_timer_events_ack in Hack.
  rewrite !count_app, ?count_timer_events_capability in Hcap.
  simpl in Hdis, Hack, Hcap.
  destruct (env_ack env key c); simpl;
    (eexists; split; [reflexivity|]); simpl;
    rewrite !count_app, Hdis, Hack, Hcap; simpl;
    (split; [lia|split; [lia|split; [lia|]]]);
    intros Hp;
    rewrite !lookup_insert_ne, Hst by done;
    rewrite existsb_reset_filter
      by (rewrite count_filter_enqueue; simpl; exact Hp);
    exact Hkey.
Qed.

(** C1 (amended). No last-acknowledged command is recorded or compared:
    two polls in succession that receive the same report for the same
    identity each dispatch its command and each send an acknowledgement
    (two dispatches and two acknowledgements in all), and each returns
    NewData. *)
Theorem poll_dispatches_every_time (env1 env2 : Env) (w : World) (key : string)
    (st : StatusReport) (c : string) :
  store w !! "activationKey" = Some key -> key <> "" ->
  pending_resets w = 0%nat ->
  env_fetch env1 key = inr st -> env_fetch env2 key = inr st ->
  actionable st c ->
  dispatch_returns env1 c st -> dispatch_returns env2 c st ->
  exists w1 w2,
    run env1 TASK w = (w1, inr NewData) /\
    run env2 TASK w1 = (w2, inr NewData) /\
    count is_dispatch (trace w2) = (count is_dispatch (trace w) + 2)%nat /\
    count is_ack (trace w2) = (count is_ack (trace w) + 2)%nat.
Proof.
  intros Hkey Hne Hp Hf1 Hf2 Hc Hd1 Hd2.
  destruct (poll_applied env1 w key st c Hkey Hne Hf1 Hc Hd1)
    as (w1 & Hr1 & Hdis1 & Hack1 & _ & Hkey1).
  destruct (poll_applied env2 w1 key st c (Hkey1 Hp) Hne Hf2 Hc Hd2)
    as (w2 & Hr2 & Hdis2 & Hack2 & _).
  exists w1, w2. repeat split; [done..| |]; lia.
Qed.

(** The poll returns in every case: nothing it runs into is thrown to
    the scheduler. *)
Lemma poll_always_returns (env : Env) (w : World) :
  exists w' r, run env TASK w = (w', inr r).
Proof.
  unfold run, deviceService.BACKGROUND_FETCH_TASK. simpl.
  destruct (truthy (store w !! "activationKey")); simpl; [|by eexists _, _].
  destruct (env_fetch env _) as [e|st]; simpl; [by eexists _, _|].
  destruct (truthy (rep_command st) && negb (bool_decide (rep_command st = Some "none")));
    simpl; [|by eexists _, _].
  rewrite !run_with_try_catch, !run_with_bind.
  match goal with |- context [run_with _ env (deviceService.handleCommand ?c st) ?w0] =>
    destruct (run_with (advance env) env (deviceService.handleCommand c st) w0)
      as [w1 [e|[]]]
  end; simpl; [by eexists _, _|].
  destruct (env_ack env _ _); simpl; by eexists _, _.
Qed.

(** A request that outlives its budget of 25 s is not abandoned: the
    abort fires, and the poll goes on with the answer when it comes. *)
Lemma request_outlives_its_timeout (env : Env) (w : World) (key : string)
    (st : StatusReport) :
  store w !! "activationKey" = Some key -> key <> "" ->
  env_fetch env key = inr st -> rep_command st = Some "none" ->
  25000 <= env_fetch_ms env ->
  exists w',
    run env TASK w = (w', inr NewData) /\
    next_controller w ∈ aborted w' /\
    now w' = now w + env_fetch_ms env /\
    store w' !! "lastSyncTime" = Some (pretty (now w + env_fetch_ms env)).
Proof.
  intros Hkey Hne Hf Hc Hms.
  assert (String.eqb key "" = false) as Hk by (by apply String.eqb_neq).
  unfold run, deviceService.BACKGROUND_FETCH_TASK. simpl.
  rewrite Hkey. simpl. rewrite Hk. simpl. rewrite Hf. simpl. rewrite Hc. simpl.
  eexists. split; [reflexivity|]. rewrite advance_eq. simpl.
  set (t := {| timer_id := next_timer w; timer_due := now w + 25000;
               timer_action_of := TAbort (next_controller w) |}).
  assert (t ∈ filter (fun t => is_due (now w + env_fetch_ms env) t = true)
                (enqueue t (timers w))) as Ht.
  { apply list_elem_of_filter. split.
    - unfold is_due. apply N.leb_le. simpl. lia.
    - apply elem_of_enqueue. by left. }
  split; [|split; [done|]].
  - apply elem_of_app. left. apply list_elem_of_In. rewrite <- in_rev.
    apply list_elem_of_In.
    apply (elem_of_timer_aborts t); [exact Ht | by left].
  - by rewrite lookup_insert_eq.
Qed.

#[local] Transparent deviceService.handleCommand.

End Poll.
(** C10 (amended). Fail-open lock predicate: the lock query reads the
    store and answers true exactly when [isLocked] holds the string
    [true]; it answers false when the key is absent or holds anything
    else, hence on a fresh installation and after the wipe has cleared
    the store.  Deactivation does not clear the flag: it removes
    [activationKey] and [deviceInfo] and no other key, so the answer
    after it is the answer before it, and a device that was locked still
    answers true.  The dispatcher writes [true] on lock and [false] on
    unlock. *)
Theorem lock_predicate_fail_open (env : Env) (w : World) :
  run env deviceService.isDeviceLocked w =
    (log (GetItem "isLocked") w, inr (bool_decide (store w !! "isLocked" = Some "true"))) /\
  (snd (run env deviceService.isDeviceLocked w) = inr true <->
   store w !! "isLocked" = Some "true") /\
  (snd (run env deviceService.isDeviceLocked w) = inr false <->
   store w !! "isLocked" <> Some "true") /\
  snd (run env deviceService.isDeviceLocked fresh) = inr false /\
  snd (run env deviceService.isDeviceLocked
         (fst (run env deviceService.performFactoryReset w))) = inr false /\
  (let wd := fst (run env HomeScreen.handleDeactivate w) in
   store wd !! "activationKey" = None /\ store wd !! "deviceInfo" = None /\
   (forall k, k <> "activationKey" -> k <> "deviceInfo" -> store wd !! k = store w !! k) /\
   snd (run env deviceService.isDeviceLocked wd)
     = snd (run env deviceService.isDeviceLocked w) /\
   (store w !! "isLocked" = Some "true" ->
    snd (run env deviceService.isDeviceLocked wd) = inr true)) /\
  (forall st,
     snd (run env deviceService.isDeviceLocked
            (fst (run env (deviceService.handleCommand "lock" st) w))) = inr true) /\
  (forall st,
     snd (run env deviceService.isDeviceLocked
            (fst (run env (deviceService.handleCommand "unlock" st) w))) = inr false).
Proof.
  split; [reflexivity|]. simpl.
  split; [|split; [|split; [|split; [|split; [|split]]]]].
  - split; [intros [= H%bool_decide_eq_true]; done | intros ->; done].
  - split; [intros [= H%bool_decide_eq_false]; done
           | intros H; by rewrite bool_decide_eq_false_2].
  - done.
  - unfold run. simpl. by rewrite lookup_empty.
  - unfold run. simpl. split; [|split; [|split; [|split]]].
    + by rewrite lookup_delete_ne, lookup_delete_eq.
    + by rewrite lookup_delete_eq.
    + intros k H1 H2. by rewrite !lookup_delete_ne.
    + by rewrite !lookup_delete_ne.
    + intros H. rewrite !lookup_delete_ne by done. by rewrite H.
  - intros st. unfold run, deviceService.handleCommand. simpl.
    destruct (env_notify env _ _); simpl; by rewrite lookup_insert_ne, lookup_insert_eq.
  - intros st. unfold run, deviceService.handleCommand. simpl.
    destruct (env_notify env _ _); simpl;
      by rewrite lookup_delete_ne, lookup_insert_eq.
Qed.

(** *** The reset *)

Lemma dispatch_returns_reset (env : Env) (status : StatusReport) :
  dispatch_returns env "reset" status ->
  env_notify env "Device Reset Initiated"
    "Your device will be reset in 10 seconds. All data will be erased." = inr tt.
Proof.
  intros H. specialize (H fresh). revert H.
  unfold run, deviceService.handleCommand, deviceService.sendLocalNotification. simpl.
  destruct (env_notify env _ _) as [e|[]]; simpl; [discriminate|done].
Qed.

(** The world after a reset that was announced: one more timeout. *)
Definition reset_scheduled (w : World) : World :=
  set_next_timer (S (next_timer w))
    (set_timers
       (enqueue {| timer_id := next_timer w; timer_due := now w + 10000;
                   timer_action_of := TFactoryReset |} (timers w))
       (log (SetTimeout TFactoryReset 10000)
          (log (ScheduleNotification "Device Reset Initiated"
                  "Your device will be reset in 10 seconds. All data will be erased.")
             (log (Enter (in_handleCommand "reset")) w)))).

Lemma run_reset (env : Env) (status : StatusReport) (w : World) :
  dispatch_returns env "reset" status ->
  run env (deviceService.handleCommand "reset" status) w = (reset_scheduled w, inr tt).
Proof.
  intros H%dispatch_returns_reset.
  unfold run, deviceService.handleCommand, deviceService.sendLocalNotification. simpl.
  rewrite H. reflexivity.
Qed.

(** Every pending wipe in [l] is due by [T]. *)
Definition resets_due_by (T : N) (l : list timer) : Prop :=
  Forall (fun t => is_reset_timer t = true -> timer_due t <= T) l.

Lemma resets_due_by_none T l : count is_reset_timer l = 0%nat -> resets_due_by T l.
Proof.
  induction l as [|t l IH]; simpl; intros H; constructor.
  - destruct (is_reset_timer t); [discriminate|done].
  - apply IH. destruct (is_reset_timer t); [discriminate|done].
Qed.

Lemma resets_due_by_enqueue T t l :
  (is_reset_timer t = true -> timer_due t <= T) ->
  resets_due_by T l -> resets_due_by T (enqueue t l).
Proof.
  intros Ht Hl. apply Forall_forall. intros u [->|Hu]%elem_of_enqueue; [done|].
  by apply (proj1 (Forall_forall _ _) Hl).
Qed.

Lemma count_resets_due T l :
  resets_due_by T l ->
  count is_reset_timer (filter (fun t => is_due T t = true) l) = count is_reset_timer l.
Proof.
  induction 1 as [|t l Ht _ IH]; [done|].
  rewrite filter_cons. simpl. destruct (decide (is_due T t = true)) as [Hd|Hd]; simpl.
  - by rewrite IH.
  - rewrite IH. destruct (is_reset_timer t); [|done].
    exfalso. apply Hd. unfold is_due. apply N.leb_le. by apply Ht.
Qed.

Lemma count_resets_later T l :
  resets_due_by T l ->
  count is_reset_timer (filter (fun t => is_due T t = false) l) = 0%nat.
Proof.
  induction 1 as [|t l Ht _ IH]; [done|].
  rewrite filter_cons. destruct (decide (is_due T t = false)) as [Hd|Hd]; simpl; [|done].
  rewrite IH. destruct (is_reset_timer t); [|done].
  apply N.leb_gt in Hd. specialize (Ht eq_refl). lia.
Qed.

Lemma dispatch_times_reset (env : Env) (status : StatusReport) (n : nat) (w : World) :
  dispatch_returns env "reset" status ->
  let wn := dispatch_times n env "reset" status w in
  now wn = now w /\
  pending_resets wn = (pending_resets w + n)%nat /\
  count is_wipe (trace wn) = count is_wipe (trace w) /\
  (resets_due_by (now w + 10000) (timers w) ->
   resets_due_by (now w + 10000) (timers wn)).
Proof.
  intros Hd. revert w. induction n as [|n IH]; intros w; simpl.
  - repeat split; [unfold pending_resets; lia | done].
  - rewrite run_reset by done. simpl.
    destruct (IH (reset_scheduled w)) as (Hnow & Hp & Hw & Hdue).
    rewrite Hnow, Hp, Hw. unfold pending_resets. simpl.
    rewrite count_filter_enqueue, !count_app. simpl.
    split; [done|split; [lia|split; [lia|]]].
    intros H. apply Hdue. simpl. apply resets_due_by_enqueue; [simpl; lia | done].
Qed.

(** C3 (amended). No in-flight flag guards the reset: every Reset that is
    dispatched (and announced) schedules a wipe of its own, so [n] Resets
    dispatched while none was pending leave [n] wipes pending, none of
    which has fired yet, and ten seconds later all [n] fire. *)
Theorem every_reset_schedules_a_wipe (n : nat) (env env' : Env) (status : StatusReport)
    (w : World) :
  dispatch_returns env "reset" status ->
  pending_resets w = 0%nat ->
  let wn := dispatch_times n env "reset" status w in
  pending_resets wn = n /\
  count is_wipe (trace wn) = count is_wipe (trace w) /\
  count is_wipe (trace (advance env' 10000 wn)) = (count is_wipe (trace w) + n)%nat /\
  pending_resets (advance env' 10000 wn) = 0%nat.
Proof.
  intros Hd Hp wn.
  destruct (dispatch_times_reset env status n w Hd) as (Hnow & Hpn & Hw & Hdue).
  fold wn in Hnow, Hpn, Hw, Hdue. rewrite Hp in Hpn. simpl in Hpn.
  specialize (Hdue (resets_due_by_none _ _ Hp)).
  repeat split; [done..| |].
  - rewrite advance_eq. simpl. rewrite count_app, count_wipes_fired, Hnow.
    rewrite count_resets_due by done. fold (pending_resets wn). lia.
  - rewrite advance_eq. unfold pending_resets. simpl. rewrite Hnow.
    by apply count_resets_later.
Qed.

(** *** Commands and time after a reset *)

Lemma advance_effect (env : Env) (d : N) (w : World) (t : timer) :
  is_reset_timer t = true -> t ∈ timers w ->
  let w' := advance env d w in
  now w' = now w + d /\
  (count is_wipe (trace w) <= count is_wipe (trace w'))%nat /\
  (now w + d < timer_due t -> t ∈ timers w') /\
  (timer_due t <= now w + d ->
   (count is_wipe (trace w) < count is_wipe (trace w'))%nat /\ store w' = ∅).
Proof.
  intros Hr Ht w'. unfold w'. rewrite advance_eq. simpl.
  rewrite count_app, count_wipes_fired.
  split; [done|]. split; [lia|]. split.
  - intros Hlt. apply list_elem_of_filter. split; [|done].
    unfold is_due. apply N.leb_gt. lia.
  - intros Hle.
    assert (1 <= count is_reset_timer
                   (filter (fun t => is_due (now w + d) t = true) (timers w)))%nat as Hc.
    { apply (count_pos _ t); [|done]. apply list_elem_of_filter. split; [|done].
      unfold is_due. by apply N.leb_le. }
    split; [lia|]. rewrite existsb_reset_count.
    destruct (count is_reset_timer _); [lia|done].
Qed.

Lemma advance_mono (env : Env) (d : N) (w : World) :
  now (advance env d w) = now w + d /\
  (count is_wipe (trace w) <= count is_wipe (trace (advance env d w)))%nat.
Proof. rewrite advance_eq. simpl. rewrite count_app. split; [done|lia]. Qed.

(** Once a wipe is scheduled, the commands dispatched and the time that
    passes afterwards leave it pending until it is due, and by then it has
    fired. *)
Lemma play_reset_fires (t : timer) :
  is_reset_timer t = true ->
  forall (later : list step) (w : World),
  t ∈ timers w -> now w < timer_due t ->
  let w2 := play later w in
  now w2 = now w + elapsed later /\
  (now w + elapsed later < timer_due t -> t ∈ timers w2) /\
  (timer_due t <= now w + elapsed later ->
   (count is_wipe (trace w) < count is_wipe (trace w2))%nat).
Proof.
  intros Hr later. induction later as [|[env c st|env d] later IH]; intros w Ht Hnow.
  - simpl. split; [lia|]. split; [done|]. lia.
  - simpl. unfold play in *. simpl.
    destruct (handleCommand_effect env c st w) as (Hn & _ & _ & _ & _ & Hw & _ & _ & _ & Hin & _).
    destruct (IH (fst (run env (deviceService.handleCommand c st) w)))
      as (IH1 & IH2 & IH3); [by apply Hin | lia |].
    rewrite Hn, Hw in *. done.
  - simpl. unfold play in *. simpl.
    destruct (advance_effect env d w t Hr Ht) as (Hn & Hmono & Hlater & Hfired).
    destruct (N.lt_ge_cases (now w + d) (timer_due t)) as [Hlt|Hge].
    + destruct (IH (advance env d w)) as (IH1 & IH2 & IH3); [by apply Hlater | lia |].
      rewrite Hn in *. split; [lia|]. split.
      * intros H. apply IH2. lia.
      * intros H. assert (timer_due t <= now w + d + elapsed later) as H' by lia.
        specialize (IH3 H'). lia.
    + destruct (Hfired Hge) as [Hlt _]. clear IH.
      assert (forall l w0, now (foldl do_step w0 l) = now w0 + elapsed l /\
                (count is_wipe (trace w0) <= count is_wipe (trace (foldl do_step w0 l)))%nat)
        as Hplay.
      { clear. intros l. induction l as [|[env c st|env d] l IH]; intros w0; simpl.
        - split; [lia|done].
        - destruct (handleCommand_effect env c st w0) as (Hn & _ & _ & _ & _ & Hw & _).
          destruct (IH (fst (run env (deviceService.handleCommand c st) w0))) as [H1 H2].
          rewrite Hn, Hw in *. done.
        - destruct (IH (advance env d w0)) as [H1 H2].
          destruct (advance_mono env d w0) as [H3 H4].
          split; [rewrite H1, H3|]; lia. }
      destruct (Hplay later (advance env d w)) as [H1 H2]. rewrite Hn in H1.
      split; [rewrite H1; lia|]. split; [lia|]. intros _. lia.
Qed.

Lemma elapsed_dispatches (l : list step) :
  forallb is_dispatch_step l = true -> elapsed l = 0.
Proof.
  induction l as [|[env c st|env d] l IH]; simpl; [done| exact IH | discriminate].
Qed.

(** C4. Reset irreversibility: once a Reset has been dispatched (and
    announced), whatever commands are dispatched and however time passes
    afterwards, its wipe stays scheduled for ten seconds after the
    dispatch until those ten seconds have passed, and by then it has
    fired; in particular when commands (an Unlock, say) follow at once and
    ten seconds then pass, the store has been cleared. *)
Theorem reset_cannot_be_cancelled (env : Env) (status : StatusReport) (w : World)
    (later : list step) :
  dispatch_returns env "reset" status ->
  let w1 := fst (run env (deviceService.handleCommand "reset" status) w) in
  let w2 := play later w1 in
  (elapsed later < 10000 ->
   exists id, {| timer_id := id; timer_due := now w + 10000;
                 timer_action_of := TFactoryReset |} ∈ timers w2) /\
  (10000 <= elapsed later ->
   (count is_wipe (trace w1) < count is_wipe (trace w2))%nat) /\
  (forallb is_dispatch_step later = true ->
   forall env',
     store (advance env' 10000 w2) = ∅ /\
     (count is_wipe (trace w2) < count is_wipe (trace (advance env' 10000 w2)))%nat).
Proof.
  intros Hd w1 w2. unfold w2, w1. rewrite run_reset by done. simpl.
  set (t := {| timer_id := next_timer w; timer_due := now w + 10000;
               timer_action_of := TFactoryReset |}).
  assert (t ∈ timers (reset_scheduled w)) as Ht
    by (simpl; apply elem_of_enqueue; by left).
  assert (now (reset_scheduled w) < timer_due t) as Hnow by (simpl; lia).
  destruct (play_reset_fires t eq_refl later (reset_scheduled w) Ht Hnow)
    as (Hn & Hpending & Hfired).
  simpl in Hn, Hpending, Hfired.
  split; [|split].
  - intros H. exists (next_timer w). apply Hpending. lia.
  - intros H. apply Hfired. lia.
  - intros Hall env'. rewrite (elapsed_dispatches _ Hall) in Hn, Hpending.
    assert (t ∈ timers (play later (reset_scheduled w))) as Ht2
      by (apply Hpending; lia).
    destruct (advance_effect env' 10000 _ t eq_refl Ht2) as (_ & _ & _ & Hf).
    destruct Hf as [Hlt Hst]; [simpl; lia|]. done.
Qed.

(** *** Push deliveries in the foreground *)

Lemma count_capability (l : list op) :
  count is_capability l = (count is_apply l + count is_release l)%nat.
Proof.
  induction l as [|o l IH]; simpl; [done|]. rewrite IH. unfold is_capability.
  destruct o as [| | | | | | | | | | | | | | | | | |[]]; simpl; lia.
Qed.

(** The acknowledgement at the end of the foreground listener writes
    nothing and invokes no capability. *)
Lemma run_push_ack (env : Env) (command : string) (w : World) :
  exists w',
    run env
      (try_catch
         (k1 <- call (GetItem "keyId") ;;
          keyId <- (if truthy k1 then Ret k1 else call (GetItem "activationKey")) ;;
          if truthy keyId
          then Vis (AcknowledgeCommand (default "" keyId) command) settle
          else Ret tt)
         (fun _ => Ret tt)) w = (w', inr tt) /\
    store w' = store w /\ ui_locked w' = ui_locked w /\
    count is_apply (trace w') = count is_apply (trace w) /\
    count is_release (trace w') = count is_release (trace w).
Proof.
  unfold run. cbn [bind try_catch call run_with exec_op fst snd store log].
  destruct (truthy (store w !! "keyId")) eqn:E1;
    cbn [bind try_catch call run_with exec_op fst snd store log]; rewrite ?E1;
    [|destruct (truthy (store w !! "activationKey")) eqn:E2];
    cbn [bind try_catch call run_with exec_op fst snd store log];
    try (destruct (env_ack env _ command) as [e|[]];
         cbn [settle bind try_catch call run_with exec_op fst snd]);
    (eexists; split; [reflexivity|]); cbn [store trace ui_locked log];
    rewrite !count_app; cbn [count is_apply is_release]; repeat split; lia.
Qed.

Lemma run_detach (env : Env) (p : prog unit) (w : World) :
  run env (detach p) w = (fst (run env p w), inr tt).
Proof.
  unfold run, detach. rewrite run_with_try_catch.
  by destruct (run_with (advance env) env p w) as [w' [e|[]]].
Qed.

(** The callback of [App]: the full lockdown on lock, its release on
    unlock, nothing on any other command. *)
Lemma run_onCommandReceived (env : Env) (command : string) (data : StatusReport) (w : World) :
  fst (run env (App.onCommandReceived command data) w) =
  if decide (command = "lock") then
    lockdown_world env (set_ui_locked true (log (SetIsLocked true) w))
  else if decide (command = "unlock") then
    released_world env (set_ui_locked false (log (SetIsLocked false) w))
  else w.
Proof.
  unfold run, App.onCommandReceived. repeat case_decide; [| |reflexivity].
  - rewrite run_with_bind, run_with_call. cbn [exec_op fst snd].
    rewrite run_with_bind, run_enableFullLockdown. reflexivity.
  - rewrite run_with_bind, run_with_call. cbn [exec_op fst snd].
    rewrite run_disableFullLockdown. reflexivity.
Qed.

(** One delivery to the foreground listener of [App] whose dispatch
    returns: the dispatch, then the callback, then the acknowledgement,
    which changes neither the store nor the screen. *)
Lemma run_foregroundListener (env : Env) (d : PushData) (c : string) (w : World) :
  push_command d = Some c -> c <> "" -> dispatch_returns env c (deviceService.payload d) ->
  let w1 := fst (run env (deviceService.handleCommand c (deviceService.payload d)) w) in
  let w2 := fst (run env (App.onCommandReceived c (deviceService.payload d)) w1) in
  exists w',
    run env (App.foregroundListener d) w = (w', inr tt) /\
    store w' = store w2 /\ ui_locked w' = ui_locked w2 /\
    count is_apply (trace w') = count is_apply (trace w2) /\
    count is_release (trace w') = count is_release (trace w2).
Proof.
  intros Hc Hne Hd w1 w2.
  unfold App.foregroundListener, deviceService.foregroundListener,
    deviceService.notify_callback.
  rewrite Hc. cbn [truthy default from_option id].
  assert (String.eqb c "" = false) as -> by (by apply String.eqb_neq).
  cbn [negb]. unfold run at 1. rewrite (run_with_bind (advance env) env (deviceService.handleCommand c (deviceService.payload d)) _ w).
  specialize (Hd w). unfold run in Hd.
  fold (run env (deviceService.handleCommand c (deviceService.payload d)) w) in *.
  destruct (run env (deviceService.handleCommand c (deviceService.payload d)) w) as [w1' r1] eqn:E1.
  cbn [snd] in Hd. subst r1. rewrite run_with_bind.
  fold (run env (detach (App.onCommandReceived c (deviceService.payload d))) w1').
  rewrite run_detach.
  fold (run env (App.onCommandReceived c (deviceService.payload d)) w1').
  apply run_push_ack.
Qed.

Lemma push_lock (env : Env) (d : PushData) (w : World) :
  push_command d = Some "lock" -> dispatch_returns env "lock" (deviceService.payload d) ->
  exists w',
    run env (App.foregroundListener d) w = (w', inr tt) /\
    store w' !! "isLocked" = Some "true" /\
    store w' !! "lockMessage" = Some (js_or (push_lockMessage d) "") /\
    ui_locked w' = true /\
    count is_apply (trace w') = (count is_apply (trace w) + 1)%nat /\
    count is_release (trace w') = count is_release (trace w).
Proof.
  intros Hc Hd.
  destruct (run_foregroundListener env d "lock" w Hc ltac:(done) Hd)
    as (w' & Hrun & Hst & Hui & Ha & Hr).
  exists w'. split; [done|]. rewrite Hst, Hui, Ha, Hr. clear Hrun Hst Hui Ha Hr.
  rewrite run_onCommandReceived. rewrite decide_True by done.
  destruct (lockdown_world_facts env
    (set_ui_locked true (log (SetIsLocked true)
       (fst (run env (deviceService.handleCommand "lock" (deviceService.payload d)) w)))))
    as (Hui & Ha & Hr & Hst).
  rewrite Hui, Ha, Hr, !Hst by done. clear Hui Ha Hr Hst.
  cbn [store ui_locked trace set_ui_locked log]. rewrite !count_app.
  cbn [count is_apply is_release].
  destruct (handleCommand_store env "lock" (deviceService.payload d) w) as [_ Hst].
  destruct (handleCommand_effect env "lock" (deviceService.payload d) w)
    as (_ & _ & _ & _ & _ & _ & Ha & Hr & _).
  rewrite Hst, Ha, Hr. rewrite decide_True by done.
  rewrite lookup_insert_ne by done. rewrite !lookup_insert_eq.
  repeat split; lia.
Qed.

Lemma push_reminder (env : Env) (d : PushData) (w : World) :
  push_command d = Some "reminder" ->
  dispatch_returns env "reminder" (deviceService.payload d) ->
  exists w',
    run env (App.foregroundListener d) w = (w', inr tt) /\
    store w' = store w /\ ui_locked w' = ui_locked w /\
    count is_apply (trace w') = count is_apply (trace w) /\
    count is_release (trace w') = count is_release (trace w).
Proof.
  intros Hc Hd.
  destruct (run_foregroundListener env d "reminder" w Hc ltac:(done) Hd)
    as (w' & Hrun & Hst & Hui & Ha & Hr).
  exists w'. split; [done|]. rewrite Hst, Hui, Ha, Hr. clear Hrun Hst Hui Ha Hr.
  rewrite run_onCommandReceived. rewrite !decide_False by done.
  destruct (handleCommand_store env "reminder" (deviceService.payload d) w) as [Hui Hst].
  destruct (handleCommand_effect env "reminder" (deviceService.payload d) w)
    as (_ & _ & _ & _ & _ & _ & Ha & Hr & _).
  rewrite Hst, Hui, Ha, Hr. rewrite !decide_False by (first [done | by intros [?|?]]).
  done.
Qed.

Lemma push_unlock (env : Env) (d : PushData) (w : World) :
  push_command d = Some "unlock" ->
  dispatch_returns env "unlock" (deviceService.payload d) ->
  exists w',
    run env (App.foregroundListener d) w = (w', inr tt) /\
    store w' !! "isLocked" = Some "false" /\
    store w' !! "lockMessage" = None /\
    ui_locked w' = false /\
    count is_apply (trace w') = count is_apply (trace w) /\
    count is_release (trace w') = (count is_release (trace w) + 1)%nat.
Proof.
  intros Hc Hd.
  destruct (run_foregroundListener env d "unlock" w Hc ltac:(done) Hd)
    as (w' & Hrun & Hst & Hui & Ha & Hr).
  exists w'. split; [done|]. rewrite Hst, Hui, Ha, Hr. clear Hrun Hst Hui Ha Hr.
  rewrite run_onCommandReceived. rewrite decide_False, decide_True by done.
  destruct (released_world_facts env
    (set_ui_locked false (log (SetIsLocked false)
       (fst (run env (deviceService.handleCommand "unlock" (deviceService.payload d)) w)))))
    as (Hui & Ha & Hr & Hst).
  rewrite Hui, Ha, Hr, !Hst by done. clear Hui Ha Hr Hst.
  cbn [store ui_locked trace set_ui_locked log]. rewrite !count_app.
  cbn [count is_apply is_release].
  destruct (handleCommand_store env "unlock" (deviceService.payload d) w) as [_ Hst].
  destruct (handleCommand_effect env "unlock" (deviceService.payload d) w)
    as (_ & _ & _ & _ & _ & _ & Ha & Hr & _).
  rewrite Hst, Ha, Hr. rewrite decide_False, decide_True by (done || by left).
  rewrite lookup_delete_ne by done. rewrite lookup_insert_eq, lookup_delete_eq.
  repeat split; lia.
Qed.

(** Lock, Reminder and Unlock delivered in this order to the foreground
    listener of [App], each delivery handled by one run of the listener,
    each dispatch returning, from any state (in particular the unlocked
    one): Lock persists the lock flag and the lock message and applies
    the full lockdown once; Reminder invokes no capability; Unlock clears
    the message, leaves the device unlocked and releases the lockdown
    once: two capability invocations in all. *)
Lemma pushed_lock_reminder_unlock (env1 env2 env3 : Env) (d1 d2 d3 : PushData)
    (w : World) :
  push_command d1 = Some "lock" ->
  push_command d2 = Some "reminder" ->
  push_command d3 = Some "unlock" ->
  dispatch_returns env1 "lock" (deviceService.payload d1) ->
  dispatch_returns env2 "reminder" (deviceService.payload d2) ->
  dispatch_returns env3 "unlock" (deviceService.payload d3) ->
  exists w1 w2 w3,
    run env1 (App.foregroundListener d1) w = (w1, inr tt) /\
    run env2 (App.foregroundListener d2) w1 = (w2, inr tt) /\
    run env3 (App.foregroundListener d3) w2 = (w3, inr tt) /\
    (store w1 !! "isLocked" = Some "true" /\
     store w1 !! "lockMessage" = Some (js_or (push_lockMessage d1) "") /\
     ui_locked w1 = true /\
     count is_apply (trace w1) = (count is_apply (trace w) + 1)%nat /\
     count is_release (trace w1) = count is_release (trace w)) /\
    (count is_capability (trace w2) = count is_capability (trace w1) /\
     store w2 !! "isLocked" = Some "true") /\
    (store w3 !! "isLocked" = Some "false" /\
     store w3 !! "lockMessage" = None /\
     ui_locked w3 = false /\
     snd (run env3 deviceService.isDeviceLocked w3) = inr false /\
     count is_apply (trace w3) = count is_apply (trace w2) /\
     count is_release (trace w3) = (count is_release (trace w2) + 1)%nat) /\
    count is_capability (trace w3) = (count is_capability (trace w) + 2)%nat.
Proof.
  intros Hc1 Hc2 Hc3 Hd1 Hd2 Hd3.
  destruct (push_lock env1 d1 w Hc1 Hd1) as (w1 & Hrun1 & Hl1 & Hm1 & Hui1 & Ha1 & Hr1).
  destruct (push_reminder env2 d2 w1 Hc2 Hd2) as (w2 & Hrun2 & Hst2 & Hui2 & Ha2 & Hr2).
  destruct (push_unlock env3 d3 w2 Hc3 Hd3) as (w3 & Hrun3 & Hl3 & Hm3 & Hui3 & Ha3 & Hr3).
  exists w1, w2, w3. rewrite !count_capability, Hst2.
  split; [done|]. split; [done|]. split; [done|].
  split; [done|]. split; [split; [lia|done]|].
  split; [|lia].
  repeat split; try done.
  cbn [run run_with deviceService.isDeviceLocked bind call exec_op fst snd].
  rewrite Hl3. reflexivity.
Qed.

(** *** Two cycles in flight *)

Lemma answer_ok_exec wait env known o w :
  holds known w -> answer_ok env known o (snd (exec_op wait env o w)).
Proof. intros H. destruct o; try done. simpl. intros v Hv. by apply H. Qed.

Lemma holds_exec env known o w :
  holds known w -> keeps known o -> holds known (fst (exec_op (fun _ w => w) env o w)).
Proof.
  intros H Hk. unfold holds in *.
  destruct o; cbn [exec_op fst store set_store log set_timers set_next_timer
                   set_next_controller set_aborted set_ui_locked keeps] in *;
    try done; intros k v Hv.
  - destruct (decide (key = k)) as [->|]; [congruence|].
    rewrite lookup_insert_ne by done. by apply H.
  - destruct (decide (key = k)) as [->|]; [congruence|].
    rewrite lookup_delete_ne by done. by apply H.
  - rewrite Hk in Hv. discriminate.
Qed.

Lemma returns_emits env known f {A} (p : prog A) n :
  returns env known f p n -> emits env known f p n.
Proof.
  revert n. induction p as [a|e|o k IH]; intros n; simpl; [done..|].
  intros (Hk & m & -> & H). split; [done|]. exists m. split; [done|].
  intros a Ha. by apply IH, H.
Qed.

Lemma emits_bind env known f {A B} (p : prog A) (g : A -> prog B) n m :
  returns env known f p n -> (forall a, emits env known f (g a) m) ->
  emits env known f (bind p g) (n + m).
Proof.
  revert n. induction p as [a|e|o k IH]; intros n; simpl.
  - intros -> Hg. apply Hg.
  - done.
  - intros (Hk & n' & -> & H) Hg. split; [done|]. exists (n' + m)%nat.
    split; [lia|]. intros a Ha. apply IH; [by apply H | done].
Qed.

Lemma returns_bind env known f {A B} (p : prog A) (g : A -> prog B) n m :
  returns env known f p n -> (forall a, returns env known f (g a) m) ->
  returns env known f (bind p g) (n + m).
Proof.
  revert n. induction p as [a|e|o k IH]; intros n; simpl.
  - intros -> Hg. apply Hg.
  - done.
  - intros (Hk & n' & -> & H) Hg. split; [done|]. exists (n' + m)%nat.
    split; [lia|]. intros a Ha. apply IH; [by apply H | done].
Qed.

Lemma returns_try_catch env known f {A} (p : prog A) (h : error -> prog A) n :
  emits env known f p n -> (forall e, returns env known f (h e) 0) ->
  returns env known f (try_catch p h) n.
Proof.
  revert n. induction p as [a|e|o k IH]; intros n; simpl.
  - done.
  - intros -> Hh. apply Hh.
  - intros (Hk & n' & -> & H) Hh. split; [done|]. exists n'.
    split; [done|]. intros a Ha. apply IH; [by apply H | done].
Qed.

Lemma finish_count (g : bool -> op -> bool) b env known (p : prog unit) n :
  emits env known (g b) p n ->
  forall w, holds known w ->
  count (tagged g) (snd (finish b env p w)) = n /\ holds known (fst (finish b env p w)).
Proof.
  revert n. induction p as [a|e|o k IH]; intros n; simpl.
  - by intros ->.
  - by intros ->.
  - intros (Hk & m & -> & H) w Hw.
    destruct (IH (snd (exec_op (fun _ w => w) env o w)) m
                (H _ (answer_ok_exec _ env known o w Hw))
                (fst (exec_op (fun _ w => w) env o w))
                (holds_exec env known o w Hw Hk)) as [IH1 IH2].
    split; [|done]. unfold tagged at 1. simpl. by rewrite IH1.
Qed.

(** Whatever the schedule, each of two cycles in flight performs what it
    performs alone. *)
Lemma interleave_count (g : bool -> op -> bool) known env1 env2 :
  forall (sched : list bool) (p1 p2 : prog unit) n1 n2 w,
  emits env1 known (g false) p1 n1 -> emits env2 known (g true) p2 n2 ->
  holds known w ->
  count (tagged g) (snd (interleave sched (env1, p1) (env2, p2) w)) = (n1 + n2)%nat.
Proof.
  induction sched as [|b sched IH]; intros p1 p2 n1 n2 w H1 H2 Hw.
  - simpl. destruct (finish_count g false env1 known p1 n1 H1 w Hw) as [Hc1 Hw1].
    destruct (finish_count g true env2 known p2 n2 H2 _ Hw1) as [Hc2 _].
    by rewrite count_app, Hc1, Hc2.
  - destruct b; simpl.
    + destruct p2 as [a|e|o k]; simpl; [by apply IH..|].
      destruct H2 as (Hk & m & -> & H2). unfold tagged at 1. simpl.
      rewrite (IH p1 _ n1 m); [lia|done| |].
      * apply H2. by apply answer_ok_exec.
      * by apply holds_exec.
    + destruct p1 as [a|e|o k]; simpl; [by apply IH..|].
      destruct H1 as (Hk & m & -> & H1). unfold tagged at 1. simpl.
      rewrite (IH _ p2 m n2); [lia| |done|].
      * apply H1. by apply answer_ok_exec.
      * by apply holds_exec.
Qed.

Lemma returns_Vis_quiet env known f {A} (o : op) (k : ans o -> prog A) n :
  f o = false -> keeps known o ->
  (forall a, answer_ok env known o a -> returns env known f (k a) n) ->
  returns env known f (Vis o k) n.
Proof. intros Hf Hk H. simpl. split; [done|]. exists n. by rewrite Hf. Qed.

Lemma returns_Vis_count env known f {A} (o : op) (k : ans o -> prog A) l :
  keeps known o ->
  (forall a, answer_ok env known o a -> returns env known f (k a) (count f l)) ->
  returns env known f (Vis o k) (count f (o :: l)).
Proof. intros Hk H. simpl. split; [done|]. by exists (count f l). Qed.

Lemma emits_Vis_quiet env known f {A} (o : op) (k : ans o -> prog A) n :
  f o = false -> keeps known o ->
  (forall a, answer_ok env known o a -> emits env known f (k a) n) ->
  emits env known f (Vis o k) n.
Proof. intros Hf Hk H. simpl. split; [done|]. exists n. by rewrite Hf. Qed.

Lemma emits_Vis_count env known f {A} (o : op) (k : ans o -> prog A) l :
  keeps known o ->
  (forall a, answer_ok env known o a -> emits env known f (k a) (count f l)) ->
  emits env known f (Vis o k) (count f (o :: l)).
Proof. intros Hk H. simpl. split; [done|]. by exists (count f l). Qed.

Section Emits.
Context (env : Env) (known : knowledge) (f : op -> bool).
Hypothesis Hf : ignores_bookkeeping f.
Hypothesis Hknown : apart known.

Lemma returns_unavailable :
  returns env known f kioskService.unavailable 0.
Proof.
  destruct Hf as (H1 & H2 & _).
  apply returns_Vis_quiet; [done..|]. intros os _. destruct os; [|done..].
  apply returns_Vis_quiet; [done..|]. intros m _. done.
Qed.

Lemma returns_single_step n flag :
  (forall k v, flag = Some (k, v) -> f (SetItem k v) = false /\ known k = None) ->
  returns env known f (single_step n flag) 0.
Proof.
  intros Hflag. destruct Hf as (_ & _ & H3 & _).
  apply (returns_bind _ _ _ _ _ 0 0 returns_unavailable). intros [|]; [done|].
  apply returns_try_catch; [|done].
  apply emits_Vis_quiet; [done..|]. intros [e|b] _; [done|].
  destruct flag as [[k v]|]; [|done]. destruct (Hflag k v eq_refl).
  apply emits_Vis_quiet; [done..|]. done.
Qed.

Lemma returns_isDeviceAdmin :
  returns env known f kioskService.isDeviceAdmin 0.
Proof.
  destruct Hf as (_ & _ & H3 & _).
  apply (returns_bind _ _ _ _ _ 0 0 returns_unavailable). intros [|]; [done|].
  apply returns_try_catch; [|done].
  apply emits_Vis_quiet; [done..|]. by intros [e|b] _.
Qed.

Lemma returns_enableFullLockdown :
  returns env known f kioskService.enableFullLockdown (count f [Enter in_enableFullLockdown]).
Proof.
  destruct Hf as (_ & _ & _ & H4 & H5 & _). destruct Hknown as (_ & _ & K3 & K4 & _).
  apply returns_Vis_count; [done|]. intros _ _.
  apply (returns_bind _ _ _ _ _ 0 0 returns_isDeviceAdmin). intros [|]; [|done].
  apply (returns_bind _ _ _ _ _ 0 0
           (returns_single_step DA_startLockTaskMode (Some ("kioskModeActive", "true"))
              ltac:(by intros ? ? [= <- <-]))).
  intros kiosk.
  apply (returns_bind _ _ _ _ _ 0 0
           (returns_single_step DA_hideAppFromLauncher (Some ("appHidden", "true"))
              ltac:(by intros ? ? [= <- <-]))).
  intros hidden.
  apply (returns_bind _ _ _ _ _ 0 0
           (returns_single_step DA_disableStatusBar None ltac:(by intros ? ? [=]))).
  intros bar.
  apply (returns_bind _ _ _ _ _ 0 0
           (returns_single_step (DA_setUserRestrictions true) None
              ltac:(by intros ? ? [=]))).
  done.
Qed.
End Emits.

Lemma dispatch_returns_lock (env : Env) (status : StatusReport) :
  dispatch_returns env "lock" status ->
  env_notify env "Device Locked"
    (js_or (rep_lockMessage status) "Your device has been locked") = inr tt.
Proof.
  intros H. specialize (H fresh). revert H.
  unfold run, deviceService.handleCommand, deviceService.sendLocalNotification. simpl.
  destruct (env_notify env _ _) as [e|[]]; simpl; [discriminate|done].
Qed.

Section EmitsLock.
Context (env : Env) (known : knowledge) (f : op -> bool).
Hypothesis Hf : ignores_bookkeeping f.
Hypothesis Hknown : apart known.

Lemma returns_lock (status : StatusReport) :
  dispatch_returns env "lock" status ->
  returns env known f (deviceService.handleCommand "lock" status)
    (count f (lock_dispatch (rep_lockMessage status))).
Proof.
  intros Hd%dispatch_returns_lock. destruct Hknown as (K1 & K2 & _).
  unfold deviceService.handleCommand, deviceService.sendLocalNotification, lock_dispatch.
  cbn [bind call].
  apply returns_Vis_count; [done|]. intros _ _.
  rewrite decide_True by done. cbn [bind call].
  apply returns_Vis_count; [done|]. intros _ _.
  apply returns_Vis_count; [done|]. intros _ _.
  apply returns_Vis_count; [done|]. intros a Ha. simpl in Ha. rewrite Ha, Hd. done.
Qed.

(** The callback of [App] on Lock, its promise dropped. *)
Lemma returns_callback_lock (data : StatusReport) :
  returns env known f (detach (App.onCommandReceived "lock" data))
    (count f [SetIsLocked true; Enter in_enableFullLockdown]).
Proof.
  unfold detach. apply returns_try_catch; [|done]. apply returns_emits.
  unfold App.onCommandReceived. rewrite decide_True by done. cbn [bind call].
  apply returns_Vis_count; [done|]. intros _ _.
  rewrite <- (Nat.add_0_r (count f [Enter in_enableFullLockdown])).
  apply (returns_bind _ _ _ _ _ _ 0 (returns_enableFullLockdown env known f Hf Hknown)).
  done.
Qed.

(** The acknowledgement at the end of the foreground listener. *)
Lemma emits_push_ack (command : string) :
  emits env known f
    (try_catch
       (k1 <- call (GetItem "keyId") ;;
        keyId <- (if truthy k1 then Ret k1 else call (GetItem "activationKey")) ;;
        if truthy keyId
        then Vis (AcknowledgeCommand (default "" keyId) command) settle
        else Ret tt)
       (fun _ => Ret tt)) 0.
Proof.
  destruct Hf as (_ & _ & _ & _ & _ & H6 & H7 & _).
  cbn [bind try_catch call].
  apply emits_Vis_quiet; [done..|]. intros k1 _.
  destruct (truthy k1) eqn:E1; cbn [bind try_catch call].
  - rewrite E1. apply emits_Vis_quiet; [done..|]. by intros [e|[]] _.
  - apply emits_Vis_quiet; [done..|]. intros k2 _.
    destruct (truthy k2); cbn [bind try_catch call]; [|done].
    apply emits_Vis_quiet; [done..|]. by intros [e|[]] _.
Qed.

(** A delivery of Lock to the foreground listener of [App]. *)
Lemma emits_push_lock (d : PushData) :
  push_command d = Some "lock" ->
  dispatch_returns env "lock" (deviceService.payload d) ->
  emits env known f (App.foregroundListener d) (count f (lock_push (push_lockMessage d))).
Proof.
  intros Hc Hd.
  unfold App.foregroundListener, deviceService.foregroundListener,
    deviceService.notify_callback.
  rewrite Hc. cbn [truthy default from_option id String.eqb negb].
  unfold lock_push. rewrite count_app.
  apply emits_bind; [by apply returns_lock|]. intros _.
  rewrite <- (Nat.add_0_r (count f [SetIsLocked true; Enter in_enableFullLockdown])).
  apply emits_bind; [apply returns_callback_lock|]. intros _.
  apply emits_push_ack.
Qed.
End EmitsLock.

Section EmitsPoll.
Variable JSON_status : StatusReport -> string.
Variable JSON_error : string -> N -> string.
Context (env : Env) (known : knowledge) (f : op -> bool).
Hypothesis Hf : ignores_bookkeeping f.
Hypothesis Hknown : apart known.

(** A poll that is answered Lock. *)
Lemma emits_poll_lock (key : string) (st : StatusReport) :
  known "activationKey" = Some (Some key) -> key <> "" ->
  env_fetch env key = inr st -> actionable st "lock" ->
  dispatch_returns env "lock" st ->
  emits env known f (void (deviceService.BACKGROUND_FETCH_TASK JSON_status JSON_error))
    (count f (lock_dispatch (rep_lockMessage st))).
Proof.
  intros Hkey Hne Hfetch (Hc & _ & _) Hd%dispatch_returns_lock.
  destruct Hf as (_ & _ & _ & _ & _ & H6 & H7 & H8 & H9 & H10 & H11 & H12 & H13 & H14).
  destruct Hknown as (K1 & K2 & _ & _ & K5 & K6 & _).
  assert (String.eqb key "" = false) as Hk by (by apply String.eqb_neq).
  unfold void, deviceService.BACKGROUND_FETCH_TASK, deviceService.handleCommand,
    deviceService.sendLocalNotification, lock_dispatch.
  cbn [bind try_catch call].
  apply emits_Vis_quiet; [done..|]. intros startTime _.
  apply emits_Vis_quiet; [done..|]. intros k Hk'. simpl in Hk'.
  rewrite (Hk' _ Hkey). cbn [truthy default from_option id]. rewrite Hk.
  cbn [negb bind try_catch call].
  apply emits_Vis_quiet; [done..|]. intros controller _.
  apply emits_Vis_quiet; [done..|]. intros timeoutId _.
  apply emits_Vis_quiet; [done..|]. intros a Ha. simpl in Ha. rewrite Ha, Hfetch.
  cbn [settle bind try_catch call].
  apply emits_Vis_quiet; [done..|]. intros _ _.
  rewrite Hc. cbn [truthy default from_option id String.eqb negb andb].
  rewrite bool_decide_eq_false_2 by (intros [=]).
  rewrite decide_True by done.
  cbn [negb bind try_catch call].
  apply emits_Vis_count; [done|]. intros _ _.
  apply emits_Vis_count; [done|]. intros _ _.
  apply emits_Vis_count; [done|]. intros _ _.
  apply emits_Vis_count; [done|]. intros n Hn. simpl in Hn. rewrite Hn, Hd.
  cbn [settle bind try_catch call].
  apply emits_Vis_quiet; [done..|]. intros ack _.
  destruct ack as [e|[]]; cbn [settle bind try_catch call];
    (apply emits_Vis_quiet; [done..|]; intros _ _;
     apply emits_Vis_quiet; [done..|]; intros t _;
     apply emits_Vis_quiet; [done..|]; intros _ _;
     apply emits_Vis_quiet; [done..|]; intros finish _; done).
Qed.
End EmitsPoll.

Lemma count_of_thread (f : op -> bool) (b : bool) (l : list (bool * op)) :
  count f (of_thread b l) = count (tagged (fun b' o => Bool.eqb b' b && f o)) l.
Proof.
  unfold of_thread. induction l as [|[b' o] l IH]; [done|].
  rewrite filter_cons. cbn [count]. unfold tagged at 1. cbn [fst snd].
  destruct (decide (b' = b)) as [->|Hne].
  - rewrite fmap_cons. cbn [count snd]. rewrite IH, Bool.eqb_reflx. done.
  - rewrite IH. destruct b', b; try done.
Qed.

Lemma ignores_bookkeeping_and (c : bool) (f : op -> bool) :
  ignores_bookkeeping f -> ignores_bookkeeping (fun o => c && f o).
Proof.
  unfold ignores_bookkeeping. intros H. destruct c; [exact H|].
  repeat split; done.
Qed.

Lemma count_and_false {A} (f : A -> bool) (l : list A) :
  count (fun o => false && f o) l = 0%nat.
Proof. by induction l. Qed.

Lemma count_and_true {A} (f : A -> bool) (l : list A) :
  count (fun o => true && f o) l = count f l.
Proof. induction l as [|x l IH]; [done|]. cbn [count]. by rewrite IH. Qed.

Lemma holds_identity (key : string) (w : World) :
  store w !! "activationKey" = Some key -> holds (identity_known key) w.
Proof.
  intros H k v. unfold identity_known. case_decide; [|done]. by intros [= <-]; subst.
Qed.

Lemma apart_identity (key : string) : apart (identity_known key).
Proof. repeat split. Qed.

Lemma apart_nothing : apart nothing_known.
Proof. repeat split. Qed.

Section Race.
Variable JSON_status : StatusReport -> string.
Variable JSON_error : string -> N -> string.

Local Abbreviation poll := (poll_thread JSON_status JSON_error).

(** A poll and a push delivery in flight, both carrying Lock for the
    same identity: whatever the schedule, the poll does what a poll does
    and the delivery what a delivery does. *)
Lemma poll_push_count (f : op -> bool) (b : bool) (sched : list bool) (env1 env2 : Env)
    (w : World) (key : string) (st : StatusReport) (d : PushData) :
  ignores_bookkeeping f ->
  store w !! "activationKey" = Some key -> key <> "" ->
  env_fetch env1 key = inr st -> actionable st "lock" ->
  dispatch_returns env1 "lock" st ->
  push_command d = Some "lock" ->
  dispatch_returns env2 "lock" (deviceService.payload d) ->
  count f (of_thread b (snd (interleave sched (poll env1) (push_thread env2 d) w))) =
  if b then count f (lock_push (push_lockMessage d))
  else count f (lock_dispatch (rep_lockMessage st)).
Proof.
  intros Hf Hkey Hne Hfetch Hact Hd1 Hc Hd2.
  rewrite count_of_thread. unfold poll_thread, push_thread.
  rewrite (interleave_count _ (identity_known key) env1 env2 sched _ _
             (count (fun o => Bool.eqb false b && f o) (lock_dispatch (rep_lockMessage st)))
             (count (fun o => Bool.eqb true b && f o) (lock_push (push_lockMessage d)))).
  - destruct b; cbn [Bool.eqb]; rewrite count_and_false, count_and_true; lia.
  - by apply (emits_poll_lock JSON_status JSON_error env1 (identity_known key) _
                (ignores_bookkeeping_and _ _ Hf) (apart_identity key) key st).
  - by apply (emits_push_lock env2 (identity_known key) _
                (ignores_bookkeeping_and _ _ Hf) (apart_identity key)).
  - by apply holds_identity.
Qed.

(** Two push deliveries of Lock in flight: each does what a delivery
    does. *)
Lemma push_push_count (f : op -> bool) (b : bool) (sched : list bool) (env1 env2 : Env)
    (w : World) (d : PushData) :
  ignores_bookkeeping f ->
  push_command d = Some "lock" ->
  dispatch_returns env1 "lock" (deviceService.payload d) ->
  dispatch_returns env2 "lock" (deviceService.payload d) ->
  count f (of_thread b (snd (interleave sched (push_thread env1 d) (push_thread env2 d) w))) =
  count f (lock_push (push_lockMessage d)).
Proof.
  intros Hf Hc Hd1 Hd2.
  rewrite count_of_thread. unfold push_thread.
  rewrite (interleave_count _ nothing_known env1 env2 sched _ _
             (count (fun o => Bool.eqb false b && f o) (lock_push (push_lockMessage d)))
             (count (fun o => Bool.eqb true b && f o) (lock_push (push_lockMessage d)))).
  - destruct b; cbn [Bool.eqb]; rewrite count_and_false, count_and_true; lia.
  - by apply (emits_push_lock env1 nothing_known _
                (ignores_bookkeeping_and _ _ Hf) apart_nothing).
  - by apply (emits_push_lock env2 nothing_known _
                (ignores_bookkeeping_and _ _ Hf) apart_nothing).
  - done.
Qed.

(** C2 (amended). Two cycles in flight at once for the same identity
    and the same command Lock are neither serialised nor deduplicated:
    under every interleaving of their operations each dispatches the
    command and raises its alert.  The full lockdown is applied by the
    push delivery (through the callback of [App]) and never by the
    poll: a poll racing a push applies it once, two push deliveries
    racing each other apply it twice. *)
Theorem concurrent_cycles_each_take_effect (sched : list bool) (env1 env2 : Env)
    (w : World) (key : string) (st : StatusReport) (d : PushData) :
  store w !! "activationKey" = Some key -> key <> "" ->
  env_fetch env1 key = inr st -> actionable st "lock" ->
  dispatch_returns env1 "lock" st ->
  push_command d = Some "lock" ->
  dispatch_returns env1 "lock" (deviceService.payload d) ->
  dispatch_returns env2 "lock" (deviceService.payload d) ->
  let poll_push := snd (interleave sched (poll env1) (push_thread env2 d) w) in
  let push_push := snd (interleave sched (push_thread env1 d) (push_thread env2 d) w) in
  (count is_dispatch (of_thread false poll_push) = 1%nat /\
   count is_alert (of_thread false poll_push) = 1%nat /\
   count is_apply (of_thread false poll_push) = 0%nat /\
   count is_dispatch (of_thread true poll_push) = 1%nat /\
   count is_alert (of_thread true poll_push) = 1%nat /\
   count is_apply (of_thread true poll_push) = 1%nat) /\
  (count is_dispatch (of_thread false push_push) = 1%nat /\
   count is_alert (of_thread false push_push) = 1%nat /\
   count is_apply (of_thread false push_push) = 1%nat /\
   count is_dispatch (of_thread true push_push) = 1%nat /\
   count is_alert (of_thread true push_push) = 1%nat /\
   count is_apply (of_thread true push_push) = 1%nat).
Proof.
  intros Hkey Hne Hfetch Hact Hd1 Hc Hd1' Hd2 poll_push push_push.
  unfold poll_push, push_push.
  rewrite !(poll_push_count _ _ sched env1 env2 w key st d) by (done || by repeat split).
  rewrite !(push_push_count _ _ sched env1 env2 w d) by (done || by repeat split).
  repeat split.
Qed.
End Race.

(* ===================================================================== *)
(** ** The properties at concrete inputs *)
(* ===================================================================== *)

(** C1 (counterexample). The server reports Lock twice to an activated
    device: the second poll does not short-circuit. *)
Lemma idempotence_guard_fails :
  ~ idempotence_guard show_status show_error (env_up lock_report 120) activated.
Proof. intros [H _]. vm_compute in H. discriminate H. Qed.

(** The same two polls: NewData twice, two dispatches, two acknowledgements. *)
Example lock_reported_twice :
  let r1 := run (env_up lock_report 120)
              (deviceService.BACKGROUND_FETCH_TASK show_status show_error) activated in
  let r2 := run (env_up lock_report 120)
              (deviceService.BACKGROUND_FETCH_TASK show_status show_error) (fst r1) in
  snd r1 = inr NewData /\ snd r2 = inr NewData /\
  count is_dispatch (trace (fst r2)) = 2%nat /\ count is_ack (trace (fst r2)) = 2%nat.
Proof. vm_compute. repeat split. Qed.

Lemma dispatch_returns_up (st st' : StatusReport) (ms : N) (c : string) :
  dispatch_returns (env_up st ms) c st'.
Proof.
  intros w. unfold run, deviceService.handleCommand, deviceService.ringDevice,
    deviceService.sendLocalNotification.
  repeat case_decide; reflexivity.
Qed.

Lemma poll_dispatches_every_time_witness :
  exists w1 w2,
    run (env_up lock_report 120)
      (deviceService.BACKGROUND_FETCH_TASK show_status show_error) activated
      = (w1, inr NewData) /\
    run (env_up lock_report 120)
      (deviceService.BACKGROUND_FETCH_TASK show_status show_error) w1
      = (w2, inr NewData) /\
    count is_dispatch (trace w2) = (count is_dispatch (trace activated) + 2)%nat /\
    count is_ack (trace w2) = (count is_ack (trace activated) + 2)%nat.
Proof.
  apply (poll_dispatches_every_time show_status show_error
           (env_up lock_report 120) (env_up lock_report 120) activated
           "ABC123" lock_report "lock").
  - reflexivity.
  - discriminate.
  - reflexivity.
  - reflexivity.
  - reflexivity.
  - split; [reflexivity|split; discriminate].
  - apply dispatch_returns_up.
  - apply dispatch_returns_up.
Defined.

(** C2 (counterexample). A poll and a push delivery of the same Lock in
    flight, taking turns: both perform side effects. *)
Lemma race_safe_fails :
  ~ race_safe
      (snd (interleave [false; true; false; true; false; true; false; true]
              (poll_thread show_status show_error (env_up lock_report 120))
              (push_thread (env_up lock_report 120) lock_push_data)
              activated)).
Proof. intros [_ [[|] H]]; vm_compute in H; discriminate H. Qed.

Lemma concurrent_cycles_each_take_effect_witness :
  let poll_push :=
    snd (interleave [false; true; true; false; true]
           (poll_thread show_status show_error (env_up lock_report 120))
           (push_thread (env_up lock_report 120) lock_push_data) activated) in
  let push_push :=
    snd (interleave [false; true; true; false; true]
           (push_thread (env_up lock_report 120) lock_push_data)
           (push_thread (env_up lock_report 120) lock_push_data) activated) in
  (count is_dispatch (of_thread false poll_push) = 1%nat /\
   count is_alert (of_thread false poll_push) = 1%nat /\
   count is_apply (of_thread false poll_push) = 0%nat /\
   count is_dispatch (of_thread true poll_push) = 1%nat /\
   count is_alert (of_thread true poll_push) = 1%nat /\
   count is_apply (of_thread true poll_push) = 1%nat) /\
  (count is_dispatch (of_thread false push_push) = 1%nat /\
   count is_alert (of_thread false push_push) = 1%nat /\
   count is_apply (of_thread false push_push) = 1%nat /\
   count is_dispatch (of_thread true push_push) = 1%nat /\
   count is_alert (of_thread true push_push) = 1%nat /\
   count is_apply (of_thread true push_push) = 1%nat).
Proof.
  apply (concurrent_cycles_each_take_effect show_status show_error
           [false; true; true; false; true]
           (env_up lock_report 120) (env_up lock_report 120) activated
           "ABC123" lock_report lock_push_data).
  - reflexivity.
  - discriminate.
  - reflexivity.
  - split; [reflexivity|split; discriminate].
  - apply dispatch_returns_up.
  - reflexivity.
  - apply dispatch_returns_up.
  - apply dispatch_returns_up.
Defined.

(** C3 (counterexample). Two Resets dispatched at once: two wipes are
    pending, and both fire. *)
Lemma converges_to_one_wipe_fails :
  ~ converges_to_one_wipe (env_up lock_report 120) (report "active" "reset" None) activated.
Proof. intros [H _]. vm_compute in H. discriminate H. Qed.

Lemma every_reset_schedules_a_wipe_witness :
  let wn := dispatch_times 3 (env_up lock_report 120) "reset"
              (report "active" "reset" None) activated in
  pending_resets wn = 3%nat /\
  count is_wipe (trace wn) = count is_wipe (trace activated) /\
  count is_wipe (trace (advance (env_up lock_report 120) 10000 wn))
    = (count is_wipe (trace activated) + 3)%nat /\
  pending_resets (advance (env_up lock_report 120) 10000 wn) = 0%nat.
Proof.
  apply (every_reset_schedules_a_wipe 3 (env_up lock_report 120) (env_up lock_report 120)
           (report "active" "reset" None) activated).
  - apply dispatch_returns_up.
  - reflexivity.
Defined.

(** Reset, then Unlock at once, then ten seconds. *)
Lemma reset_cannot_be_cancelled_witness :
  let env := env_up lock_report 120 in
  let w1 := fst (run env (deviceService.handleCommand "reset" (report "active" "reset" None))
                   activated) in
  let w2 := play [Dispatch env "unlock" (report "active" "unlock" None)] w1 in
  (elapsed [Dispatch env "unlock" (report "active" "unlock" None)] < 10000 ->
   exists id, {| timer_id := id; timer_due := now activated + 10000;
                 timer_action_of := TFactoryReset |} ∈ timers w2) /\
  (10000 <= elapsed [Dispatch env "unlock" (report "active" "unlock" None)] ->
   (count is_wipe (trace w1) < count is_wipe (trace w2))%nat) /\
  (forallb is_dispatch_step [Dispatch env "unlock" (report "active" "unlock" None)] = true ->
   forall env',
     store (advance env' 10000 w2) = ∅ /\
     (count is_wipe (trace w2) < count is_wipe (trace (advance env' 10000 w2)))%nat).
Proof.
  apply (reset_cannot_be_cancelled (env_up lock_report 120)
           (report "active" "reset" None) activated
           [Dispatch (env_up lock_report 120) "unlock" (report "active" "unlock" None)]).
  apply dispatch_returns_up.
Defined.

(** C5 (the code at a failing input). The server answers after thirty
    seconds, past the budget of twenty-five: the abort fires (controller 0
    is aborted) but the request is not abandoned; the poll returns NewData
    at time 31000, records that time as the last sync, and records no
    error. *)
Example timeout_budget_not_enforced :
  let r := run slow_server
             (deviceService.BACKGROUND_FETCH_TASK show_status show_error) activated in
  snd r = inr NewData /\
  aborted (fst r) = [0%nat] /\
  now (fst r) = 31000 /\
  store (fst r) !! "lastSyncTime" = Some "31000" /\
  store (fst r) !! "lastSyncError" = None /\
  count is_fetch (trace (fst r)) = 1%nat.
Proof. vm_compute. repeat split. Qed.


Lemma dispatch_raises_mute (st st' : StatusReport) (ms : N) :
  dispatch_raises (env_mute st ms) "lock" st' "Notifications are not allowed".
Proof. intros w. reflexivity. Qed.

(** The server cannot be reached; and the alert of a Lock is rejected. *)
Lemma failure_recorded_witness :
  (exists w',
     run (env_down "Network Error" 3000)
       (deviceService.BACKGROUND_FETCH_TASK show_status show_error) activated
       = (w', inr Failed) /\
     store w' !! "lastSyncError" = Some (show_error "Network Error" (now w'))) /\
  (exists w',
     run (env_mute lock_report 120)
       (deviceService.BACKGROUND_FETCH_TASK show_status show_error) activated
       = (w', inr Failed) /\
     store w' !! "lastSyncError"
       = Some (show_error "Notifications are not allowed" (now w'))).
Proof.
  split.
  - apply (failure_recorded show_status show_error (env_down "Network Error" 3000)
             activated "ABC123" "Network Error").
    + reflexivity.
    + discriminate.
    + left. reflexivity.
  - apply (failure_recorded show_status show_error (env_mute lock_report 120)
             activated "ABC123" "Notifications are not allowed").
    + reflexivity.
    + discriminate.
    + right. exists lock_report, "lock". split; [reflexivity|]. split.
      * split; [reflexivity|split; discriminate].
      * apply dispatch_raises_mute.
Defined.

Lemma no_identity_short_circuit_witness :
  exists w',
    run (env_up lock_report 120)
      (deviceService.BACKGROUND_FETCH_TASK show_status show_error) fresh = (w', inr NoData) /\
    trace w' = (trace fresh ++ [DateNow; GetItem "activationKey"])%list /\
    store w' = store fresh /\ timers w' = timers fresh /\
    count is_fetch (trace w') = count is_fetch (trace fresh) /\
    count is_dispatch (trace w') = count is_dispatch (trace fresh) /\
    count is_ack (trace w') = count is_ack (trace fresh) /\
    count is_write (trace w') = count is_write (trace fresh) /\
    count is_effect (trace w') = count is_effect (trace fresh).
Proof.
  apply (no_identity_short_circuit show_status show_error (env_up lock_report 120) fresh).
  reflexivity.
Defined.

(** C9 (counterexample). On a platform without the native module the
    release of the lockdown returns undefined: neither false nor a
    results record. *)
Lemma false_or_results_fails :
  ~ false_or_results cap_disableFullLockdown (env_ios lock_report) fresh.
Proof.
  intros H. destruct H as (w' & v & Hrun & Hv).
  - left. right. reflexivity.
  - vm_compute in Hrun. injection Hrun as _ <-.
    destruct Hv as [Hv|(r & Hv & _)]; discriminate Hv.
Qed.

(** C6 (counterexample). Lock, Reminder and Unlock dispatched to an
    activated, unlocked device: the store converges, but the dispatcher
    invokes no lockdown capability, so the log shows no apply after the
    Lock. *)
Lemma state_convergence_fails :
  ~ state_convergence (env_up lock_report 120) lock_report
      (report "locked" "reminder" None) (report "active" "unlock" None) activated.
Proof.
  intros H. destruct (H eq_refl) as (_ & _ & _ & Ha & _). vm_compute in Ha. discriminate Ha.
Qed.

(** C10 (counterexample). A locked device is deactivated: the lock query
    still answers true. *)
Lemma unlocked_after_deactivation_fails :
  ~ unlocked_after_deactivation (env_up lock_report 120) locked_device.
Proof. unfold unlocked_after_deactivation. vm_compute. discriminate. Qed.

(* ===================================================================== *)
(** ** The poll, case by case *)
(* ===================================================================== *)

Section PollCases.
Variable JSON_status : StatusReport -> string.
Variable JSON_error : string -> N -> string.

Local Abbreviation TASK := (deviceService.BACKGROUND_FETCH_TASK JSON_status JSON_error).

Lemma run_with_vis wait env {A} (o : op) (k : ans o -> prog A) w :
  run_with wait env (Vis o k) w =
  run_with wait env (k (snd (exec_op wait env o w))) (fst (exec_op wait env o w)).
Proof. reflexivity. Qed.

Lemma run_with_settle wait env {A} (r : result A) w :
  run_with wait env (settle r) w = (w, r).
Proof. by destruct r. Qed.

Lemma run_record_failure (env : Env) (e : error) (w : World) :
  run_with (advance env) env
    (call DateNow;; t <- call DateNow;;
     call (SetItem "lastSyncError" (JSON_error e t));; Ret Failed) w =
  (recorded_failure JSON_error e w, inr Failed).
Proof. reflexivity. Qed.

Lemma run_record_sync (env : Env) (st : StatusReport) (w : World) :
  run_with (advance env) env
    (call (SetItem "deviceStatus" (JSON_status st));;
     t <- call DateNow;;
     call (SetItem "lastSyncTime" (pretty t));;
     call DateNow;; Ret NewData) w =
  (recorded_sync JSON_status st w, inr NewData).
Proof. reflexivity. Qed.

Lemma run_clear_rethrow (env : Env) {A} (id : nat) (e : error) (w : World) :
  run_with (advance env) env (call (ClearTimeout id);; @Throw A e) w = (cleared id w, inl e).
Proof. reflexivity. Qed.

Lemma poll_closed_form (env : Env) (w : World) :
  run env TASK w = poll_outcome JSON_status JSON_error env w.
Proof.
  unfold run, deviceService.BACKGROUND_FETCH_TASK, poll_outcome.
  rewrite run_with_bind, run_with_call. cbn [exec_op fst snd].
  rewrite run_with_try_catch, run_with_bind, run_with_call. cbn [exec_op fst snd store log].
  destruct (truthy (store w !! "activationKey")); cbn [negb]; [|reflexivity].
  rewrite run_with_bind, run_with_call. cbn [exec_op fst snd].
  rewrite run_with_bind, run_with_call. cbn [exec_op fst snd].
  cbn [next_timer next_controller now timers log set_next_controller set_next_timer set_timers].
  rewrite run_with_try_catch, run_with_bind, run_with_vis, run_with_settle.
  cbn [exec_op fst snd].
  fold (requested env (default "" (store w !! "activationKey")) w).
  generalize (requested env (default "" (store w !! "activationKey")) w). intros wa.
  destruct (env_fetch env _) as [e|st].
  { rewrite run_clear_rethrow, run_record_failure. reflexivity. }
  rewrite run_with_bind, run_with_call. cbn [exec_op fst snd].
  fold (cleared (next_timer w) wa). generalize (cleared (next_timer w) wa). intros wc.
  rewrite run_with_bind.
  fold (acts_on st). destruct (acts_on st).
  2: { cbn [run_with]. rewrite run_record_sync. reflexivity. }
  rewrite run_with_bind. unfold run.
  destruct (run_with (advance env) env (deviceService.handleCommand _ st) wc) as [w1 [e|[]]];
    cbn [fst snd].
  { rewrite run_clear_rethrow, run_record_failure. reflexivity. }
  rewrite run_with_try_catch, run_with_vis, run_with_settle. cbn [exec_op fst snd].
  destruct (env_ack env _ _) as [e|[]]; cbn [run_with]; rewrite run_record_sync; reflexivity.
Qed.
End PollCases.

(** *** The request *)

Lemma now_requested env key w : now (requested env key w) = now w + env_fetch_ms env.
Proof. unfold requested. rewrite advance_eq. reflexivity. Qed.

Lemma store_requested env key w :
  pending_resets w = 0%nat -> store (requested env key w) = store w.
Proof.
  intros Hp. unfold requested. rewrite advance_eq. cbn [store fired set_timers set_now log
    set_next_timer set_next_controller timers now].
  rewrite existsb_reset_filter; [done|].
  rewrite count_filter_enqueue. cbn. exact Hp.
Qed.

(** What the request adds to the log: its own five operations, then what
    the timeouts that fell due added. *)
Lemma count_requested (f : op -> bool) env key w :
  count f (trace (requested env key w)) =
  (count f (trace w) +
   count f [DateNow; GetItem "activationKey"; NewAbortController;
            SetTimeout (TAbort (next_controller w)) 25000; GetDeviceStatus key] +
   count f (concat (timer_events <$>
              filter (fun t => is_due (now w + env_fetch_ms env) t = true)
                (enqueue {| timer_id := next_timer w; timer_due := now w + 25000;
                            timer_action_of := TAbort (next_controller w) |}
                   (timers w)))))%nat.
Proof.
  unfold requested. rewrite advance_eq.
  cbn [trace fired set_timers set_now log set_next_timer set_next_controller timers now].
  rewrite !count_app. cbn [count]. lia.
Qed.

Lemma count_requested_quiet (f : op -> bool) env key w :
  blind_to_timeouts f -> pending_resets w = 0%nat ->
  count f (trace (requested env key w)) =
  (count f (trace w) +
   count f [DateNow; GetItem "activationKey"; NewAbortController;
            SetTimeout (TAbort (next_controller w)) 25000; GetDeviceStatus key])%nat.
Proof.
  intros (H1 & H2 & H3) Hp. rewrite count_requested.
  match goal with |- (_ + ?x)%nat = _ => assert (x = 0%nat) as ->; [|lia] end.
  assert (count is_reset_timer
            (enqueue {| timer_id := next_timer w; timer_due := now w + 25000;
                        timer_action_of := TAbort (next_controller w) |} (timers w)) = 0%nat)
    as Hq by (rewrite count_filter_enqueue; cbn; exact Hp).
  revert Hq. generalize (enqueue {| timer_id := next_timer w; timer_due := now w + 25000;
                        timer_action_of := TAbort (next_controller w) |} (timers w)).
  intros l. induction l as [|t l IH]; [done|]. cbn [count]. intros Hq.
  rewrite filter_cons. destruct (decide _).
  - rewrite fmap_cons. cbn [concat]. rewrite count_app, IH.
    + unfold timer_events. unfold is_reset_timer in Hq.
      destruct (timer_action_of t); cbn [count]; rewrite ?H1, ?H2, ?H3; try done.
    + destruct (is_reset_timer t); [discriminate|done].
  - apply IH. destruct (is_reset_timer t); [discriminate|done].
Qed.

(** *** What the dispatcher leaves of the timeouts *)

Lemma handleCommand_timers (env : Env) (command : string) (status : StatusReport) (w : World) :
  let w' := fst (run env (deviceService.handleCommand command status) w) in
  aborted w' = aborted w /\
  forall t, t ∈ timers w' ->
    t ∈ timers w \/ timer_action_of t = TFactoryReset \/ timer_action_of t = TVibrationCancel.
Proof.
  unfold run, deviceService.handleCommand, deviceService.ringDevice,
    deviceService.sendLocalNotification.
  repeat case_decide; simpl;
    repeat match goal with
    | |- context [env_notify env ?t ?b] => destruct (env_notify env t b); simpl
    | |- context [env_vibrate env] => destruct (env_vibrate env); simpl
    end;
    (split; [done|]); intros t; rewrite ?elem_of_enqueue;
    intros Hin; try (destruct Hin as [->|Hin]); simpl; tauto.
Qed.

Lemma actionable_acts_on (st : StatusReport) (c : string) :
  actionable st c -> acts_on st = true /\ default "" (rep_command st) = c.
Proof.
  intros (Hc & H1 & H2). unfold acts_on. rewrite Hc. split; [|done].
  cbn [truthy]. rewrite bool_decide_eq_false_2 by congruence.
  apply String.eqb_neq in H1. by rewrite H1.
Qed.

Lemma truthy_key (w : World) (key : string) :
  store w !! "activationKey" = Some key -> key <> "" ->
  truthy (store w !! "activationKey") = true /\
  default "" (store w !! "activationKey") = key.
Proof.
  intros -> Hne. split; [|done]. simpl. by apply negb_true_iff, String.eqb_neq.
Qed.

Section PollBookkeeping.
Variable JSON_status : StatusReport -> string.
Variable JSON_error : string -> N -> string.

Local Abbreviation TASK := (deviceService.BACKGROUND_FETCH_TASK JSON_status JSON_error).

(** The poll of an activated device whose dispatch returns, and the one
    whose request fails or whose dispatch raises. *)
Lemma poll_outcome_applied (env : Env) (w : World) (key : string) (st : StatusReport)
    (c : string) :
  store w !! "activationKey" = Some key -> key <> "" ->
  env_fetch env key = inr st -> actionable st c -> dispatch_returns env c st ->
  run env TASK w =
  (recorded_sync JSON_status st
     (log (AcknowledgeCommand key c)
        (fst (run env (deviceService.handleCommand c st)
                (cleared (next_timer w) (requested env key w))))), inr NewData).
Proof.
  intros Hkey Hne Hf Hact Hd. destruct (truthy_key w key Hkey Hne) as [Ht Hk].
  destruct (actionable_acts_on st c Hact) as [Ha Hc].
  rewrite poll_closed_form. unfold poll_outcome. rewrite Ht, Hk, Hf, Ha, Hc.
  by rewrite Hd.
Qed.

Lemma poll_outcome_raised (env : Env) (w : World) (key : string) (st : StatusReport)
    (c : string) (e : error) :
  store w !! "activationKey" = Some key -> key <> "" ->
  env_fetch env key = inr st -> actionable st c -> dispatch_raises env c st e ->
  run env TASK w =
  (recorded_failure JSON_error e
     (cleared (next_timer w)
        (fst (run env (deviceService.handleCommand c st)
                (cleared (next_timer w) (requested env key w))))), inr Failed).
Proof.
  intros Hkey Hne Hf Hact Hd. destruct (truthy_key w key Hkey Hne) as [Ht Hk].
  destruct (actionable_acts_on st c Hact) as [Ha Hc].
  rewrite poll_closed_form. unfold poll_outcome. rewrite Ht, Hk, Hf, Ha, Hc.
  by rewrite Hd.
Qed.

Lemma poll_outcome_unreachable (env : Env) (w : World) (key : string) (e : error) :
  store w !! "activationKey" = Some key -> key <> "" ->
  env_fetch env key = inl e ->
  run env TASK w =
  (recorded_failure JSON_error e (cleared (next_timer w) (requested env key w)), inr Failed).
Proof.
  intros Hkey Hne Hf. destruct (truthy_key w key Hkey Hne) as [Ht Hk].
  rewrite poll_closed_form. unfold poll_outcome. by rewrite Ht, Hk, Hf.
Qed.

(** X1. A poll whose report carries no command, or the command [none],
    only keeps the books: nothing is dispatched, alerted or acknowledged;
    the report and the time of the answer are stored, no other key of the
    store changes; the result is NewData. *)
Theorem poll_without_command (env : Env) (w : World) (key : string) (st : StatusReport) :
  store w !! "activationKey" = Some key -> key <> "" ->
  env_fetch env key = inr st ->
  (rep_command st = None \/ rep_command st = Some "" \/ rep_command st = Some "none") ->
  pending_resets w = 0%nat ->
  exists w',
    run env TASK w = (w', inr NewData) /\
    count is_dispatch (trace w') = count is_dispatch (trace w) /\
    count is_alert (trace w') = count is_alert (trace w) /\
    count is_ack (trace w') = count is_ack (trace w) /\
    store w' !! "deviceStatus" = Some (JSON_status st) /\
    store w' !! "lastSyncTime" = Some (pretty (now w + env_fetch_ms env)) /\
    (forall k, k <> "deviceStatus" -> k <> "lastSyncTime" -> store w' !! k = store w !! k).
Proof.
  intros Hkey Hne Hf Hcmd Hp. destruct (truthy_key w key Hkey Hne) as [Ht Hd].
  assert (acts_on st = false) as Hact.
  { unfold acts_on. by destruct Hcmd as [->|[->| ->]]. }
  rewrite poll_closed_form. unfold poll_outcome. rewrite Ht, Hd, Hf, Hact.
  eexists. split; [reflexivity|].
  cbn [recorded_sync cleared trace store now log set_store set_timers].
  rewrite !count_app, !count_requested_quiet by (done || by repeat split).
  rewrite now_requested, store_requested by done.
  cbn [count is_dispatch is_alert is_ack].
  split; [lia|]. split; [lia|]. split; [lia|].
  split; [by rewrite lookup_insert_ne, lookup_insert_eq|].
  split; [by rewrite lookup_insert_eq|].
  intros k H1 H2. by rewrite !lookup_insert_ne.
Qed.

End PollBookkeeping.

(** *** Further cases of the poll *)

Lemma requested_with_ack a env key w : requested (with_ack a env) key w = requested env key w.
Proof. unfold requested. by rewrite !advance_eq. Qed.

Lemma handleCommand_with_ack a env c st w :
  run (with_ack a env) (deviceService.handleCommand c st) w =
  run env (deviceService.handleCommand c st) w.
Proof.
  unfold run, deviceService.handleCommand, deviceService.ringDevice,
    deviceService.sendLocalNotification.
  repeat case_decide; simpl;
    repeat match goal with
    | |- context [env_notify env ?t ?b] => destruct (env_notify env t b); simpl
    | |- context [env_vibrate env] => destruct (env_vibrate env); simpl
    end; reflexivity.
Qed.

Lemma handleCommand_unknown env c st w :
  c ∉ known_commands ->
  run env (deviceService.handleCommand c st) w = (log (Enter (in_handleCommand c)) w, inr tt).
Proof.
  intros Hc. unfold run, deviceService.handleCommand.
  repeat case_decide; try reflexivity; exfalso; apply Hc; unfold known_commands;
    repeat match goal with H : _ \/ _ |- _ => destruct H end; subst;
    repeat (first [apply list_elem_of_here | apply list_elem_of_further]).
Qed.

Lemma dispatch_lock_raises env st e :
  env_notify env "Device Locked"
    (js_or (rep_lockMessage st) "Your device has been locked") = inl e ->
  dispatch_raises env "lock" st e.
Proof.
  intros H w. unfold run, deviceService.handleCommand, deviceService.sendLocalNotification.
  rewrite decide_True by done. cbn [bind call run_with exec_op fst snd].
  by rewrite H.
Qed.

Lemma count_requested_ack env key w :
  count is_ack (trace (requested env key w)) = count is_ack (trace w).
Proof. rewrite count_requested, count_timer_events_ack. cbn. lia. Qed.

Lemma count_requested_dispatch env key w :
  count is_dispatch (trace (requested env key w)) = count is_dispatch (trace w).
Proof. rewrite count_requested, count_timer_events_dispatch. cbn. lia. Qed.

(** *** Timeouts that abort *)

Lemma elem_of_concat_aborts (c : nat) (l : list timer) :
  c ∈ concat (timer_aborts <$> l) -> exists t, t ∈ l /\ timer_action_of t = TAbort c.
Proof.
  induction l as [|t l IH]; [by intros ?%elem_of_nil|].
  rewrite fmap_cons. cbn [concat]. intros [H|H]%elem_of_app.
  - exists t. split; [by left|]. unfold timer_aborts in H.
    destruct (timer_action_of t); try by apply elem_of_nil in H.
    by apply list_elem_of_singleton in H as ->.
  - destruct (IH H) as (u & Hu & Ha). exists u. split; [by right|done].
Qed.

Lemma unabortable_advance c env d w : unabortable c w -> unabortable c (advance env d w).
Proof.
  intros [Ha Ht]. rewrite advance_eq. split; cbn [aborted timers fired set_timers set_now].
  - intros [H|H]%elem_of_app; [|done].
    apply list_elem_of_In in H. rewrite <- in_rev in H. apply list_elem_of_In in H.
    apply elem_of_concat_aborts in H as (t & [_ Hin]%list_elem_of_filter & Hact).
    by apply (Ht t).
  - intros t [_ Hin]%list_elem_of_filter. by apply Ht.
Qed.

Lemma unabortable_cleared c id w : unabortable c w -> unabortable c (cleared id w).
Proof.
  intros [Ha Ht]. split; [done|]. cbn [cleared timers set_timers].
  intros t [_ Hin]%list_elem_of_filter. by apply Ht.
Qed.

Lemma unabortable_dispatch c env command st w :
  unabortable c w ->
  unabortable c (fst (run env (deviceService.handleCommand command st) w)).
Proof.
  intros [Ha Ht]. destruct (handleCommand_timers env command st w) as [Hab Hti].
  split; [by rewrite Hab|]. intros t Hin.
  destruct (Hti t Hin) as [H|[H|H]]; [by apply Ht|by rewrite H..].
Qed.

Lemma unabortable_requested env key w :
  env_fetch_ms env < 25000 -> unabortable (next_controller w) w ->
  unabortable (next_controller w) (cleared (next_timer w) (requested env key w)).
Proof.
  intros Hms [Ha Ht]. unfold requested. rewrite advance_eq.
  set (t0 := {| timer_id := next_timer w; timer_due := now w + 25000;
                timer_action_of := TAbort (next_controller w) |}).
  split; cbn [cleared aborted timers fired set_timers set_now log set_next_timer
              set_next_controller now].
  - intros [H|H]%elem_of_app; [|done].
    apply list_elem_of_In in H. rewrite <- in_rev in H. apply list_elem_of_In in H.
    apply elem_of_concat_aborts in H as (t & [Hdue Hin]%list_elem_of_filter & Hact).
    apply elem_of_enqueue in Hin as [->|Hin]; [|by apply (Ht t)].
    unfold is_due, t0 in Hdue. cbn in Hdue. apply N.leb_le in Hdue. lia.
  - intros t [Hid [_ Hin]%list_elem_of_filter]%list_elem_of_filter.
    apply elem_of_enqueue in Hin as [->|Hin]; [done|by apply Ht].
Qed.

Section PollFurther.
Variable JSON_status : StatusReport -> string.
Variable JSON_error : string -> N -> string.

Local Abbreviation TASK := (deviceService.BACKGROUND_FETCH_TASK JSON_status JSON_error).

(** X2. What the acknowledgement answers is invisible: whether it
    succeeds or fails, the poll gives the same result and leaves the same
    world (the same store, timeouts and log). *)
Theorem poll_blind_to_ack_outcome (a : string -> string -> result unit) (env : Env)
    (w : World) :
  run (with_ack a env) TASK w = run env TASK w.
Proof.
  rewrite !poll_closed_form. unfold poll_outcome.
  destruct (truthy (store w !! "activationKey")); [|reflexivity].
  rewrite requested_with_ack. change (env_fetch (with_ack a env)) with (env_fetch env).
  destruct (env_fetch env _) as [e|st]; [reflexivity|].
  destruct (acts_on st); [|reflexivity].
  rewrite handleCommand_with_ack. reflexivity.
Qed.

(** X3. A poll that fails (the request fails, or the dispatch raises)
    sends no acknowledgement and leaves the record of the last sync, the
    stored report and the identity as they were. *)
Theorem failed_poll_keeps_last_sync (env : Env) (w : World) (key : string) (e : error) :
  store w !! "activationKey" = Some key -> key <> "" ->
  (env_fetch env key = inl e \/
   exists st c, env_fetch env key = inr st /\ actionable st c /\
                dispatch_raises env c st e) ->
  pending_resets w = 0%nat ->
  exists w',
    run env TASK w = (w', inr Failed) /\
    count is_ack (trace w') = count is_ack (trace w) /\
    store w' !! "lastSyncTime" = store w !! "lastSyncTime" /\
    store w' !! "deviceStatus" = store w !! "deviceStatus" /\
    store w' !! "activationKey" = Some key.
Proof.
  intros Hkey Hne Hfail Hp.
  pose proof (count_requested_ack env key w) as Hra.
  pose proof (store_requested env key w Hp) as Hrs.
  destruct Hfail as [Hf|(st & c & Hf & Hact & Hd)].
  - rewrite (poll_outcome_unreachable _ _ env w key e) by done.
    revert Hra Hrs. generalize (requested env key w). intros wa Hra Hrs.
    eexists. split; [reflexivity|].
    cbn [recorded_failure cleared trace store log set_store set_timers].
    rewrite !count_app, Hra, Hrs.
    cbn [count is_ack]. rewrite !lookup_insert_ne by done. repeat split; try done; lia.
  - rewrite (poll_outcome_raised _ _ env w key st c e) by done.
    destruct (handleCommand_effect env c st (cleared (next_timer w) (requested env key w)))
      as (_ & _ & Hack & _ & _ & _ & _ & _ & Hst & _).
    revert Hack Hst.
    generalize (fst (run env (deviceService.handleCommand c st)
                       (cleared (next_timer w) (requested env key w)))).
    revert Hra Hrs. generalize (requested env key w). intros wa Hra Hrs w1 Hack Hst.
    eexists. split; [reflexivity|].
    cbn [recorded_failure cleared trace store log set_store set_timers] in *.
    rewrite !count_app, Hack, !count_app, Hra.
    cbn [count is_ack]. rewrite !lookup_insert_ne, !Hst, Hrs by done.
    repeat split; try done; lia.
Qed.

(** X4. A Lock takes effect even when the poll that brought it fails: if
    the alert of the Lock is rejected, the poll returns Failed and sends
    no acknowledgement, yet the lock flag and the lock message are stored
    and the lock query answers true. *)
Theorem lock_applied_though_poll_fails (env : Env) (w : World) (key : string)
    (st : StatusReport) (e : error) :
  store w !! "activationKey" = Some key -> key <> "" ->
  env_fetch env key = inr st -> rep_command st = Some "lock" ->
  env_notify env "Device Locked"
    (js_or (rep_lockMessage st) "Your device has been locked") = inl e ->
  exists w',
    run env TASK w = (w', inr Failed) /\
    count is_ack (trace w') = count is_ack (trace w) /\
    store w' !! "isLocked" = Some "true" /\
    store w' !! "lockMessage" = Some (js_or (rep_lockMessage st) "") /\
    snd (run env deviceService.isDeviceLocked w') = inr true.
Proof.
  intros Hkey Hne Hf Hc Hn.
  rewrite (poll_outcome_raised _ _ env w key st "lock" e);
    [|done|done|done|by repeat split|by apply dispatch_lock_raises].
  eexists. split; [reflexivity|].
  destruct (handleCommand_effect env "lock" st (cleared (next_timer w) (requested env key w)))
    as (_ & _ & Hack & _).
  destruct (handleCommand_store env "lock" st (cleared (next_timer w) (requested env key w)))
    as (_ & Hst).
  rewrite decide_True in Hst by done.
  cbn [run run_with deviceService.isDeviceLocked bind call exec_op fst snd].
  cbn [recorded_failure cleared trace store log set_store set_timers] in *.
  rewrite !count_app, Hack, !count_app, count_requested_ack.
  cbn [count is_ack]. rewrite !(lookup_insert_ne _ "lastSyncError") by done. rewrite Hst.
  rewrite (lookup_insert_ne _ "lockMessage" "isLocked") by done.
  rewrite !lookup_insert_eq. repeat split; try done; lia.
Qed.

(** X5. A command the dispatcher has no case for is ignored and
    acknowledged all the same: the poll returns NewData and sends one
    acknowledgement naming the command, raises no alert, and changes no
    key of the store besides the stored report and the time of the sync. *)
Theorem unknown_command_acknowledged (env : Env) (w : World) (key : string)
    (st : StatusReport) (c : string) :
  store w !! "activationKey" = Some key -> key <> "" ->
  env_fetch env key = inr st -> actionable st c -> c ∉ known_commands ->
  pending_resets w = 0%nat ->
  exists w',
    run env TASK w = (w', inr NewData) /\
    AcknowledgeCommand key c ∈ trace w' /\
    count is_ack (trace w') = (count is_ack (trace w) + 1)%nat /\
    count is_alert (trace w') = count is_alert (trace w) /\
    (forall k, k <> "deviceStatus" -> k <> "lastSyncTime" -> store w' !! k = store w !! k).
Proof.
  intros Hkey Hne Hf Hact Hc Hp.
  rewrite (poll_outcome_applied _ _ env w key st c); [|done..|].
  2: { intros w0. by rewrite handleCommand_unknown. }
  rewrite handleCommand_unknown by done.
  eexists. split; [reflexivity|].
  cbn [recorded_sync cleared trace store now log set_store set_timers fst].
  split.
  { rewrite !elem_of_app, !list_elem_of_singleton. tauto. }
  rewrite !count_app, !count_requested_quiet by (done || by repeat split).
  rewrite store_requested by done.
  cbn [count is_ack is_alert].
  split; [lia|]. split; [lia|].
  intros k H1 H2. by rewrite !lookup_insert_ne.
Qed.

(** X6. An answer that comes within the budget of 25 s disarms the
    timeout: whatever the answer and whatever the poll then does, the
    controller of the request has not been aborted when the poll ends, no
    pending timeout aborts it, and it is not aborted however long one
    waits afterwards. *)
Theorem answer_in_time_disarms_timeout (env : Env) (w : World) (key : string) :
  store w !! "activationKey" = Some key -> key <> "" ->
  env_fetch_ms env < 25000 ->
  unabortable (next_controller w) w ->
  unabortable (next_controller w) (fst (run env TASK w)) /\
  forall env' d, next_controller w ∉ aborted (advance env' d (fst (run env TASK w))).
Proof.
  intros Hkey Hne Hms Hu. destruct (truthy_key w key Hkey Hne) as [Ht Hk].
  assert (unabortable (next_controller w) (fst (run env TASK w))) as H.
  { rewrite poll_closed_form. unfold poll_outcome. rewrite Ht, Hk.
    pose proof (unabortable_requested env key w Hms Hu) as Hc.
    revert Hc. generalize (cleared (next_timer w) (requested env key w)). intros wc Hc.
    destruct (env_fetch env key) as [e|st]; [exact Hc|].
    destruct (acts_on st); [|exact Hc].
    pose proof (unabortable_dispatch _ env (default "" (rep_command st)) st _ Hc) as Hd.
    revert Hd. generalize (run env (deviceService.handleCommand
                                      (default "" (rep_command st)) st) wc).
    intros [w1 [e|[]]] Hd; cbn [fst snd] in *.
    - by apply (unabortable_cleared _ (next_timer w)) in Hd.
    - exact Hd. }
  split; [exact H|]. intros env' d.
  by destruct (unabortable_advance _ env' d _ H) as [Ha _].
Qed.

End PollFurther.

(** *** Sequences of dispatches *)

Lemma isDeviceLocked_answer (env : Env) (w : World) :
  snd (run env deviceService.isDeviceLocked w) =
  inr (bool_decide (store w !! "isLocked" = Some "true")).
Proof. reflexivity. Qed.



(** X8. The dispatcher keeps to the lock flag and the lock message: a
    sequence of dispatches, whatever the commands, leaves every other key
    of the store (the identity among them), the clock and the screen
    state as they were, sends no request and no acknowledgement, wipes
    nothing and invokes no lockdown capability. *)
Theorem dispatches_keep_to_the_lock (l : list step) (w : World) :
  forallb is_dispatch_step l = true ->
  let w' := play l w in
  now w' = now w /\ ui_locked w' = ui_locked w /\
  (forall k, k <> "isLocked" -> k <> "lockMessage" -> store w' !! k = store w !! k) /\
  count is_dispatch (trace w') = (count is_dispatch (trace w) + length l)%nat /\
  count is_fetch (trace w') = count is_fetch (trace w) /\
  count is_ack (trace w') = count is_ack (trace w) /\
  count is_wipe (trace w') = count is_wipe (trace w) /\
  count is_capability (trace w') = count is_capability (trace w).
Proof.
  unfold play. revert w.
  induction l as [|[env' c st|env' d] l IH]; intros w Hl; [| |done].
  { cbn [foldl length]. repeat split; try done; lia. }
  cbn [foldl do_step length]. cbn [forallb is_dispatch_step andb] in Hl.
  destruct (IH (fst (run env' (deviceService.handleCommand c st) w)) Hl)
    as (H1 & H2 & H3 & H4 & H5 & H6 & H7 & H8).
  destruct (handleCommand_effect env' c st w)
    as (E1 & E2 & E3 & E4 & E5 & E6 & _ & _ & E9 & _).
  destruct (handleCommand_store env' c st w) as [S1 _].
  rewrite H1, H2, H4, H5, H6, H7, H8, E1, E2, E3, E4, E5, E6, S1.
  repeat split; try done; try lia.
  intros k Hk1 Hk2. rewrite H3, E9; done.
Qed.

(** X9. Find and Ring: the vibration is best effort.  Whether it starts
    or fails, the dispatch goes on to the alert and ends as the alert
    ends; the store is left alone.  When the vibration started, the
    timeout that stops it is pending for ten seconds later, and it fires
    when they have passed. *)
Theorem ring_is_best_effort (env : Env) (command : string) (status : StatusReport)
    (w : World) :
  command = "find" \/ command = "ring" ->
  let r := run env (deviceService.handleCommand command status) w in
  snd r = env_notify env "Find Device" "Your device is ringing. Tap to stop." /\
  store (fst r) = store w /\
  count is_alert (trace (fst r)) = (count is_alert (trace w) + 1)%nat /\
  (is_ok (env_vibrate env) = false -> timers (fst r) = timers w) /\
  (is_ok (env_vibrate env) = true ->
   ring_timeout w ∈ timers (fst r) /\
   forall env', VibrationCancel ∈ trace (advance env' 10000 (fst r))).
Proof.
  intros Hc.
  assert (run env (deviceService.handleCommand command status) w =
          run env (call (Enter (in_handleCommand command)) ;;
                   deviceService.ringDevice ;;
                   deviceService.sendLocalNotification "Find Device"
                     "Your device is ringing. Tap to stop.") w) as ->.
  { unfold deviceService.handleCommand.
    destruct Hc as [-> | ->]; repeat (rewrite decide_False by (intros [=]));
      rewrite decide_True by tauto; reflexivity. }
  unfold run, deviceService.ringDevice, deviceService.sendLocalNotification.
  cbn [bind try_catch call run_with exec_op fst snd].
  destruct (env_vibrate env) as [e|[]]; cbn [settle bind try_catch call run_with exec_op fst snd].
  - destruct (env_notify env _ _) as [e'|[]]; cbn [settle run_with fst snd is_ok];
      cbn [store timers trace log]; rewrite !count_app; cbn [count is_alert];
      repeat split; try done; lia.
  - assert (forall w0, ring_timeout w ∈ timers w0 ->
              forall env', VibrationCancel ∈ trace (advance env' 10000 w0) \/ now w0 <> now w)
      as Hfire.
    { intros w0 Hin env'. destruct (decide (now w0 = now w)) as [Hn|]; [left|by right].
      rewrite advance_eq. cbn [trace fired set_timers set_now]. apply elem_of_app. right.
      assert (ring_timeout w ∈ filter (fun t => is_due (now w0 + 10000) t = true) (timers w0))
        as Hd.
      { apply list_elem_of_filter. split; [|done]. unfold is_due, ring_timeout.
        cbn. apply N.leb_le. lia. }
      revert Hd. generalize (filter (fun t => is_due (now w0 + 10000) t = true) (timers w0)).
      intros q Hq. induction q as [|t q IHq]; [by apply elem_of_nil in Hq|].
      rewrite fmap_cons. cbn [concat]. apply elem_of_app.
      apply elem_of_cons in Hq as [<-|Hq]; [left; by left | right; by apply IHq]. }
    destruct (env_notify env _ _) as [e'|[]]; cbn [settle run_with fst snd is_ok];
      cbn [store timers trace log set_timers set_next_timer now]; rewrite !count_app;
      cbn [count is_alert];
      (split; [done|]); (split; [done|]); (split; [lia|]); (split; [done|]); intros _;
      (assert (ring_timeout w ∈ enqueue (ring_timeout w) (timers w)) as Hin
         by (apply elem_of_enqueue; by left));
      (split; [exact Hin|]); intros env';
      match goal with |- _ ∈ trace (advance _ _ ?w0) =>
        destruct (Hfire w0 Hin env') as [H|H]; [exact H|by destruct H]
      end.
Qed.

(** *** The listeners *)

Lemma run_acknowledge_push (env : Env) (command : string) (w : World) :
  run env (acknowledge_push command) w = (acknowledged_push command w, inr tt).
Proof.
  unfold run, acknowledge_push, acknowledged_push.
  cbn [bind try_catch call run_with exec_op fst snd store log].
  destruct (truthy (store w !! "keyId")) eqn:E1;
    cbn [bind try_catch call run_with exec_op fst snd store log]; rewrite ?E1;
    [|destruct (truthy (store w !! "activationKey")) eqn:E2];
    cbn [bind try_catch call run_with exec_op fst snd store log];
    try (destruct (env_ack env _ command) as [e|[]];
         cbn [settle bind try_catch call run_with exec_op fst snd]);
    reflexivity.
Qed.

Lemma acks_as_refl (key command : string) :
  acks_as key command (AcknowledgeCommand key command) = true.
Proof. cbn. by rewrite !String.eqb_refl. Qed.

Lemma acknowledged_push_facts (command : string) (w : World) :
  store (acknowledged_push command w) = store w /\
  ui_locked (acknowledged_push command w) = ui_locked w /\
  count is_ack (trace (acknowledged_push command w)) =
    (count is_ack (trace w) + match push_ack_key (store w) with Some _ => 1 | None => 0 end)%nat /\
  (forall k, push_ack_key (store w) = Some k -> k <> "" /\
     count (acks_as k command) (trace (acknowledged_push command w)) =
       (count (acks_as k command) (trace w) + 1)%nat).
Proof.
  unfold acknowledged_push, push_ack_key.
  destruct (truthy (store w !! "keyId")) eqn:E1;
    [|destruct (truthy (store w !! "activationKey")) eqn:E2];
    cbn [store ui_locked trace log]; rewrite !count_app; cbn [count is_ack].
  - destruct (store w !! "keyId") as [k|] eqn:Ek; [|done].
    split; [done|]. split; [done|]. split; [lia|]. intros k0 [= <-]. split.
    + intros ->. done.
    + cbn [default from_option id]. rewrite !count_app. cbn [count].
      rewrite acks_as_refl. cbn. lia.
  - destruct (store w !! "activationKey") as [k|] eqn:Ek; [|done].
    split; [done|]. split; [done|]. split; [lia|]. intros k0 [= <-]. split.
    + intros ->. done.
    + cbn [default from_option id]. rewrite !count_app. cbn [count].
      rewrite acks_as_refl. cbn. lia.
  - repeat split; try done; lia.
Qed.

(** The dispatcher sends nothing to the server. *)
Lemma handleCommand_sends_nothing (f : op -> bool) (env : Env) (command : string)
    (status : StatusReport) (w : World) :
  (forall o, f o = true -> is_ack o = true) ->
  count f (trace (fst (run env (deviceService.handleCommand command status) w))) =
  count f (trace w).
Proof.
  intros Hf.
  assert (forall o, is_ack o = false -> f o = false) as Hn.
  { intros o Ho. destruct (f o) eqn:E; [|done]. apply Hf in E. congruence. }
  unfold run, deviceService.handleCommand, deviceService.ringDevice,
    deviceService.sendLocalNotification.
  repeat case_decide; simpl;
    repeat match goal with
    | |- context [env_notify env ?t ?b] => destruct (env_notify env t b); simpl
    | |- context [env_vibrate env] => destruct (env_vibrate env); simpl
    end;
    rewrite ?count_app; simpl; rewrite ?Hn by done; lia.
Qed.

Lemma acks_as_is_ack (key command : string) (o : op) :
  acks_as key command o = true -> is_ack o = true.
Proof. by destruct o. Qed.

Lemma acks_as_ignores_callback (key command : string) :
  ignores_callback (acks_as key command).
Proof. by repeat split. Qed.

Lemma count_lockdown_world (f : op -> bool) env w :
  ignores_callback f -> count f (trace (lockdown_world env w)) = count f (trace w).
Proof.
  intros (H1 & H2 & H3 & H4 & H5 & H6 & H7). unfold lockdown_world.
  destruct (admin_granted env);
    rewrite !count_after_step by (try done; intros; apply H4);
    cbn [trace log]; rewrite count_app; cbn [count]; rewrite H6; lia.
Qed.

Lemma count_released_world (f : op -> bool) env w :
  ignores_callback f -> count f (trace (released_world env w)) = count f (trace w).
Proof.
  intros (H1 & H2 & H3 & H4 & H5 & H6 & H7). unfold released_world.
  rewrite !count_after_step by (try done; intros; apply H4);
    cbn [trace log]; rewrite count_app; cbn [count]; rewrite H7; lia.
Qed.

(** The callback of [App] writes only the two flags of the lockdown. *)
Lemma onCommandReceived_frame (f : op -> bool) env command data w :
  let w' := fst (run env (App.onCommandReceived command data) w) in
  (ignores_callback f -> count f (trace w') = count f (trace w)) /\
  (forall k, k <> "kioskModeActive" -> k <> "appHidden" -> store w' !! k = store w !! k).
Proof.
  cbn zeta. rewrite run_onCommandReceived.
  destruct (decide (command = "lock")); [|destruct (decide (command = "unlock"))].
  - split.
    + intros Hf. rewrite count_lockdown_world by done. destruct Hf as (_ & _ & _ & _ & H5 & _).
      cbn [trace set_ui_locked log]. rewrite count_app. cbn [count]. rewrite H5. lia.
    + intros k Hk1 Hk2. by destruct (lockdown_world_facts env
        (set_ui_locked true (log (SetIsLocked true) w))) as (_ & _ & _ & ->).
  - split.
    + intros Hf. rewrite count_released_world by done. destruct Hf as (_ & _ & _ & _ & H5 & _).
      cbn [trace set_ui_locked log]. rewrite count_app. cbn [count]. rewrite H5. lia.
    + intros k Hk1 Hk2. by destruct (released_world_facts env
        (set_ui_locked false (log (SetIsLocked false) w))) as (_ & _ & _ & ->).
  - done.
Qed.

Lemma is_ack_ignores_callback : ignores_callback is_ack.
Proof. by repeat split. Qed.

Lemma is_fetch_ignores_callback : ignores_callback is_fetch.
Proof. by repeat split. Qed.

Lemma is_dispatch_ignores_callback : ignores_callback is_dispatch.
Proof. by repeat split. Qed.

(** The foreground listener of [App] on a notification with a command:
    the dispatch; if it returns, the callback and the acknowledgement. *)
Lemma run_foreground (env : Env) (d : PushData) (c : string) (w : World) :
  push_command d = Some c -> c <> "" ->
  run env (App.foregroundListener d) w =
  match run env (deviceService.handleCommand c (deviceService.payload d)) w with
  | (w1, inl e) => (w1, inl e)
  | (w1, inr _) =>
      (acknowledged_push c
         (fst (run env (App.onCommandReceived c (deviceService.payload d)) w1)), inr tt)
  end.
Proof.
  intros Hc Hne.
  unfold App.foregroundListener, deviceService.foregroundListener,
    deviceService.notify_callback.
  rewrite Hc. cbn [truthy default from_option id].
  assert (String.eqb c "" = false) as -> by (by apply String.eqb_neq).
  cbn [negb]. unfold run at 1.
  rewrite (run_with_bind (advance env) env
             (deviceService.handleCommand c (deviceService.payload d)) _ w).
  fold (run env (deviceService.handleCommand c (deviceService.payload d)) w).
  destruct (run env (deviceService.handleCommand c (deviceService.payload d)) w)
    as [w1 [e|[]]]; [reflexivity|].
  rewrite run_with_bind.
  fold (run env (detach (App.onCommandReceived c (deviceService.payload d))) w1).
  rewrite run_detach.
  fold (acknowledge_push c).
  fold (run env (acknowledge_push c)
          (fst (run env (App.onCommandReceived c (deviceService.payload d)) w1))).
  by rewrite run_acknowledge_push.
Qed.

Lemma run_response (env : Env) (d : PushData) (c : string) (w : World) :
  push_command d = Some c -> c <> "" ->
  run env (App.responseListener d) w =
  match run env (deviceService.handleCommand c (deviceService.payload d)) w with
  | (w1, inl e) => (w1, inl e)
  | (w1, inr _) =>
      (fst (run env (App.onCommandReceived c (deviceService.payload d)) w1), inr tt)
  end.
Proof.
  intros Hc Hne.
  unfold App.responseListener, deviceService.responseListener,
    deviceService.notify_callback.
  rewrite Hc. cbn [truthy default from_option id].
  assert (String.eqb c "" = false) as -> by (by apply String.eqb_neq).
  cbn [negb]. unfold run at 1.
  rewrite (run_with_bind (advance env) env
             (deviceService.handleCommand c (deviceService.payload d)) _ w).
  fold (run env (deviceService.handleCommand c (deviceService.payload d)) w).
  destruct (run env (deviceService.handleCommand c (deviceService.payload d)) w)
    as [w1 [e|[]]]; [reflexivity|].
  fold (run env (detach (App.onCommandReceived c (deviceService.payload d))) w1).
  by rewrite run_detach.
Qed.

Lemma truthy_command (d : PushData) :
  truthy (push_command d) = true ->
  exists c, push_command d = Some c /\ c <> "".
Proof.
  destruct (push_command d) as [c|]; [|done]. cbn. intros H. exists c. split; [done|].
  intros ->. done.
Qed.

(** A delivery to the foreground listener whose dispatch returns. *)
Lemma foreground_acknowledges (env : Env) (d : PushData) (c : string) (w : World) :
  push_command d = Some c -> c <> "" ->
  dispatch_returns env c (deviceService.payload d) ->
  exists w',
    run env (App.foregroundListener d) w = (w', inr tt) /\
    count is_dispatch (trace w') = (count is_dispatch (trace w) + 1)%nat /\
    count is_ack (trace w') =
      (count is_ack (trace w) +
       match push_ack_key (store w) with Some _ => 1 | None => 0 end)%nat /\
    (forall k, push_ack_key (store w) = Some k ->
       k <> "" /\
       count (acks_as k c) (trace w') = (count (acks_as k c) (trace w) + 1)%nat).
Proof.
  intros Hc Hne Hd. rewrite (run_foreground env d c w Hc Hne).
  specialize (Hd w).
  destruct (handleCommand_effect env c (deviceService.payload d) w)
    as (_ & Hdis & Hack & _ & _ & _ & _ & _ & Hst & _).
  assert (forall k, count (acks_as k c)
            (trace (fst (run env (deviceService.handleCommand c (deviceService.payload d)) w)))
          = count (acks_as k c) (trace w)) as Has.
  { intros k. apply handleCommand_sends_nothing, acks_as_is_ack. }
  destruct (run env (deviceService.handleCommand c (deviceService.payload d)) w)
    as [w1 r1]. cbn [fst snd] in *. subst r1.
  destruct (onCommandReceived_frame is_ack env c (deviceService.payload d) w1) as [Hca Hcs].
  destruct (onCommandReceived_frame is_dispatch env c (deviceService.payload d) w1)
    as [Hcd _].
  assert (forall k, count (acks_as k c)
            (trace (fst (run env (App.onCommandReceived c (deviceService.payload d)) w1)))
          = count (acks_as k c) (trace w1)) as Hcas.
  { intros k. apply (onCommandReceived_frame (acks_as k c)), acks_as_ignores_callback. }
  revert Hca Hcd Hcs Hcas.
  generalize (fst (run env (App.onCommandReceived c (deviceService.payload d)) w1)).
  intros w2 Hca Hcd Hcs Hcas. specialize (Hca is_ack_ignores_callback).
  specialize (Hcd is_dispatch_ignores_callback).
  eexists. split; [reflexivity|].
  destruct (acknowledged_push_facts c w2) as (_ & _ & Hn & Hl).
  assert (push_ack_key (store w2) = push_ack_key (store w)) as Hk.
  { unfold push_ack_key. by rewrite !Hcs, !Hst. }
  rewrite Hk in Hn, Hl. split; [|split; [lia|]].
  - unfold acknowledged_push.
    destruct (truthy (store w2 !! "keyId")); [|destruct (truthy (store w2 !! "activationKey"))];
      cbn [trace log]; rewrite !count_app; cbn [count is_dispatch]; lia.
  - intros k Hkk. destruct (Hl k Hkk) as [Hne' Hcount]. split; [done|].
    rewrite Hcount, Hcas, Has. done.
Qed.

(** X10. The foreground listener acknowledges under the identity found
    in the store, not the one the notification carries: the stored
    [keyId] if there is one, else the stored [activationKey]; with
    neither it sends no acknowledgement.  It sends that one
    acknowledgement and no other, and it returns whatever the
    acknowledgement answers.  (The callback is not awaited; nothing is
    said here of the order between its steps and the acknowledgement.) *)
Theorem push_acknowledged_under_stored_identity (env : Env) (d : PushData) (c : string)
    (w : World) :
  push_command d = Some c -> c <> "" ->
  dispatch_returns env c (deviceService.payload d) ->
  exists w',
    run env (App.foregroundListener d) w = (w', inr tt) /\
    count is_ack (trace w') =
      (count is_ack (trace w) +
       match push_ack_key (store w) with Some _ => 1 | None => 0 end)%nat /\
    (forall k, push_ack_key (store w) = Some k ->
       k <> "" /\
       count (acks_as k c) (trace w') = (count (acks_as k c) (trace w) + 1)%nat).
Proof.
  intros Hc Hne Hd.
  destruct (foreground_acknowledges env d c w Hc Hne Hd) as (w' & H1 & _ & H2 & H3).
  by exists w'.
Qed.

(** X11. The listener for a notification that opened the app never
    acknowledges: whatever the notification carries and whatever the
    outside answers, it sends no acknowledgement and no status request. *)
Theorem response_listener_never_acknowledges (env : Env) (d : PushData) (w : World) :
  let w' := fst (run env (App.responseListener d) w) in
  count is_ack (trace w') = count is_ack (trace w) /\
  count is_fetch (trace w') = count is_fetch (trace w).
Proof.
  cbn zeta. destruct (truthy (push_command d)) eqn:Ht.
  - destruct (truthy_command d Ht) as (c & Hc & Hne).
    rewrite (run_response env d c w Hc Hne).
    destruct (handleCommand_effect env c (deviceService.payload d) w)
      as (_ & _ & Hack & Hfetch & _).
    destruct (run env (deviceService.handleCommand c (deviceService.payload d)) w)
      as [w1 [e|[]]]; cbn [fst] in *; [done|].
    pose proof (proj1 (onCommandReceived_frame is_ack env c (deviceService.payload d) w1)
                  is_ack_ignores_callback) as Ha.
    pose proof (proj1 (onCommandReceived_frame is_fetch env c (deviceService.payload d) w1)
                  is_fetch_ignores_callback) as Hf.
    cbn zeta in Ha, Hf. rewrite Ha, Hf. done.
  - unfold App.responseListener, deviceService.responseListener. by rewrite Ht.
Qed.

(** X12. A dispatch that raises ends the foreground listener at once:
    the listener rejects with the same error, the callback is not
    called (the screen state stays, no lockdown capability is invoked)
    and no acknowledgement is sent; what the dispatch had written stays
    written, so a Lock is stored though the screen was not told. *)
Theorem push_dispatch_failure_ends_listener (env : Env) (d : PushData) (c : string)
    (e : error) (w : World) :
  push_command d = Some c -> c <> "" ->
  dispatch_raises env c (deviceService.payload d) e ->
  exists w',
    run env (App.foregroundListener d) w = (w', inl e) /\
    ui_locked w' = ui_locked w /\
    count is_capability (trace w') = count is_capability (trace w) /\
    count is_ack (trace w') = count is_ack (trace w) /\
    (c = "lock" -> store w' !! "isLocked" = Some "true").
Proof.
  intros Hc Hne Hd. rewrite (run_foreground env d c w Hc Hne).
  specialize (Hd w).
  destruct (handleCommand_effect env c (deviceService.payload d) w)
    as (_ & _ & Hack & _ & Hcap & _).
  destruct (handleCommand_store env c (deviceService.payload d) w) as [Hui Hst].
  destruct (run env (deviceService.handleCommand c (deviceService.payload d)) w)
    as [w1 r1]. cbn [fst snd] in *. subst r1.
  eexists. split; [reflexivity|]. repeat split; try done.
  intros ->. rewrite Hst, decide_True by done.
  by rewrite lookup_insert_ne, lookup_insert_eq.
Qed.

(** *** The steps of the lockdown *)

Lemma count_after_step_calls (env : Env) (n m : native_op) flag w :
  count (calls n) (trace (after_step env m flag w)) =
  (count (calls n) (trace w) +
   if available env && bool_decide (m = n) then 1 else 0)%nat.
Proof.
  unfold after_step, probed, write_flag.
  destruct (available env), (is_ok (env_native env m)), (env_platform env),
    flag as [[k v]|]; cbn [trace log set_store andb];
    rewrite ?count_app; cbn [count calls]; destruct (bool_decide (m = n)); lia.
Qed.

Lemma admin_granted_available env : admin_granted env = true -> available env = true.
Proof. unfold admin_granted. by intros [? _]%andb_true_iff. Qed.

(** X13. Each step of the full lockdown is attempted exactly once when
    device admin is granted and not at all otherwise; each step of the
    release is attempted exactly once whenever the native module can be
    used, device admin or not.  In both, a step that fails does not stop
    the steps after it. *)
Theorem lockdown_steps_attempted (env : Env) (w : World) (n : native_op) :
  (n ∈ lockdown_steps ->
   count (calls n) (trace (fst (run env kioskService.enableFullLockdown w))) =
   (count (calls n) (trace w) + if admin_granted env then 1 else 0)%nat) /\
  (n ∈ release_steps ->
   count (calls n) (trace (fst (run env kioskService.disableFullLockdown w))) =
   (count (calls n) (trace w) + if available env then 1 else 0)%nat).
Proof.
  unfold run. rewrite run_enableFullLockdown, run_disableFullLockdown. cbn [fst].
  unfold lockdown_world, released_world, lockdown_steps, release_steps. split; intros Hn.
  - destruct (admin_granted env) eqn:Ha.
    + apply admin_granted_available in Ha. rewrite !count_after_step_calls, Ha.
      cbn [trace log andb]. rewrite count_app. cbn [count calls].
      repeat (apply elem_of_cons in Hn as [->|Hn]); [..|by apply elem_of_nil in Hn];
        repeat (first [rewrite bool_decide_eq_true_2 by done
                      |rewrite bool_decide_eq_false_2 by done]); lia.
    + rewrite count_after_step_calls. cbn [trace log]. rewrite count_app. cbn [count calls].
      repeat (apply elem_of_cons in Hn as [->|Hn]); [..|by apply elem_of_nil in Hn];
        rewrite bool_decide_eq_false_2 by done; rewrite andb_false_r; lia.
  - rewrite !count_after_step_calls. cbn [trace log]. rewrite count_app. cbn [count calls].
    destruct (available env); cbn [andb];
      repeat (apply elem_of_cons in Hn as [->|Hn]); [..|by apply elem_of_nil in Hn| | | | |
                                                     by apply elem_of_nil in Hn];
      repeat (first [rewrite bool_decide_eq_true_2 by done
                    |rewrite bool_decide_eq_false_2 by done]); lia.
Qed.

(** X14. Without device admin (the native module cannot be used, its
    query fails, or it answers no) the full lockdown does nothing: it
    returns a results record that is false throughout and leaves the
    store as it was. *)
Theorem lockdown_needs_admin (env : Env) (w : World) :
  admin_granted env = false ->
  exists w',
    run env kioskService.enableFullLockdown w = (w', inr nothing_locked_down) /\
    store w' = store w /\ ui_locked w' = ui_locked w.
Proof.
  intros Ha. unfold run. rewrite run_enableFullLockdown.
  unfold lockdown_world, lockdown_results. rewrite Ha.
  eexists. split; [reflexivity|]. by rewrite store_after_step, ui_after_step.
Qed.

(** X15. The release records what it undid: after it, the kiosk flag
    and the hidden-app flag each hold [false] if the step that undoes it
    succeeded, and are left as they were (so possibly still [true]) if it
    failed or could not be taken; no other key changes. *)
Theorem release_records_what_it_undid (env : Env) (w : World) :
  let w' := fst (run env kioskService.disableFullLockdown w) in
  store w' !! "kioskModeActive" =
    (if step_ok env DA_stopLockTaskMode then Some "false"
     else store w !! "kioskModeActive") /\
  store w' !! "appHidden" =
    (if step_ok env DA_showAppInLauncher then Some "false" else store w !! "appHidden") /\
  (forall k, k <> "kioskModeActive" -> k <> "appHidden" -> store w' !! k = store w !! k).
Proof.
  cbn zeta. unfold run. rewrite run_disableFullLockdown. cbn [fst].
  split; [|split].
  - unfold released_world. rewrite !store_after_step.
    destruct (step_ok env DA_showAppInLauncher), (step_ok env DA_stopLockTaskMode);
      rewrite ?lookup_insert_ne by done; rewrite ?lookup_insert_eq; done.
  - unfold released_world. rewrite !store_after_step.
    destruct (step_ok env DA_showAppInLauncher), (step_ok env DA_stopLockTaskMode);
      rewrite ?lookup_insert_eq; rewrite ?lookup_insert_ne by done; done.
  - by destruct (released_world_facts env w) as (_ & _ & _ & ?).
Qed.

Lemma run_requestDeviceAdmin (env : Env) (w : World) :
  run env kioskService.requestDeviceAdmin w =
  (after_step env DA_requestDeviceAdmin None w,
   inr (available env &&
        match env_native env DA_requestDeviceAdmin with inr b => b | inl _ => false end)).
Proof.
  unfold run, kioskService.requestDeviceAdmin, after_step.
  rewrite run_with_bind, run_unavailable.
  destruct (available env); cbn [negb andb]; [|reflexivity].
  rewrite run_with_try_catch. cbn [bind run_with exec_op fst snd].
  destruct (env_native env DA_requestDeviceAdmin) as [e|b]; reflexivity.
Qed.

(** X16. The query and the request for device admin always return a
    boolean and never throw; the answer is true only when the native
    module can be used and itself answers true; they write nothing to
    the store, and make their one native call only when the module can
    be used. *)
Theorem admin_queries_total (env : Env) (w : World) :
  (exists w' b,
     run env kioskService.isDeviceAdmin w = (w', inr b) /\
     (b = true <-> available env = true /\ env_native env DA_isDeviceAdmin = inr true) /\
     store w' = store w /\
     count (calls DA_isDeviceAdmin) (trace w') =
       (count (calls DA_isDeviceAdmin) (trace w) + if available env then 1 else 0)%nat) /\
  (exists w' b,
     run env kioskService.requestDeviceAdmin w = (w', inr b) /\
     (b = true <->
      available env = true /\ env_native env DA_requestDeviceAdmin = inr true) /\
     store w' = store w /\
     count (calls DA_requestDeviceAdmin) (trace w') =
       (count (calls DA_requestDeviceAdmin) (trace w) + if available env then 1 else 0)%nat).
Proof.
  split.
  - unfold run. rewrite run_isDeviceAdmin. eexists _, _. split; [reflexivity|].
    rewrite store_after_step, count_after_step_calls, bool_decide_eq_true_2, andb_true_r
      by done.
    split; [|done]. unfold admin_granted.
    destruct (available env), (env_native env DA_isDeviceAdmin) as [e|[]]; cbn;
      split; try done; intros [? ?]; done.
  - rewrite run_requestDeviceAdmin. eexists _, _. split; [reflexivity|].
    rewrite store_after_step, count_after_step_calls, bool_decide_eq_true_2, andb_true_r
      by done.
    split; [|done].
    destruct (available env), (env_native env DA_requestDeviceAdmin) as [e|[]]; cbn;
      split; try done; intros [? ?]; done.
Qed.

(** *** The interval of [App] that monitors the lock *)

Lemma run_lockCheckInterval (env : Env) (isLocked : bool) (w : World) :
  run env (AppEffect.lockCheckInterval isLocked) w =
  let locked := bool_decide (store w !! "isLocked" = Some "true") in
  (if Bool.eqb locked isLocked then log (GetItem "isLocked") w
   else set_ui_locked locked (log (SetIsLocked locked) (log (GetItem "isLocked") w)),
   inr tt).
Proof.
  unfold run, AppEffect.lockCheckInterval, deviceService.isDeviceLocked.
  cbn [bind call run_with exec_op fst snd].
  by destruct (Bool.eqb _ isLocked).
Qed.

Lemma ui_requested env key w : ui_locked (requested env key w) = ui_locked w.
Proof. unfold requested. by rewrite advance_eq. Qed.

Lemma count_requested_capability env key w :
  count is_capability (trace (requested env key w)) = count is_capability (trace w).
Proof. rewrite count_requested, count_timer_events_capability. cbn. lia. Qed.

(** X17. The interval that monitors the lock brings the screen state of
    [App] to what the store says and does nothing else: it returns, the
    screen state is set only when it differs from the stored flag, the
    store is left alone and no lockdown capability is invoked.  Run in
    the render that matches the screen state, it leaves the screen state
    equal to the answer of the lock query. *)
Theorem lock_check_follows_the_store (env : Env) (isLocked : bool) (w : World) :
  let locked := bool_decide (store w !! "isLocked" = Some "true") in
  exists w',
    run env (AppEffect.lockCheckInterval isLocked) w = (w', inr tt) /\
    ui_locked w' = (if Bool.eqb locked isLocked then ui_locked w else locked) /\
    (isLocked = ui_locked w -> ui_locked w' = locked) /\
    store w' = store w /\
    count is_capability (trace w') = count is_capability (trace w) /\
    count is_write (trace w') = count is_write (trace w).
Proof.
  cbn zeta. rewrite run_lockCheckInterval. cbn zeta. eexists. split; [reflexivity|].
  destruct (Bool.eqb _ isLocked) eqn:E;
    cbn [ui_locked store trace set_ui_locked log]; rewrite !count_app;
    cbn [count is_capability is_apply is_release is_write orb].
  - apply Bool.eqb_prop in E. repeat split; try done; try lia. by intros <-.
  - repeat split; try done; lia.
Qed.

Section PollScreen.
Variable JSON_status : StatusReport -> string.
Variable JSON_error : string -> N -> string.

Local Abbreviation TASK := (deviceService.BACKGROUND_FETCH_TASK JSON_status JSON_error).

Lemma poll_outcome_no_identity (env : Env) (w : World) :
  truthy (store w !! "activationKey") = false ->
  run env TASK w = (log (GetItem "activationKey") (log DateNow w), inr NoData).
Proof. intros H. rewrite poll_closed_form. unfold poll_outcome. by rewrite H. Qed.

(** X18. A Lock that comes by the poll reaches the screen without the
    lockdown: the poll stores the flag and leaves the screen state alone;
    the next run of the interval that monitors the lock sets the screen
    state to locked; from the poll to the lock screen no lockdown
    capability is invoked. *)
Theorem polled_lock_reaches_screen_without_lockdown (env env' : Env) (w : World)
    (key : string) (st : StatusReport) :
  store w !! "activationKey" = Some key -> key <> "" ->
  env_fetch env key = inr st -> rep_command st = Some "lock" ->
  dispatch_returns env "lock" st ->
  exists w1 w2,
    run env TASK w = (w1, inr NewData) /\
    ui_locked w1 = ui_locked w /\
    store w1 !! "isLocked" = Some "true" /\
    run env' (AppEffect.lockCheckInterval (ui_locked w1)) w1 = (w2, inr tt) /\
    ui_locked w2 = true /\
    count is_capability (trace w2) = count is_capability (trace w).
Proof.
  intros Hkey Hne Hf Hc Hd.
  rewrite (poll_outcome_applied _ _ env w key st "lock"); [|done..|by repeat split|done].
  destruct (handleCommand_effect env "lock" st (cleared (next_timer w) (requested env key w)))
    as (_ & _ & _ & _ & Hcap & _).
  destruct (handleCommand_store env "lock" st (cleared (next_timer w) (requested env key w)))
    as (Hui & Hst).
  rewrite decide_True in Hst by done.
  pose proof (ui_requested env key w) as Hur.
  pose proof (count_requested_capability env key w) as Hcr.
  revert Hcap Hui Hst.
  generalize (fst (run env (deviceService.handleCommand "lock" st)
                     (cleared (next_timer w) (requested env key w)))).
  revert Hur Hcr. generalize (requested env key w). intros wa Hur Hcr w1 Hcap Hui Hst.
  cbn [cleared ui_locked store trace set_timers log] in *.
  eexists _, _. split; [reflexivity|].
  rewrite run_lockCheckInterval. cbn zeta.
  assert (store (recorded_sync JSON_status st (log (AcknowledgeCommand key "lock") w1))
            !! "isLocked" = Some "true") as Hl.
  { cbn [recorded_sync store set_store log]. rewrite !lookup_insert_ne, Hst by done.
    by rewrite lookup_insert_ne, lookup_insert_eq. }
  rewrite Hl, bool_decide_eq_true_2 by done.
  split; [cbn [recorded_sync ui_locked set_store log]; congruence|].
  split; [done|]. split; [reflexivity|].
  destruct (Bool.eqb true _) eqn:E.
  - apply Bool.eqb_prop in E. cbn [ui_locked trace log]. split; [done|].
    cbn [recorded_sync trace set_store log]. rewrite !count_app, Hcap, !count_app, Hcr.
    cbn [count is_capability is_apply is_release orb]. lia.
  - cbn [ui_locked trace set_ui_locked log]. split; [done|].
    cbn [recorded_sync trace set_store log]. rewrite !count_app, Hcap, !count_app, Hcr.
    cbn [count is_capability is_apply is_release orb]. lia.
Qed.

End PollScreen.

(** *** After the wipe, and after deactivation *)

Lemma store_after_reset (env env' : Env) (status : StatusReport) (w : World) :
  dispatch_returns env "reset" status ->
  store (advance env' 10000
           (fst (run env (deviceService.handleCommand "reset" status) w))) = ∅.
Proof.
  intros Hd. rewrite run_reset by done. cbn [fst].
  set (t := {| timer_id := next_timer w; timer_due := now w + 10000;
               timer_action_of := TFactoryReset |}).
  destruct (advance_effect env' 10000 (reset_scheduled w) t eq_refl) as (_ & _ & _ & H).
  { unfold reset_scheduled. cbn [timers set_next_timer set_timers].
    apply elem_of_enqueue. by left. }
  destruct H as [_ H]; [|exact H]. unfold reset_scheduled, t. cbn. lia.
Qed.

Section Silent.
Variable JSON_status : StatusReport -> string.
Variable JSON_error : string -> N -> string.

Local Abbreviation TASK := (deviceService.BACKGROUND_FETCH_TASK JSON_status JSON_error).

(** X19. After the wipe the device falls silent: once a Reset has been
    dispatched and its ten seconds have passed, every poll returns NoData
    without asking the server, and a command that comes by push is still
    dispatched but no longer acknowledged. *)
Theorem wiped_device_falls_silent (env env' : Env) (status : StatusReport) (w : World) :
  dispatch_returns env "reset" status ->
  let w2 := advance env' 10000
              (fst (run env (deviceService.handleCommand "reset" status) w)) in
  (forall env2, exists w3,
     run env2 TASK w2 = (w3, inr NoData) /\
     count is_fetch (trace w3) = count is_fetch (trace w2)) /\
  (forall env2 d c,
     push_command d = Some c -> c <> "" ->
     dispatch_returns env2 c (deviceService.payload d) ->
     exists w3,
       run env2 (App.foregroundListener d) w2 = (w3, inr tt) /\
       count is_dispatch (trace w3) = (count is_dispatch (trace w2) + 1)%nat /\
       count is_ack (trace w3) = count is_ack (trace w2)).
Proof.
  intros Hd. pose proof (store_after_reset env env' status w Hd) as Hs.
  cbn zeta. revert Hs.
  generalize (advance env' 10000
                (fst (run env (deviceService.handleCommand "reset" status) w))).
  intros w2 Hs. split.
  - intros env2. rewrite poll_outcome_no_identity by (by rewrite Hs, lookup_empty).
    eexists. split; [reflexivity|]. cbn [trace log]. rewrite !count_app. cbn. lia.
  - intros env2 d c Hc Hne Hd2.
    destruct (foreground_acknowledges env2 d c w2 Hc Hne Hd2) as (w3 & H1 & H2 & H3 & _).
    exists w3. split; [done|]. split; [done|]. rewrite H3.
    unfold push_ack_key. rewrite Hs, !lookup_empty. cbn. lia.
Qed.

(** X20. Deactivation stops the poll but not the push: after the
    Deactivate button has run, every poll returns NoData without asking
    the server, while the stored [keyId] is still there, so that a
    command that comes by push is still dispatched and acknowledged, once,
    under it; the lock flag is left as it was. *)
Theorem deactivation_stops_poll_not_push (env : Env) (w : World) (k : string) :
  store w !! "keyId" = Some k -> k <> "" ->
  let w1 := fst (run env HomeScreen.handleDeactivate w) in
  store w1 !! "activationKey" = None /\
  store w1 !! "keyId" = Some k /\
  store w1 !! "isLocked" = store w !! "isLocked" /\
  (forall env2, exists w2,
     run env2 TASK w1 = (w2, inr NoData) /\
     count is_fetch (trace w2) = count is_fetch (trace w1)) /\
  (forall env2 d c,
     push_command d = Some c -> c <> "" ->
     dispatch_returns env2 c (deviceService.payload d) ->
     exists w2,
       run env2 (App.foregroundListener d) w1 = (w2, inr tt) /\
       count is_dispatch (trace w2) = (count is_dispatch (trace w1) + 1)%nat /\
       count is_ack (trace w2) = (count is_ack (trace w1) + 1)%nat /\
       count (acks_as k c) (trace w2) = (count (acks_as k c) (trace w1) + 1)%nat).
Proof.
  intros Hk Hne. cbn zeta.
  assert (store (fst (run env HomeScreen.handleDeactivate w)) =
          delete "deviceInfo" (delete "activationKey" (store w))) as Hs by reflexivity.
  revert Hs. generalize (fst (run env HomeScreen.handleDeactivate w)). intros w1 Hs.
  assert (store w1 !! "activationKey" = None) as Ha.
  { by rewrite Hs, lookup_delete_ne, lookup_delete_eq. }
  assert (store w1 !! "keyId" = Some k) as Hk1.
  { by rewrite Hs, !lookup_delete_ne. }
  split; [done|]. split; [done|]. split; [by rewrite Hs, !lookup_delete_ne|]. split.
  - intros env2. rewrite poll_outcome_no_identity by (by rewrite Ha).
    eexists. split; [reflexivity|]. cbn [trace log]. rewrite !count_app. cbn. lia.
  - intros env2 d c Hc Hnc Hd.
    destruct (foreground_acknowledges env2 d c w1 Hc Hnc Hd) as (w2 & H1 & H2 & H3 & H4).
    assert (push_ack_key (store w1) = Some k) as Hpk.
    { unfold push_ack_key. rewrite Hk1. cbn. apply String.eqb_neq in Hne. by rewrite Hne. }
    rewrite Hpk in H3. destruct (H4 k Hpk) as [_ H5].
    exists w2. done.
Qed.

End Silent.

(** *** What never releases the lockdown *)

Lemma acknowledged_push_count (f : op -> bool) (command : string) (w : World) :
  (forall k, f (GetItem k) = false) -> (forall k c, f (AcknowledgeCommand k c) = false) ->
  count f (trace (acknowledged_push command w)) = count f (trace w).
Proof.
  intros H1 H2. unfold acknowledged_push.
  destruct (truthy (store w !! "keyId")); [|destruct (truthy (store w !! "activationKey"))];
    cbn [trace log]; rewrite !count_app; cbn [count]; rewrite ?H1, ?H2; lia.
Qed.

(** X27. Expired by push unlocks the store but releases nothing: the
    flag is set to [false] and the lock message removed, but the
    callback of [App] has no case for the command, so the screen state
    is left as it was, no lockdown capability is invoked and the flags
    of the lockdown stay as they were (a kiosk mode that was on stays
    on). *)
Theorem expired_push_releases_nothing (env : Env) (d : PushData) (w : World) :
  push_command d = Some "expired" ->
  dispatch_returns env "expired" (deviceService.payload d) ->
  exists w',
    run env (App.foregroundListener d) w = (w', inr tt) /\
    store w' !! "isLocked" = Some "false" /\
    store w' !! "lockMessage" = None /\
    ui_locked w' = ui_locked w /\
    count is_capability (trace w') = count is_capability (trace w) /\
    store w' !! "kioskModeActive" = store w !! "kioskModeActive" /\
    store w' !! "appHidden" = store w !! "appHidden".
Proof.
  intros Hc Hd. rewrite (run_foreground env d "expired" w Hc) by done.
  specialize (Hd w).
  destruct (handleCommand_effect env "expired" (deviceService.payload d) w)
    as (_ & _ & _ & _ & Hcap & _).
  destruct (handleCommand_store env "expired" (deviceService.payload d) w) as [Hui Hst].
  rewrite decide_False, decide_True in Hst by (done || by right).
  destruct (run env (deviceService.handleCommand "expired" (deviceService.payload d)) w)
    as [w1 r1]. cbn [fst snd] in *. subst r1.
  rewrite run_onCommandReceived, !decide_False by done.
  eexists. split; [reflexivity|].
  destruct (acknowledged_push_facts "expired" w1) as (-> & -> & _).
  rewrite acknowledged_push_count by done.
  rewrite Hst, Hui, Hcap, lookup_delete_eq. rewrite !lookup_delete_ne by done.
  rewrite lookup_insert_eq. rewrite !lookup_insert_ne by done. done.
Qed.

Section PollRelease.
Variable JSON_status : StatusReport -> string.
Variable JSON_error : string -> N -> string.

Local Abbreviation TASK := (deviceService.BACKGROUND_FETCH_TASK JSON_status JSON_error).

(** X28. Unlock by the poll releases nothing either: the poll stores the
    flag [false] and returns NewData, but it invokes no lockdown
    capability and leaves the screen state and the flags of the lockdown
    as they were, so that a device put in kiosk mode by a pushed Lock
    and unlocked by the poll stays in kiosk mode. *)
Theorem polled_unlock_releases_nothing (env : Env) (w : World) (key : string)
    (st : StatusReport) :
  store w !! "activationKey" = Some key -> key <> "" ->
  env_fetch env key = inr st -> rep_command st = Some "unlock" ->
  dispatch_returns env "unlock" st ->
  pending_resets w = 0%nat ->
  exists w',
    run env TASK w = (w', inr NewData) /\
    store w' !! "isLocked" = Some "false" /\
    ui_locked w' = ui_locked w /\
    count is_capability (trace w') = count is_capability (trace w) /\
    store w' !! "kioskModeActive" = store w !! "kioskModeActive" /\
    store w' !! "appHidden" = store w !! "appHidden".
Proof.
  intros Hkey Hne Hf Hc Hd Hp.
  rewrite (poll_outcome_applied _ _ env w key st "unlock"); [|done..|by repeat split|done].
  destruct (handleCommand_effect env "unlock" st (cleared (next_timer w) (requested env key w)))
    as (_ & _ & _ & _ & Hcap & _).
  destruct (handleCommand_store env "unlock" st (cleared (next_timer w) (requested env key w)))
    as (Hui & Hst).
  rewrite decide_False, decide_True in Hst by (done || by left).
  pose proof (ui_requested env key w) as Hur.
  pose proof (count_requested_capability env key w) as Hcr.
  pose proof (store_requested env key w Hp) as Hsr.
  revert Hcap Hui Hst.
  generalize (fst (run env (deviceService.handleCommand "unlock" st)
                     (cleared (next_timer w) (requested env key w)))).
  revert Hur Hcr Hsr. generalize (requested env key w). intros wa Hur Hcr Hsr w1 Hcap Hui Hst.
  cbn [cleared ui_locked store trace set_timers log] in *.
  eexists. split; [reflexivity|].
  cbn [recorded_sync store ui_locked trace set_store log].
  rewrite !count_app, Hcap, !count_app, Hcr, Hui, Hur.
  cbn [count is_capability is_apply is_release orb].
  rewrite !(lookup_insert_ne _ "lastSyncTime"), !(lookup_insert_ne _ "deviceStatus") by done.
  rewrite Hst. rewrite !lookup_delete_ne by done.
  rewrite lookup_insert_eq. rewrite !lookup_insert_ne by done. rewrite Hsr.
  repeat split; try done; lia.
Qed.

(** X29. A wipe that falls due while the poll waits for the server does
    not end the poll: the store is cleared during the request, and the
    poll goes on with the answer, so that after it the store holds the
    stored report and the time of the sync and nothing else; the
    identity is gone. *)
Theorem wipe_during_poll_leaves_sync_record (env : Env) (w : World) (key : string)
    (st : StatusReport) (t : timer) :
  store w !! "activationKey" = Some key -> key <> "" ->
  env_fetch env key = inr st ->
  (rep_command st = None \/ rep_command st = Some "" \/ rep_command st = Some "none") ->
  t ∈ timers w -> is_reset_timer t = true -> timer_due t <= now w + env_fetch_ms env ->
  exists w',
    run env TASK w = (w', inr NewData) /\
    (count is_wipe (trace w) < count is_wipe (trace w'))%nat /\
    store w' = <["lastSyncTime" := pretty (now w + env_fetch_ms env)]>
                 (<["deviceStatus" := JSON_status st]> ∅) /\
    store w' !! "activationKey" = None.
Proof.
  intros Hkey Hne Hf Hcmd Ht Hr Hdue. destruct (truthy_key w key Hkey Hne) as [Htr Hd].
  assert (acts_on st = false) as Hact.
  { unfold acts_on. by destruct Hcmd as [->|[->| ->]]. }
  rewrite poll_closed_form. unfold poll_outcome. rewrite Htr, Hd, Hf, Hact.
  pose proof (now_requested env key w) as Hn.
  assert (store (requested env key w) = ∅ /\
          (count is_wipe (trace w) < count is_wipe (trace (requested env key w)))%nat)
    as [Hs Hw].
  { unfold requested.
    match goal with |- context [advance env ?d ?w0] =>
      destruct (advance_effect env d w0 t Hr) as (_ & _ & _ & H)
    end.
    { cbn [timers log set_next_timer set_timers set_next_controller].
      apply elem_of_enqueue. by right. }
    destruct H as [Hlt Hst]; [cbn [now log set_next_timer set_timers set_next_controller];
                              exact Hdue|].
    split; [exact Hst|].
    eapply Nat.le_lt_trans; [|exact Hlt].
    cbn [trace log set_next_timer set_timers set_next_controller].
    rewrite !count_app. lia. }
  revert Hn Hs Hw. generalize (requested env key w). intros wa Hn Hs Hw.
  eexists. split; [reflexivity|].
  cbn [recorded_sync cleared trace store now log set_store set_timers].
  rewrite !count_app, Hn, Hs. cbn [count is_wipe].
  split; [lia|]. split; [done|].
  by rewrite !lookup_insert_ne, lookup_empty.
Qed.

End PollRelease.

(** *** Registration of the task, the push token *)

Lemma setup_run_bind env {A B} (p : setup A) (f : A -> setup B) w :
  setup_run env (sbind p f) w =
  match setup_run env p w with
  | (w', inr a) => setup_run env (f a) w'
  | (w', inl e) => (w', inl e)
  end.
Proof.
  revert w. induction p as [a|e|o k IH]; intros w; simpl; [done..|]. apply IH.
Qed.

Lemma setup_run_try env {A} (p : setup A) (h : error -> setup A) w :
  setup_run env (stry p h) w =
  match setup_run env p w with
  | (w', inr a) => (w', inr a)
  | (w', inl e) => setup_run env (h e) w'
  end.
Proof.
  revert w. induction p as [a|e|o k IH]; intros w; simpl; [done..|]. apply IH.
Qed.

(** X21. On Android, a build that is not a development build never
    registers the background task: [registerBackgroundFetch] takes it
    for Expo Go and returns at once, with no call of the task manager
    and no write to the store. *)
Theorem registration_skipped_on_android_release (env : SetupEnv) (w : SetupWorld) :
  env_platform (setup_env env) = android ->
  exists w',
    setup_run env (deviceSetup.registerBackgroundFetch false) w = (w', inr tt) /\
    setup_log w' = setup_log w /\
    store (base w') = store (base w) /\
    count is_write (trace (base w')) = count is_write (trace (base w)).
Proof.
  intros Hos. unfold deviceSetup.registerBackgroundFetch.
  cbn [stry sbind scall setup_run setup_exec exec_op fst snd]. rewrite Hos.
  cbn [negb stry setup_run]. eexists. split; [reflexivity|].
  cbn [base setup_log store trace log]. rewrite count_app. cbn. repeat split; lia.
Qed.

(** X22. Where the registration is not skipped (another platform, or a
    development build), [registerBackgroundFetch] never throws and
    replaces rather than adds: it asks whether the task is registered
    and, if so, removes the registration first; it registers (once, for
    every 900 s, surviving termination and reboot) only if the way is
    free, and stamps the time of the registration in the store only if
    the registration succeeded; otherwise the store is left alone. *)
Theorem registration_replaces_and_stamps (DEV : bool) (env : SetupEnv) (w : SetupWorld) :
  taken_for_expo_go DEV env = false ->
  exists w',
    setup_run env (deviceSetup.registerBackgroundFetch DEV) w = (w', inr tt) /\
    count is_unregister (setup_log w') =
      (count is_unregister (setup_log w) +
       match env_is_registered env with inr true => 1 | _ => 0 end)%nat /\
    count is_register (setup_log w') =
      (count is_register (setup_log w) + if way_free env then 1 else 0)%nat /\
    (way_free env = true -> last (setup_log w') = Some (RegisterTask 900 false true)) /\
    store (base w') =
      (if way_free env && is_ok (env_register env)
       then <["backgroundTaskRegistered" := pretty (now (base w))]> (store (base w))
       else store (base w)).
Proof.
  unfold taken_for_expo_go, way_free, deviceSetup.registerBackgroundFetch. intros Hgo.
  cbn [stry sbind scall setup_run setup_exec exec_op fst snd].
  destruct (env_platform (setup_env env)); [rewrite Hgo|..];
    cbn [stry sbind scall ssettle setup_run setup_exec exec_op fst snd];
    (destruct (env_is_registered env) as [e|[]];
     cbn [stry sbind scall ssettle setup_run setup_exec exec_op fst snd];
     [| destruct (env_unregister env) as [e|[]];
        cbn [stry sbind scall ssettle setup_run setup_exec exec_op fst snd] |]);
    try (destruct (env_register env) as [e|[]];
         cbn [stry sbind scall ssettle setup_run setup_exec exec_op fst snd]);
    (eexists; split; [reflexivity|]);
    cbn [base setup_log slog store now log set_store is_ok andb];
    rewrite ?count_app; cbn [count is_register is_unregister];
    rewrite ?last_snoc;
    repeat split; try done; try lia.
Qed.

(** X23. The push token never makes the start of the app fail:
    [getFCMToken] returns the token, or null when the token cannot be
    had; [updateFCMToken] always returns, sends the update only when a
    device id is stored (and then under that id, with the token given),
    leaves the store alone, and makes no use of the key it is given. *)
Theorem push_token_never_fails (env : SetupEnv) (keyId fcmToken : string)
    (w : SetupWorld) :
  (exists w',
     setup_run env deviceSetup.getFCMToken w =
       (w', inr (match env_push_token env with inr t => t | inl _ => None end)) /\
     base w' = base w) /\
  (exists w',
     setup_run env (deviceSetup.updateFCMToken keyId fcmToken) w = (w', inr tt) /\
     store (base w') = store (base w) /\
     setup_log w' =
       (setup_log w ++
        if truthy (store (base w) !! "deviceId")
        then [UpdateDeviceInfo (default "" (store (base w) !! "deviceId")) fcmToken]
        else [])%list) /\
  (forall keyId',
     setup_run env (deviceSetup.updateFCMToken keyId' fcmToken) w =
     setup_run env (deviceSetup.updateFCMToken keyId fcmToken) w).
Proof.
  split; [|split].
  - unfold deviceSetup.getFCMToken. cbn [stry setup_run setup_exec fst snd].
    destruct (env_push_token env) as [e|t]; cbn [ssettle stry setup_run];
      eexists; split; reflexivity.
  - unfold deviceSetup.updateFCMToken.
    cbn [stry sbind scall setup_run setup_exec exec_op fst snd].
    destruct (truthy (store (base w) !! "deviceId"));
      cbn [negb stry sbind scall setup_run setup_exec exec_op fst snd].
    + destruct (env_update env _ fcmToken) as [e|[]]; cbn [ssettle stry setup_run];
        eexists; (split; [reflexivity|]); cbn [base setup_log slog store log];
        split; reflexivity.
    + eexists. split; [reflexivity|]. cbn [base setup_log store log].
      by rewrite app_nil_r.
  - reflexivity.
Qed.

Lemma registerBackgroundFetch_returns (DEV : bool) (env : SetupEnv) (w : SetupWorld) :
  exists w', setup_run env (deviceSetup.registerBackgroundFetch DEV) w = (w', inr tt).
Proof.
  unfold deviceSetup.registerBackgroundFetch. rewrite setup_run_try.
  destruct (setup_run env _ w) as [w' [e|[]]]; by eexists.
Qed.

(** X24. Of the functions that prepare the sync, only the request for
    the notification permission lets a failure through: the
    registration of the task and its removal, the query for the push
    token and the update of the token return in every case, whatever the
    outside answers; the permission request rejects exactly when the
    request it makes is rejected, and otherwise answers whether the
    status is [granted]. *)
Theorem only_permission_request_rethrows (DEV : bool) (env : SetupEnv)
    (keyId fcmToken : string) (w : SetupWorld) :
  (exists w', setup_run env (deviceSetup.registerBackgroundFetch DEV) w = (w', inr tt)) /\
  (exists w', setup_run env deviceSetup.unregisterBackgroundFetch w = (w', inr tt)) /\
  (exists w' t, setup_run env deviceSetup.getFCMToken w = (w', inr t)) /\
  (exists w', setup_run env (deviceSetup.updateFCMToken keyId fcmToken) w = (w', inr tt)) /\
  snd (setup_run env deviceSetup.requestNotificationPermissions w) =
    match env_permissions env with
    | inl e => inl e
    | inr status => inr (bool_decide (status = "granted"))
    end.
Proof.
  split; [apply registerBackgroundFetch_returns|]. split; [|split; [|split]].
  - unfold deviceSetup.unregisterBackgroundFetch. rewrite setup_run_try.
    destruct (setup_run env _ w) as [w' [e|[]]]; by eexists.
  - unfold deviceSetup.getFCMToken. rewrite setup_run_try.
    destruct (setup_run env _ w) as [w' [e|t]]; by eexists _, _.
  - unfold deviceSetup.updateFCMToken. rewrite setup_run_try.
    destruct (setup_run env _ w) as [w' [e|[]]]; by eexists.
  - unfold deviceSetup.requestNotificationPermissions.
    cbn [sbind setup_run setup_exec fst snd].
    by destruct (env_permissions env) as [e|s].
Qed.

Lemma registration_skipped_on_android_release_witness :
  exists w',
    setup_run setup_up (deviceSetup.registerBackgroundFetch false) setup_activated
      = (w', inr tt) /\
    setup_log w' = setup_log setup_activated /\
    store (base w') = store (base setup_activated) /\
    count is_write (trace (base w')) = count is_write (trace (base setup_activated)).
Proof.
  apply (registration_skipped_on_android_release setup_up setup_activated). reflexivity.
Defined.

Lemma registration_replaces_and_stamps_witness :
  exists w',
    setup_run setup_ios (deviceSetup.registerBackgroundFetch false) setup_activated
      = (w', inr tt) /\
    count is_unregister (setup_log w') =
      (count is_unregister (setup_log setup_activated) +
       match env_is_registered setup_ios with inr true => 1 | _ => 0 end)%nat /\
    count is_register (setup_log w') =
      (count is_register (setup_log setup_activated) +
       if way_free setup_ios then 1 else 0)%nat /\
    (way_free setup_ios = true ->
     last (setup_log w') = Some (RegisterTask 900 false true)) /\
    store (base w') =
      (if way_free setup_ios && is_ok (env_register setup_ios)
       then <["backgroundTaskRegistered" := pretty (now (base setup_activated))]>
              (store (base setup_activated))
       else store (base setup_activated)).
Proof.
  apply (registration_replaces_and_stamps false setup_ios setup_activated). reflexivity.
Defined.

(** *** The start of the app *)

Lemma setup_run_lift env {A} (p : prog A) (w : SetupWorld) :
  setup_run env (lift p) w =
  ({| base := fst (run (setup_env env) p (base w)); setup_log := setup_log w |},
   snd (run (setup_env env) p (base w))).
Proof.
  revert w. induction p as [a|e|o k IH]; intros w; [by destruct w..|].
  cbn [lift setup_run setup_exec fst snd]. rewrite IH. reflexivity.
Qed.

Lemma setup_run_lift_void env {A} (p : prog A) (w : SetupWorld) :
  (forall b, exists b' a, run (setup_env env) p b = (b', inr a)) ->
  setup_run env (sbind (lift p) (fun _ => SRet tt)) w =
  ({| base := fst (run (setup_env env) p (base w)); setup_log := setup_log w |}, inr tt).
Proof.
  intros H. rewrite setup_run_bind, setup_run_lift.
  destruct (H (base w)) as (b' & a & ->). reflexivity.
Qed.

(** The log of the other operations only grows. *)
Lemma setup_log_grows env {A} (p : setup A) (w : SetupWorld) :
  exists l, setup_log (fst (setup_run env p w)) = (setup_log w ++ l)%list.
Proof.
  revert w. induction p as [a|e|o k IH]; intros w;
    [exists []; by rewrite app_nil_r..|].
  cbn [setup_run]. destruct (IH (snd (setup_exec env o w)) (fst (setup_exec env o w)))
    as [l ->].
  destruct o; cbn [setup_exec fst setup_log slog]; rewrite <- ?app_assoc; by eexists.
Qed.

(** *** The permissions *)

Lemma uses_only_bind (P : setup_op -> bool) {A B} (p : setup A) (f : A -> setup B) :
  uses_only P p -> (forall a, uses_only P (f a)) -> uses_only P (sbind p f).
Proof.
  intros Hp Hf. induction p as [a|e|o k IH]; cbn [sbind uses_only] in *; [done..|].
  destruct Hp as [Ho Hk]. split; [done|]. intros x. by apply IH.
Qed.

Lemma uses_only_try (P : setup_op -> bool) {A} (p : setup A) (h : error -> setup A) :
  uses_only P p -> (forall e, uses_only P (h e)) -> uses_only P (stry p h).
Proof.
  intros Hp Hh. induction p as [a|e|o k IH]; cbn [stry uses_only] in *; [done..|].
  destruct Hp as [Ho Hk]. split; [done|]. intros x. by apply IH.
Qed.

Lemma uses_only_settle (P : setup_op -> bool) {A} (r : result A) :
  uses_only P (ssettle r).
Proof. by destruct r. Qed.

Lemma left_alone_refl (w : SetupWorld) : left_alone w w.
Proof. by repeat split. Qed.

Lemma left_alone_trans (w1 w2 w3 : SetupWorld) :
  left_alone w1 w2 -> left_alone w2 w3 -> left_alone w1 w3.
Proof.
  intros (Hu1 & Hs1 & Hf1 & Hg1) (Hu2 & Hs2 & Hf2 & Hg2). split; [congruence|].
  split; [intros k H1 H2; by rewrite Hs2, Hs1|].
  split; [intros f Hf; by rewrite Hf2, Hf1|intros g Hg; by rewrite Hg2, Hg1].
Qed.

Lemma permission_step_left_alone (env : SetupEnv) (o : setup_op) (w : SetupWorld) :
  permission_step o = true -> left_alone w (fst (setup_exec env o w)).
Proof.
  intros Ho.
  destruct o as [o0| | | | | | |a| | | | | | |]; try discriminate Ho;
    try (split; [done|]; split; [done|]; split; [done|];
         intros g (H1 & H2 & H3 & H4 & H5); cbn [setup_exec fst setup_log slog];
         rewrite count_app; cbn [count]; rewrite ?H1, ?H2, ?H3, ?H4, ?H5; lia).
  destruct o0 as [k|k v| | | | | | | | | | | | | | | | |]; try discriminate Ho;
    cbn [setup_exec exec_op fst base setup_log];
    (split; [done|]); (split; [|split; [|done]]);
    try (intros f (H1 & H2 & H3); cbn [base trace set_store log]; rewrite count_app;
         cbn [count]; rewrite ?H1, ?H2, ?H3; lia);
    try done.
  intros k0 Hk1 Hk2. cbn [base store set_store log]. apply lookup_insert_ne.
  intros <-. cbn [permission_step] in Ho.
  destruct (decide (k = "permissions_requested")) as [->|Hn]; [done|].
  rewrite bool_decide_eq_false_2 in Ho by done. cbn [orb] in Ho.
  by apply bool_decide_eq_true_1 in Ho.
Qed.

(** A program made of such steps leaves alone what they leave alone. *)
Lemma uses_only_left_alone (env : SetupEnv) {A} (p : setup A) (w : SetupWorld) :
  uses_only permission_step p -> left_alone w (fst (setup_run env p w)).
Proof.
  revert w. induction p as [a|e|o k IH]; intros w Hp; [apply left_alone_refl..|].
  destruct Hp as [Ho Hk]. cbn [setup_run].
  eapply left_alone_trans; [apply (permission_step_left_alone env o w Ho)|].
  apply IH, Hk.
Qed.

Lemma requestAllPermissions_steps :
  uses_only permission_step permissions.requestAllPermissions.
Proof.
  unfold permissions.requestAllPermissions, permissions.requestBatteryOptimizationExemption,
    permissions.showPermissionsDeniedAlert.
  repeat first
    [ apply uses_only_try | apply uses_only_bind | apply uses_only_settle
    | intros ?
    | match goal with
      | |- uses_only _ (if ?b then _ else _) => destruct b
      | |- uses_only _ (match ?x with _ => _ end) => destruct x
      | |- uses_only _ (scall _) => by split
      | |- uses_only _ (SVis _ ssettle) => split; [done|intros ?; apply uses_only_settle]
      | |- uses_only _ (SRet _) => exact I
      end ].
Qed.

(** [requestAllPermissions] returns in every case; it leaves the screen
    state and every key but its two alone. *)
Lemma requestAllPermissions_facts (env : SetupEnv) (w : SetupWorld) :
  exists w' r,
    setup_run env permissions.requestAllPermissions w = (w', inr r) /\
    left_alone w w'.
Proof.
  pose proof (uses_only_left_alone env permissions.requestAllPermissions w
                requestAllPermissions_steps) as H.
  revert H. unfold permissions.requestAllPermissions at 1 2. rewrite setup_run_try.
  destruct (setup_run env _ w) as [w' [e|r]]; cbn [fst setup_run]; by eexists _, _.
Qed.

(** When the device is activated: device admin is asked for if it is
    missing, the app is hidden if it is not. *)
Lemma start_admin_block (env : SetupEnv) (w : SetupWorld) :
  exists w',
    setup_run env
      (isAdmin <- lift kioskService.isDeviceAdmin ;;
       (if negb isAdmin then lift kioskService.requestDeviceAdmin ;; SRet tt else SRet tt) ;;
       appHidden <- scall (Base (GetItem "appHidden")) ;;
       if negb (bool_decide (appHidden = Some "true"))
       then lift kioskService.hideAppFromLauncher ;; SRet tt
       else SRet tt)%setup w = (w', inr tt) /\
    setup_log w' = setup_log w /\
    ui_locked (base w') = ui_locked (base w) /\
    (forall k, k <> "appHidden" -> store (base w') !! k = store (base w) !! k) /\
    count is_apply (trace (base w')) = count is_apply (trace (base w)).
Proof.
  rewrite setup_run_bind, setup_run_lift. unfold run. rewrite !run_isDeviceAdmin.
  cbn [fst snd].
  assert (forall b : World,
            ui_locked (after_step (setup_env env) DA_isDeviceAdmin None b) = ui_locked b /\
            store (after_step (setup_env env) DA_isDeviceAdmin None b) = store b /\
            count is_apply (trace (after_step (setup_env env) DA_isDeviceAdmin None b)) =
              count is_apply (trace b)) as H1.
  { intros b. rewrite ui_after_step, store_after_step, count_after_step; done. }
  destruct (H1 (base w)) as (Hu1 & Hs1 & Hc1). clear H1. revert Hu1 Hs1 Hc1.
  generalize (after_step (setup_env env) DA_isDeviceAdmin None (base w)).
  intros b1 Hu1 Hs1 Hc1. rewrite setup_run_bind.
  assert (exists b2,
            setup_run env
              (if negb (admin_granted (setup_env env))
               then lift kioskService.requestDeviceAdmin ;; SRet tt else SRet tt)%setup
              {| base := b1; setup_log := setup_log w |}
            = ({| base := b2; setup_log := setup_log w |}, inr tt) /\
            ui_locked b2 = ui_locked b1 /\ store b2 = store b1 /\
            count is_apply (trace b2) = count is_apply (trace b1)) as (b2 & -> & Hu2 & Hs2 & Hc2).
  { destruct (admin_granted (setup_env env)); cbn [negb]; [by eexists|].
    rewrite setup_run_bind, setup_run_lift, run_requestDeviceAdmin. cbn [fst snd base setup_log].
    eexists. split; [reflexivity|].
    rewrite ui_after_step, store_after_step, count_after_step; done. }
  rewrite setup_run_bind. cbn [scall setup_run setup_exec exec_op fst snd base setup_log].
  match goal with |- context [negb ?b] => destruct b end; cbn [negb].
  - cbn [setup_run]. eexists. split; [reflexivity|]. cbn [base setup_log store ui_locked trace log].
    rewrite count_app. cbn [count is_apply].
    split; [done|]. split; [congruence|]. split; [|lia].
    intros k _. by rewrite Hs2, Hs1.
  - rewrite setup_run_bind, setup_run_lift.
    change kioskService.hideAppFromLauncher
      with (single_step DA_hideAppFromLauncher (Some ("appHidden", "true"))).
    unfold run. rewrite run_single_step. cbn [fst snd base setup_log setup_run].
    eexists. split; [reflexivity|]. cbn [base setup_log].
    rewrite ui_after_step, count_after_step by (try done; by intros ? ? [= <- <-]).
    cbn [store ui_locked trace log]. rewrite count_app. cbn [count is_apply].
    split; [done|]. split; [congruence|]. split; [|lia].
    intros k Hk. rewrite store_after_step_other by (intros ? ? [= <- <-]; done).
    cbn [store log]. by rewrite Hs2, Hs1.
Qed.

Lemma registerBackgroundFetch_facts (DEV : bool) (env : SetupEnv) (w : SetupWorld) :
  exists w',
    setup_run env (deviceSetup.registerBackgroundFetch DEV) w = (w', inr tt) /\
    ui_locked (base w') = ui_locked (base w) /\
    count is_apply (trace (base w')) = count is_apply (trace (base w)) /\
    count is_install (setup_log w') = count is_install (setup_log w) /\
    count is_register (setup_log w') =
      (count is_register (setup_log w) +
       if taken_for_expo_go DEV env then 0 else if way_free env then 1 else 0)%nat.
Proof.
  unfold taken_for_expo_go, way_free, deviceSetup.registerBackgroundFetch.
  cbn [stry sbind scall setup_run setup_exec exec_op fst snd].
  destruct (env_platform (setup_env env)); [destruct DEV; cbn [negb]|..];
    cbn [stry sbind scall ssettle setup_run setup_exec exec_op fst snd];
    try (destruct (env_is_registered env) as [e|[]];
         cbn [stry sbind scall ssettle setup_run setup_exec exec_op fst snd];
         [| destruct (env_unregister env) as [e|[]];
            cbn [stry sbind scall ssettle setup_run setup_exec exec_op fst snd] |]);
    try (destruct (env_register env) as [e|[]];
         cbn [stry sbind scall ssettle setup_run setup_exec exec_op fst snd]);
    (eexists; split; [reflexivity|]);
    cbn [base setup_log slog ui_locked trace log set_store is_ok];
    rewrite ?count_app; cbn [count is_register is_install is_apply];
    repeat split; try done; try lia.
Qed.

Lemma token_block_facts (env : SetupEnv) (key : option string) {A} (k : setup A)
    (w : SetupWorld) :
  exists w',
    setup_run env
      (fcmToken <- deviceSetup.getFCMToken ;;
       (if truthy fcmToken
        then deviceSetup.updateFCMToken (default "" key) (default "" fcmToken)
        else SRet tt) ;;
       k)%setup w = setup_run env k w' /\
    ui_locked (base w') = ui_locked (base w) /\
    count is_apply (trace (base w')) = count is_apply (trace (base w)) /\
    count is_install (setup_log w') = count is_install (setup_log w) /\
    count is_register (setup_log w') = count is_register (setup_log w).
Proof.
  unfold deviceSetup.getFCMToken, deviceSetup.updateFCMToken.
  cbn [stry sbind scall setup_run setup_exec exec_op fst snd].
  destruct (env_push_token env) as [e|t];
    cbn [ssettle stry sbind scall setup_run setup_exec exec_op fst snd truthy base slog
         store log].
  - eexists. split; [reflexivity|]. cbn [base setup_log slog].
    rewrite !count_app. cbn. repeat split; lia.
  - destruct (truthy t);
      cbn [ssettle stry sbind scall setup_run setup_exec exec_op fst snd base slog store log].
    + destruct (truthy (store (base w) !! "deviceId"));
        cbn [negb ssettle stry sbind scall setup_run setup_exec exec_op fst snd];
        try (destruct (env_update env _ _) as [e|[]];
             cbn [ssettle stry sbind scall setup_run setup_exec exec_op fst snd]);
        (eexists; split; [reflexivity|]);
        cbn [base setup_log slog ui_locked trace log];
        rewrite !count_app; cbn; repeat split; lia.
    + eexists. split; [reflexivity|]. cbn [base setup_log slog].
      rewrite !count_app. cbn. repeat split; lia.
Qed.

(** When the device is activated: the screen state is set from the
    store, a locked device is locked down, the listeners are installed,
    the token is sent, the task is registered. *)
Lemma start_lock_block (DEV : bool) (env : SetupEnv) (key : option string)
    (w : SetupWorld) :
  let locked := bool_decide (store (base w) !! "isLocked" = Some "true") in
  exists w',
    setup_run env
      (locked <- lift deviceService.isDeviceLocked ;;
       scall (Base (SetIsLocked locked)) ;;
       (if locked then lift kioskService.enableFullLockdown ;; SRet tt else SRet tt) ;;
       scall InstallListeners ;;
       fcmToken <- deviceSetup.getFCMToken ;;
       (if truthy fcmToken
        then deviceSetup.updateFCMToken (default "" key) (default "" fcmToken)
        else SRet tt) ;;
       deviceSetup.registerBackgroundFetch DEV)%setup w = (w', inr tt) /\
    ui_locked (base w') = locked /\
    count is_apply (trace (base w')) =
      (count is_apply (trace (base w)) + if locked then 1 else 0)%nat /\
    count is_install (setup_log w') = (count is_install (setup_log w) + 1)%nat /\
    count is_register (setup_log w') =
      (count is_register (setup_log w) +
       if taken_for_expo_go DEV env then 0 else if way_free env then 1 else 0)%nat.
Proof.
  cbn zeta.
  rewrite setup_run_bind, setup_run_lift.
  cbn [run run_with deviceService.isDeviceLocked bind call exec_op fst snd].
  rewrite setup_run_bind. cbn [scall setup_run setup_exec exec_op fst snd base setup_log].
  rewrite setup_run_bind.
  set (locked := bool_decide (store (base w) !! "isLocked" = Some "true")).
  match goal with |- context [setup_run env (if ?b then _ else _) _] =>
    change b with locked end.
  assert (exists b2,
            setup_run env
              (if locked then lift kioskService.enableFullLockdown ;; SRet tt
               else SRet tt)%setup
              {| base := set_ui_locked locked
                           (log (SetIsLocked locked) (log (GetItem "isLocked") (base w)));
                 setup_log := setup_log w |}
            = ({| base := b2; setup_log := setup_log w |}, inr tt) /\
            ui_locked b2 = locked /\
            count is_apply (trace b2) =
              (count is_apply (trace (base w)) + if locked then 1 else 0)%nat)
    as (b2 & -> & Hu2 & Hc2).
  { destruct locked.
    - rewrite setup_run_bind, setup_run_lift. unfold run. rewrite !run_enableFullLockdown.
      cbn [fst snd base setup_log setup_run]. eexists. split; [reflexivity|].
      match goal with |- context [lockdown_world ?e ?b] =>
        destruct (lockdown_world_facts e b) as (-> & -> & _) end.
      cbn [ui_locked trace set_ui_locked log]. rewrite !count_app. cbn. split; [done|lia].
    - cbn [setup_run]. eexists. split; [reflexivity|].
      cbn [ui_locked trace set_ui_locked log]. rewrite !count_app. cbn. split; [done|lia]. }
  cbn [sbind scall setup_run setup_exec fst snd].
  destruct (token_block_facts env key (deviceSetup.registerBackgroundFetch DEV)
              (slog InstallListeners {| base := b2; setup_log := setup_log w |}))
    as (w3 & -> & Hu3 & Hc3 & Hi3 & Hr3).
  destruct (registerBackgroundFetch_facts DEV env w3) as (w4 & -> & Hu4 & Hc4 & Hi4 & Hr4).
  exists w4. split; [reflexivity|].
  cbn [base setup_log slog] in *. rewrite !count_app in *. cbn [count is_install is_register] in *.
  rewrite Hu4, Hu3, Hc4, Hc3, Hi4, Hi3, Hr4, Hr3. repeat split; try done; lia.
Qed.

Lemma is_capability_ignores_storage : ignores_storage is_capability.
Proof. by repeat split. Qed.

Lemma is_apply_ignores_storage : ignores_storage is_apply.
Proof. by repeat split. Qed.

Lemma is_install_ignores_permissions : ignores_permissions is_install.
Proof. by repeat split. Qed.

Lemma is_register_ignores_permissions : ignores_permissions is_register.
Proof. by repeat split. Qed.

Lemma is_task_call_ignores_permissions : ignores_permissions is_task_call.
Proof. by repeat split. Qed.

(** X25. A start that fails early leaves the device unmanaged: when the
    request for the notification permission is rejected (or, on Android,
    the creation of the notification channel is), [initializeApp] gives
    up what follows.  It still returns and ends the loading state, but
    it installs no push listener, makes no call of the task manager,
    leaves the screen state alone and invokes no lockdown capability,
    also on a device that is activated and locked.  The store is as
    [requestAllPermissions], which has run by then, left it: every key
    but [permissions_requested] and [permissions_status] is as it was. *)
Theorem failed_start_leaves_device_unmanaged (DEV : bool) (env : SetupEnv) (e : error)
    (w : SetupWorld) :
  (env_permissions env = inl e \/
   (env_platform (setup_env env) = android /\ env_channel env = inl e)) ->
  exists w',
    setup_run env (AppStart.initializeApp DEV) w = (w', inr tt) /\
    last (setup_log w') = Some (SetIsLoading false) /\
    count is_install (setup_log w') = count is_install (setup_log w) /\
    count is_task_call (setup_log w') = count is_task_call (setup_log w) /\
    store (base w') =
      store (base (fst (setup_run env permissions.requestAllPermissions w))) /\
    (forall k, k <> "permissions_requested" -> k <> "permissions_status" ->
       store (base w') !! k = store (base w) !! k) /\
    ui_locked (base w') = ui_locked (base w) /\
    count is_capability (trace (base w')) = count is_capability (trace (base w)).
Proof.
  intros H. unfold AppStart.initializeApp, AppStart.initialize,
    deviceSetup.requestNotificationPermissions.
  rewrite setup_run_bind, setup_run_try, setup_run_bind.
  destruct (requestAllPermissions_facts env w) as (wp & r & -> & Hu & Hs & Hf & Hg).
  cbn [fst]. cbn beta.
  assert (forall w1 : SetupWorld,
            base w1 = log PlatformOS (base wp) ->
            count is_install (setup_log w1) = count is_install (setup_log wp) ->
            count is_task_call (setup_log w1) = count is_task_call (setup_log wp) ->
            let w' := slog (SetIsLoading false) w1 in
            last (setup_log w') = Some (SetIsLoading false) /\
            count is_install (setup_log w') = count is_install (setup_log w) /\
            count is_task_call (setup_log w') = count is_task_call (setup_log w) /\
            store (base w') = store (base wp) /\
            (forall k, k <> "permissions_requested" -> k <> "permissions_status" ->
               store (base w') !! k = store (base w) !! k) /\
            ui_locked (base w') = ui_locked (base w) /\
            count is_capability (trace (base w')) = count is_capability (trace (base w)))
    as Hend.
  { intros w1 Hb Hi Ht. cbn zeta. cbn [base setup_log slog]. rewrite Hb, last_snoc, !count_app.
    cbn [store ui_locked trace log]. rewrite count_app, Hi, Ht.
    rewrite (Hg is_install is_install_ignores_permissions),
      (Hg is_task_call is_task_call_ignores_permissions),
      (Hf is_capability is_capability_ignores_storage), Hu.
    cbn. repeat split; try lia. exact Hs. }
  cbn [stry sbind scall setup_run setup_exec exec_op fst snd].
  destruct (env_platform (setup_env env)) eqn:Hos;
    cbn [ssettle stry sbind scall setup_run setup_exec exec_op fst snd].
  - destruct (env_channel env) as [e1|[]] eqn:Hch;
      cbn [ssettle stry sbind scall setup_run setup_exec exec_op fst snd].
    + eexists. split; [reflexivity|]. apply Hend; cbn [base setup_log slog];
        rewrite ?count_app; cbn; try done; lia.
    + destruct H as [H|[_ H]]; [|congruence]. rewrite H.
      cbn [ssettle stry sbind scall setup_run setup_exec exec_op fst snd].
      eexists. split; [reflexivity|]. apply Hend; cbn [base setup_log slog];
        rewrite ?count_app; cbn; try done; lia.
  - destruct H as [H|[H _]]; [|congruence]. rewrite H.
    cbn [ssettle stry sbind scall setup_run setup_exec exec_op fst snd].
    eexists. split; [reflexivity|]. apply Hend; cbn [base setup_log slog];
      rewrite ?count_app; cbn; try done; lia.
  - destruct H as [H|[H _]]; [|congruence]. rewrite H.
    cbn [ssettle stry sbind scall setup_run setup_exec exec_op fst snd].
    eexists. split; [reflexivity|]. apply Hend; cbn [base setup_log slog];
      rewrite ?count_app; cbn; try done; lia.
Qed.

(** A start in which the permission request and the notification
    channel succeed. *)
Lemma initializeApp_facts (DEV : bool) (env : SetupEnv) (status : string)
    (w : SetupWorld) :
  env_permissions env = inr status ->
  (env_platform (setup_env env) = android -> env_channel env = inr tt) ->
  let activated := truthy (store (base w) !! "activationKey") in
  let locked := bool_decide (store (base w) !! "isLocked" = Some "true") in
  exists w',
    setup_run env (AppStart.initializeApp DEV) w = (w', inr tt) /\
    last (setup_log w') = Some (SetIsLoading false) /\
    SetIsActivated activated ∈ setup_log w' /\
    ui_locked (base w') = (if activated then locked else ui_locked (base w)) /\
    count is_apply (trace (base w')) =
      (count is_apply (trace (base w)) + if activated && locked then 1 else 0)%nat /\
    count is_install (setup_log w') =
      (count is_install (setup_log w) + if activated then 1 else 0)%nat /\
    count is_register (setup_log w') =
      (count is_register (setup_log w) +
       if activated && negb (taken_for_expo_go DEV env) && way_free env
       then 1 else 0)%nat.
Proof.
  intros Hp Hch. cbn zeta.
  unfold AppStart.initializeApp. rewrite setup_run_bind, setup_run_try.
  assert (exists w1,
            setup_run env (AppStart.initialize DEV) w = (w1, inr tt) /\
            SetIsActivated (truthy (store (base w) !! "activationKey")) ∈ setup_log w1 /\
            ui_locked (base w1) =
              (if truthy (store (base w) !! "activationKey")
               then bool_decide (store (base w) !! "isLocked" = Some "true")
               else ui_locked (base w)) /\
            count is_apply (trace (base w1)) =
              (count is_apply (trace (base w)) +
               if truthy (store (base w) !! "activationKey") &&
                  bool_decide (store (base w) !! "isLocked" = Some "true")
               then 1 else 0)%nat /\
            count is_install (setup_log w1) =
              (count is_install (setup_log w) +
               if truthy (store (base w) !! "activationKey") then 1 else 0)%nat /\
            count is_register (setup_log w1) =
              (count is_register (setup_log w) +
               if truthy (store (base w) !! "activationKey") &&
                  negb (taken_for_expo_go DEV env) && way_free env
               then 1 else 0)%nat) as (w1 & -> & Ha & Hu & Hc & Hi & Hr).
  2: { cbn [scall setup_run setup_exec fst snd]. eexists. split; [reflexivity|].
       cbn [base setup_log slog]. rewrite last_snoc, !count_app.
       cbn [count is_install is_register].
       split; [done|]. split; [apply elem_of_app; by left|].
       split; [done|]. split; [done|]. split; lia. }
  unfold AppStart.initialize, deviceSetup.requestNotificationPermissions.
  rewrite setup_run_bind.
  destruct (requestAllPermissions_facts env w) as (wp & r & -> & Hu & Hs & Hf & Hg).
  cbn beta.
  rewrite <- (Hs "activationKey"), <- (Hs "isLocked"), <- Hu,
    <- (Hf is_apply is_apply_ignores_storage),
    <- (Hg is_install is_install_ignores_permissions),
    <- (Hg is_register is_register_ignores_permissions) by done.
  clear Hu Hs Hf Hg r. clear w. rename wp into w.
  cbn [sbind scall setup_run setup_exec exec_op fst snd].
  match goal with |- context [setup_run env (sbind ?p ?k) ?W] =>
    rewrite (setup_run_bind env p k W);
    assert (exists w0,
              setup_run env p W = (w0, inr tt) /\
              base w0 = log PlatformOS (base w) /\
              count is_install (setup_log w0) = count is_install (setup_log w) /\
              count is_register (setup_log w0) = count is_register (setup_log w))
      as (w0 & -> & Hb0 & Hi0 & Hr0)
  end.
  { destruct (env_platform (setup_env env)); cbn [setup_run setup_exec fst snd];
      rewrite ?Hch by done; cbn [ssettle setup_run];
      (eexists; split; [reflexivity|]); cbn [base setup_log slog];
      rewrite ?count_app; cbn; repeat split; lia. }
  cbn [sbind scall setup_run setup_exec exec_op fst snd]. rewrite Hp.
  cbn [ssettle sbind scall setup_run setup_exec exec_op fst snd base slog]. rewrite Hb0.
  cbn [store log].
  destruct (truthy (store (base w) !! "activationKey")) eqn:Hact; cbn [andb].
  - rewrite setup_run_bind.
    match goal with |- context [setup_run env ?P ?wx] =>
      destruct (start_admin_block env wx) as (w2 & Hrun2 & Hl2 & Hu2 & Hs2 & Hc2);
      replace (setup_run env P wx) with (w2, @inr error unit tt)
        by (symmetry; exact Hrun2)
    end.
    clear Hrun2.
    destruct (start_lock_block DEV env (store (base w) !! "activationKey") w2)
      as (w3 & Hrun3 & Hu3 & Hc3 & Hi3 & Hr3).
    exists w3. split; [exact Hrun3|].
    match type of Hrun3 with setup_run env ?P w2 = _ =>
      destruct (setup_log_grows env P w2) as [l3 Hl3] end.
    rewrite Hrun3 in Hl3. clear Hrun3. cbn [fst] in Hl3.
    cbn [base setup_log slog store ui_locked trace log] in Hl2, Hu2, Hs2, Hc2.
    rewrite !Hs2 in Hu3, Hc3 by done. cbn [store log] in Hu3, Hc3.
    rewrite !count_app in Hc2. cbn [count is_apply] in Hc2.
    rewrite Hl2, !count_app, Hi0 in Hi3. rewrite Hl2, !count_app, Hr0 in Hr3.
    cbn [count is_install is_register] in Hi3, Hr3.
    split; [rewrite Hl3, Hl2; apply elem_of_app; left; apply elem_of_app; right; by left|].
    rewrite Hu3, Hc3, Hi3, Hr3, Hc2. split; [done|].
    destruct (bool_decide _), (taken_for_expo_go DEV env), (way_free env); cbn;
      repeat split; lia.
  - cbn [sbind setup_run]. eexists. split; [reflexivity|].
    cbn [base setup_log slog store ui_locked trace log].
    rewrite !count_app, Hi0, Hr0. cbn.
    split; [apply elem_of_app; right; by left|]. repeat split; lia.
Qed.

(** X26. A start in which the permission request and the notification
    channel succeed.  [initializeApp] returns and ends the loading
    state, and sets [isActivated] to whether an activation key is
    stored.  On a device that is not activated it stops there: the
    screen state is left alone, no listener is installed, nothing is
    registered.  On an activated device it sets the screen state to the
    answer of the lock query, applies the full lockdown exactly when the
    device is locked, installs the push listeners once, and registers
    the background task unless the build is taken for Expo Go or the
    way to the registration is not free. *)
Theorem start_of_the_app (DEV : bool) (env : SetupEnv) (status : string)
    (w : SetupWorld) :
  env_permissions env = inr status ->
  (env_platform (setup_env env) = android -> env_channel env = inr tt) ->
  let activated := truthy (store (base w) !! "activationKey") in
  let locked := bool_decide (store (base w) !! "isLocked" = Some "true") in
  exists w',
    setup_run env (AppStart.initializeApp DEV) w = (w', inr tt) /\
    last (setup_log w') = Some (SetIsLoading false) /\
    SetIsActivated activated ∈ setup_log w' /\
    ui_locked (base w') = (if activated then locked else ui_locked (base w)) /\
    count is_apply (trace (base w')) =
      (count is_apply (trace (base w)) + if activated && locked then 1 else 0)%nat /\
    count is_install (setup_log w') =
      (count is_install (setup_log w) + if activated then 1 else 0)%nat /\
    count is_register (setup_log w') =
      (count is_register (setup_log w) +
       if activated && negb (taken_for_expo_go DEV env) && way_free env
       then 1 else 0)%nat.
Proof. apply initializeApp_facts. Qed.

Lemma failed_start_leaves_device_unmanaged_witness :
  exists w',
    setup_run setup_no_channel (AppStart.initializeApp true) setup_locked = (w', inr tt) /\
    last (setup_log w') = Some (SetIsLoading false) /\
    count is_install (setup_log w') = count is_install (setup_log setup_locked) /\
    count is_task_call (setup_log w') = count is_task_call (setup_log setup_locked) /\
    store (base w') =
      store (base (fst (setup_run setup_no_channel permissions.requestAllPermissions
                          setup_locked))) /\
    (forall k, k <> "permissions_requested" -> k <> "permissions_status" ->
       store (base w') !! k = store (base setup_locked) !! k) /\
    ui_locked (base w') = ui_locked (base setup_locked) /\
    count is_capability (trace (base w')) = count is_capability (trace (base setup_locked)).
Proof.
  apply (failed_start_leaves_device_unmanaged true setup_no_channel "channel failed"
           setup_locked).
  right. split; reflexivity.
Defined.

(** A development build on Android starts on a device that is activated
    and locked. *)
Lemma start_of_the_app_witness :
  let activated := truthy (store (base setup_locked) !! "activationKey") in
  let locked := bool_decide (store (base setup_locked) !! "isLocked" = Some "true") in
  exists w',
    setup_run setup_up (AppStart.initializeApp true) setup_locked = (w', inr tt) /\
    last (setup_log w') = Some (SetIsLoading false) /\
    SetIsActivated activated ∈ setup_log w' /\
    ui_locked (base w') = (if activated then locked else ui_locked (base setup_locked)) /\
    count is_apply (trace (base w')) =
      (count is_apply (trace (base setup_locked)) +
       if activated && locked then 1 else 0)%nat /\
    count is_install (setup_log w') =
      (count is_install (setup_log setup_locked) + if activated then 1 else 0)%nat /\
    count is_register (setup_log w') =
      (count is_register (setup_log setup_locked) +
       if activated && negb (taken_for_expo_go true setup_up) && way_free setup_up
       then 1 else 0)%nat.
Proof.
  apply (start_of_the_app true setup_up "granted" setup_locked).
  - reflexivity.
  - intros _. reflexivity.
Defined.

(* ===================================================================== *)
(** ** Further examples *)
(* ===================================================================== *)

Lemma poll_without_command_witness :
  let env := env_up quiet_report 120 in
  exists w',
    run env (deviceService.BACKGROUND_FETCH_TASK show_status show_error) activated
      = (w', inr NewData) /\
    count is_dispatch (trace w') = count is_dispatch (trace activated) /\
    count is_alert (trace w') = count is_alert (trace activated) /\
    count is_ack (trace w') = count is_ack (trace activated) /\
    store w' !! "deviceStatus" = Some (show_status quiet_report) /\
    store w' !! "lastSyncTime" = Some (pretty (now activated + env_fetch_ms env)) /\
    (forall k, k <> "deviceStatus" -> k <> "lastSyncTime" ->
       store w' !! k = store activated !! k).
Proof.
  apply (poll_without_command show_status show_error (env_up quiet_report 120) activated
           "ABC123" quiet_report).
  - reflexivity.
  - discriminate.
  - reflexivity.
  - right. right. reflexivity.
  - reflexivity.
Defined.

Lemma failed_poll_keeps_last_sync_witness :
  exists w',
    run (env_down "Network Error" 3000)
      (deviceService.BACKGROUND_FETCH_TASK show_status show_error) activated
      = (w', inr Failed) /\
    count is_ack (trace w') = count is_ack (trace activated) /\
    store w' !! "lastSyncTime" = store activated !! "lastSyncTime" /\
    store w' !! "deviceStatus" = store activated !! "deviceStatus" /\
    store w' !! "activationKey" = Some "ABC123".
Proof.
  apply (failed_poll_keeps_last_sync show_status show_error (env_down "Network Error" 3000)
           activated "ABC123" "Network Error").
  - reflexivity.
  - discriminate.
  - left. reflexivity.
  - reflexivity.
Defined.

Lemma lock_applied_though_poll_fails_witness :
  let env := env_mute lock_report 120 in
  exists w',
    run env (deviceService.BACKGROUND_FETCH_TASK show_status show_error) activated
      = (w', inr Failed) /\
    count is_ack (trace w') = count is_ack (trace activated) /\
    store w' !! "isLocked" = Some "true" /\
    store w' !! "lockMessage" = Some (js_or (rep_lockMessage lock_report) "") /\
    snd (run env deviceService.isDeviceLocked w') = inr true.
Proof.
  apply (lock_applied_though_poll_fails show_status show_error (env_mute lock_report 120)
           activated "ABC123" lock_report "Notifications are not allowed").
  - reflexivity.
  - discriminate.
  - reflexivity.
  - reflexivity.
  - reflexivity.
Defined.

Lemma unknown_command_acknowledged_witness :
  exists w',
    run (env_up odd_report 120)
      (deviceService.BACKGROUND_FETCH_TASK show_status show_error) activated
      = (w', inr NewData) /\
    AcknowledgeCommand "ABC123" "selfdestruct" ∈ trace w' /\
    count is_ack (trace w') = (count is_ack (trace activated) + 1)%nat /\
    count is_alert (trace w') = count is_alert (trace activated) /\
    (forall k, k <> "deviceStatus" -> k <> "lastSyncTime" ->
       store w' !! k = store activated !! k).
Proof.
  apply (unknown_command_acknowledged show_status show_error (env_up odd_report 120)
           activated "ABC123" odd_report "selfdestruct").
  - reflexivity.
  - discriminate.
  - reflexivity.
  - split; [reflexivity|split; discriminate].
  - unfold known_commands. intros H.
    repeat (apply elem_of_cons in H as [H|H]; [discriminate H|]).
    by apply elem_of_nil in H.
  - reflexivity.
Defined.

Lemma answer_in_time_disarms_timeout_witness :
  let env := env_up lock_report 120 in
  let r := run env (deviceService.BACKGROUND_FETCH_TASK show_status show_error) activated in
  unabortable (next_controller activated) (fst r) /\
  forall env' d, next_controller activated ∉ aborted (advance env' d (fst r)).
Proof.
  apply (answer_in_time_disarms_timeout show_status show_error (env_up lock_report 120)
           activated "ABC123").
  - reflexivity.
  - discriminate.
  - reflexivity.
  - split.
    + apply not_elem_of_nil.
    + intros t Ht. by apply elem_of_nil in Ht.
Defined.


Lemma dispatches_keep_to_the_lock_witness :
  let env := env_up lock_report 120 in
  let l := [Dispatch env "lock" lock_report; Dispatch env "reset" quiet_report;
            Dispatch env "unlock" quiet_report] in
  let w' := play l activated in
  now w' = now activated /\ ui_locked w' = ui_locked activated /\
  (forall k, k <> "isLocked" -> k <> "lockMessage" ->
     store w' !! k = store activated !! k) /\
  count is_dispatch (trace w') = (count is_dispatch (trace activated) + length l)%nat /\
  count is_fetch (trace w') = count is_fetch (trace activated) /\
  count is_ack (trace w') = count is_ack (trace activated) /\
  count is_wipe (trace w') = count is_wipe (trace activated) /\
  count is_capability (trace w') = count is_capability (trace activated).
Proof.
  apply (dispatches_keep_to_the_lock
           [Dispatch (env_up lock_report 120) "lock" lock_report;
            Dispatch (env_up lock_report 120) "reset" quiet_report;
            Dispatch (env_up lock_report 120) "unlock" quiet_report] activated).
  reflexivity.
Defined.

Lemma ring_is_best_effort_witness :
  let env := env_up lock_report 120 in
  let r := run env (deviceService.handleCommand "ring" quiet_report) activated in
  snd r = env_notify env "Find Device" "Your device is ringing. Tap to stop." /\
  store (fst r) = store activated /\
  count is_alert (trace (fst r)) = (count is_alert (trace activated) + 1)%nat /\
  (is_ok (env_vibrate env) = false -> timers (fst r) = timers activated) /\
  (is_ok (env_vibrate env) = true ->
   ring_timeout activated ∈ timers (fst r) /\
   forall env', VibrationCancel ∈ trace (advance env' 10000 (fst r))).
Proof.
  apply (ring_is_best_effort (env_up lock_report 120) "ring" quiet_report activated).
  right. reflexivity.
Defined.

Lemma push_acknowledged_under_stored_identity_witness :
  exists w',
    run (env_up lock_report 120) (App.foregroundListener lock_push_data) activated
      = (w', inr tt) /\
    count is_ack (trace w') =
      (count is_ack (trace activated) +
       match push_ack_key (store activated) with Some _ => 1 | None => 0 end)%nat /\
    (forall k, push_ack_key (store activated) = Some k ->
       k <> "" /\
       count (acks_as k "lock") (trace w') =
         (count (acks_as k "lock") (trace activated) + 1)%nat).
Proof.
  apply (push_acknowledged_under_stored_identity (env_up lock_report 120) lock_push_data
           "lock" activated).
  - reflexivity.
  - discriminate.
  - apply dispatch_returns_up.
Defined.

Lemma push_dispatch_failure_ends_listener_witness :
  exists w',
    run (env_mute lock_report 120) (App.foregroundListener lock_push_data) activated
      = (w', inl "Notifications are not allowed") /\
    ui_locked w' = ui_locked activated /\
    count is_capability (trace w') = count is_capability (trace activated) /\
    count is_ack (trace w') = count is_ack (trace activated) /\
    ("lock" = "lock" -> store w' !! "isLocked" = Some "true").
Proof.
  apply (push_dispatch_failure_ends_listener (env_mute lock_report 120) lock_push_data
           "lock" "Notifications are not allowed" activated).
  - reflexivity.
  - discriminate.
  - apply dispatch_raises_mute.
Defined.

Lemma lockdown_needs_admin_witness :
  exists w',
    run env_no_admin kioskService.enableFullLockdown activated
      = (w', inr nothing_locked_down) /\
    store w' = store activated /\ ui_locked w' = ui_locked activated.
Proof.
  apply (lockdown_needs_admin env_no_admin activated). reflexivity.
Defined.

Lemma polled_lock_reaches_screen_without_lockdown_witness :
  let env := env_up lock_report 120 in
  exists w1 w2,
    run env (deviceService.BACKGROUND_FETCH_TASK show_status show_error) activated
      = (w1, inr NewData) /\
    ui_locked w1 = ui_locked activated /\
    store w1 !! "isLocked" = Some "true" /\
    run env (AppEffect.lockCheckInterval (ui_locked w1)) w1 = (w2, inr tt) /\
    ui_locked w2 = true /\
    count is_capability (trace w2) = count is_capability (trace activated).
Proof.
  apply (polled_lock_reaches_screen_without_lockdown show_status show_error
           (env_up lock_report 120) (env_up lock_report 120) activated "ABC123"
           lock_report).
  - reflexivity.
  - discriminate.
  - reflexivity.
  - reflexivity.
  - apply dispatch_returns_up.
Defined.

Lemma wiped_device_falls_silent_witness :
  let env := env_up lock_report 120 in
  let w2 := advance env 10000
              (fst (run env (deviceService.handleCommand "reset" quiet_report) activated)) in
  (forall env2, exists w3,
     run env2 (deviceService.BACKGROUND_FETCH_TASK show_status show_error) w2
       = (w3, inr NoData) /\
     count is_fetch (trace w3) = count is_fetch (trace w2)) /\
  (forall env2 d c,
     push_command d = Some c -> c <> "" ->
     dispatch_returns env2 c (deviceService.payload d) ->
     exists w3,
       run env2 (App.foregroundListener d) w2 = (w3, inr tt) /\
       count is_dispatch (trace w3) = (count is_dispatch (trace w2) + 1)%nat /\
       count is_ack (trace w3) = count is_ack (trace w2)).
Proof.
  apply (wiped_device_falls_silent show_status show_error (env_up lock_report 120)
           (env_up lock_report 120) quiet_report activated).
  apply dispatch_returns_up.
Defined.

Lemma deactivation_stops_poll_not_push_witness :
  let env := env_up lock_report 120 in
  let w1 := fst (run env HomeScreen.handleDeactivate activated) in
  store w1 !! "activationKey" = None /\
  store w1 !! "keyId" = Some "ABC123" /\
  store w1 !! "isLocked" = store activated !! "isLocked" /\
  (forall env2, exists w2,
     run env2 (deviceService.BACKGROUND_FETCH_TASK show_status show_error) w1
       = (w2, inr NoData) /\
     count is_fetch (trace w2) = count is_fetch (trace w1)) /\
  (forall env2 d c,
     push_command d = Some c -> c <> "" ->
     dispatch_returns env2 c (deviceService.payload d) ->
     exists w2,
       run env2 (App.foregroundListener d) w1 = (w2, inr tt) /\
       count is_dispatch (trace w2) = (count is_dispatch (trace w1) + 1)%nat /\
       count is_ack (trace w2) = (count is_ack (trace w1) + 1)%nat /\
       count (acks_as "ABC123" c) (trace w2) =
         (count (acks_as "ABC123" c) (trace w1) + 1)%nat).
Proof.
  apply (deactivation_stops_poll_not_push show_status show_error (env_up lock_report 120)
           activated "ABC123").
  - reflexivity.
  - discriminate.
Defined.

Lemma expired_push_releases_nothing_witness :
  exists w',
    run (env_up lock_report 120) (App.foregroundListener (push "expired" None)) activated
      = (w', inr tt) /\
    store w' !! "isLocked" = Some "false" /\
    store w' !! "lockMessage" = None /\
    ui_locked w' = ui_locked activated /\
    count is_capability (trace w') = count is_capability (trace activated) /\
    store w' !! "kioskModeActive" = store activated !! "kioskModeActive" /\
    store w' !! "appHidden" = store activated !! "appHidden".
Proof.
  apply (expired_push_releases_nothing (env_up lock_report 120) (push "expired" None)
           activated).
  - reflexivity.
  - apply dispatch_returns_up.
Defined.

Lemma polled_unlock_releases_nothing_witness :
  let st := report "active" "unlock" None in
  exists w',
    run (env_up st 120) (deviceService.BACKGROUND_FETCH_TASK show_status show_error)
      activated = (w', inr NewData) /\
    store w' !! "isLocked" = Some "false" /\
    ui_locked w' = ui_locked activated /\
    count is_capability (trace w') = count is_capability (trace activated) /\
    store w' !! "kioskModeActive" = store activated !! "kioskModeActive" /\
    store w' !! "appHidden" = store activated !! "appHidden".
Proof.
  apply (polled_unlock_releases_nothing show_status show_error
           (env_up (report "active" "unlock" None) 120) activated "ABC123"
           (report "active" "unlock" None)).
  - reflexivity.
  - discriminate.
  - reflexivity.
  - reflexivity.
  - apply dispatch_returns_up.
  - reflexivity.
Defined.

(** The server answers after twelve seconds; the wipe is due after ten. *)
Lemma wipe_during_poll_leaves_sync_record_witness :
  let env := env_up quiet_report 12000 in
  exists w',
    run env (deviceService.BACKGROUND_FETCH_TASK show_status show_error) reset_pending
      = (w', inr NewData) /\
    (count is_wipe (trace reset_pending) < count is_wipe (trace w'))%nat /\
    store w' = <["lastSyncTime" := pretty (now reset_pending + env_fetch_ms env)]>
                 (<["deviceStatus" := show_status quiet_report]> ∅) /\
    store w' !! "activationKey" = None.
Proof.
  apply (wipe_during_poll_leaves_sync_record show_status show_error
           (env_up quiet_report 12000) reset_pending "ABC123" quiet_report
           {| timer_id := 0; timer_due := 11000; timer_action_of := TFactoryReset |}).
  - reflexivity.
  - discriminate.
  - reflexivity.
  - right. right. reflexivity.
  - apply list_elem_of_here.
  - reflexivity.
  - vm_compute. discriminate.
Defined.

(* ===================================================================== *)
(** ** Lock, Reminder, Unlock by each way a command arrives *)
(* ===================================================================== *)

(** By the dispatcher alone, as the poll calls it: the store converges,
    and no lockdown capability is invoked. *)
Lemma dispatched_lock_reminder_unlock (env1 env2 env3 : Env) (s1 s2 s3 : StatusReport)
    (w : World) :
  let w1 := play [Dispatch env1 "lock" s1] w in
  let w2 := play [Dispatch env2 "reminder" s2] w1 in
  let w3 := play [Dispatch env3 "unlock" s3] w2 in
  store w1 !! "isLocked" = Some "true" /\
  store w1 !! "lockMessage" = Some (js_or (rep_lockMessage s1) "") /\
  store w2 = store w1 /\
  store w3 !! "isLocked" = Some "false" /\
  store w3 !! "lockMessage" = None /\
  snd (run env3 deviceService.isDeviceLocked w3) = inr false /\
  ui_locked w3 = ui_locked w /\
  count is_dispatch (trace w3) = (count is_dispatch (trace w) + 3)%nat /\
  count is_capability (trace w3) = count is_capability (trace w).
Proof.
  cbn zeta. unfold play. cbn [foldl do_step].
  destruct (handleCommand_effect env1 "lock" s1 w) as (_ & Hd1 & _ & _ & Hc1 & _).
  destruct (handleCommand_store env1 "lock" s1 w) as (Hu1 & Hs1).
  rewrite decide_True in Hs1 by done.
  revert Hd1 Hc1 Hu1 Hs1.
  generalize (fst (run env1 (deviceService.handleCommand "lock" s1) w)).
  intros w1 Hd1 Hc1 Hu1 Hs1.
  destruct (handleCommand_effect env2 "reminder" s2 w1) as (_ & Hd2 & _ & _ & Hc2 & _).
  destruct (handleCommand_store env2 "reminder" s2 w1) as (Hu2 & Hs2).
  rewrite decide_False in Hs2 by done.
  rewrite decide_False in Hs2 by (by intros [?|?]).
  revert Hd2 Hc2 Hu2 Hs2.
  generalize (fst (run env2 (deviceService.handleCommand "reminder" s2) w1)).
  intros w2 Hd2 Hc2 Hu2 Hs2.
  destruct (handleCommand_effect env3 "unlock" s3 w2) as (_ & Hd3 & _ & _ & Hc3 & _).
  destruct (handleCommand_store env3 "unlock" s3 w2) as (Hu3 & Hs3).
  rewrite decide_False in Hs3 by done.
  rewrite decide_True in Hs3 by (by left).
  revert Hd3 Hc3 Hu3 Hs3.
  generalize (fst (run env3 (deviceService.handleCommand "unlock" s3) w2)).
  intros w3 Hd3 Hc3 Hu3 Hs3.
  rewrite isDeviceLocked_answer, Hs3, Hs2, Hs1.
  rewrite lookup_delete_ne, lookup_insert_eq by done.
  rewrite lookup_insert_ne, lookup_insert_eq by done.
  rewrite lookup_delete_eq, lookup_insert_eq.
  repeat split; try done; try congruence; lia.
Qed.

(** The dispatch of Lock, Reminder or Unlock sets no timeout. *)
Lemma handleCommand_keeps_timers (env : Env) (c : string) (status : StatusReport)
    (w : World) :
  c = "lock" \/ c = "reminder" \/ c = "unlock" ->
  timers (fst (run env (deviceService.handleCommand c status) w)) = timers w.
Proof.
  intros Hc.
  unfold run, deviceService.handleCommand, deviceService.ringDevice,
    deviceService.sendLocalNotification.
  repeat case_decide; simpl;
    repeat match goal with
    | |- context [env_notify env ?t ?b] => destruct (env_notify env t b); simpl
    | |- context [env_vibrate env] => destruct (env_vibrate env); simpl
    end;
    try reflexivity; exfalso; destruct Hc as [-> | [-> | ->] ]; intuition congruence.
Qed.

Lemma count_filter_le {A} (f : A -> bool) (P : A -> Prop) `{!forall x, Decision (P x)}
    (l : list A) :
  (count f (filter P l) <= count f l)%nat.
Proof.
  induction l as [|x l IH]; [done|]. rewrite filter_cons.
  destruct (decide (P x)); cbn [count]; lia.
Qed.

Section Channels.
Variable JSON_status : StatusReport -> string.
Variable JSON_error : string -> N -> string.

Local Abbreviation TASK := (deviceService.BACKGROUND_FETCH_TASK JSON_status JSON_error).

(** A poll that brings Lock, Reminder or Unlock to an activated device
    with no wipe pending. *)
Lemma poll_keeps_course (env : Env) (w : World) (key : string) (st : StatusReport)
    (c : string) :
  c = "lock" \/ c = "reminder" \/ c = "unlock" ->
  store w !! "activationKey" = Some key -> key <> "" ->
  env_fetch env key = inr st -> rep_command st = Some c ->
  dispatch_returns env c st ->
  pending_resets w = 0%nat ->
  exists w',
    run env TASK w = (w', inr NewData) /\
    store w' !! "activationKey" = Some key /\
    pending_resets w' = 0%nat /\
    ui_locked w' = ui_locked w /\
    count is_dispatch (trace w') = (count is_dispatch (trace w) + 1)%nat /\
    count is_capability (trace w') = count is_capability (trace w) /\
    store w' !! "isLocked" =
      (if decide (c = "lock") then Some "true"
       else if decide (c = "unlock") then Some "false"
       else store w !! "isLocked") /\
    store w' !! "lockMessage" =
      (if decide (c = "lock") then Some (js_or (rep_lockMessage st) "")
       else if decide (c = "unlock") then None
       else store w !! "lockMessage").
Proof.
  intros Hcs Hkey Hne Hf Hc Hd Hp.
  assert (actionable st c) as Hact.
  { split; [done|]. destruct Hcs as [-> | [-> | ->] ]; by split. }
  rewrite (poll_outcome_applied _ _ env w key st c Hkey Hne Hf Hact Hd).
  destruct (handleCommand_effect env c st (cleared (next_timer w) (requested env key w)))
    as (_ & Hdis & _ & _ & Hcap & _ & _ & _ & Hfr & _).
  destruct (handleCommand_store env c st (cleared (next_timer w) (requested env key w)))
    as (Hui & Hst).
  pose proof (handleCommand_keeps_timers env c st
                (cleared (next_timer w) (requested env key w)) Hcs) as Htm.
  pose proof (ui_requested env key w) as Hur.
  pose proof (count_requested_capability env key w) as Hcr.
  pose proof (count_requested is_dispatch env key w) as Hcd.
  rewrite count_timer_events in Hcd by (intros t; by destruct t as [? ? []]).
  pose proof (store_requested env key w Hp) as Hsr.
  assert (pending_resets (cleared (next_timer w) (requested env key w)) = 0%nat) as Hpr.
  { unfold pending_resets, cleared, requested. rewrite advance_eq.
    cbn [timers fired set_timers set_now set_next_timer set_next_controller log].
    apply Nat.le_0_r.
    etransitivity; [apply count_filter_le|].
    etransitivity; [apply count_filter_le|].
    rewrite count_filter_enqueue. cbn [is_reset_timer timer_action_of].
    unfold pending_resets in Hp. lia. }
  revert Hdis Hcap Hfr Hui Hst Htm.
  generalize (fst (run env (deviceService.handleCommand c st)
                     (cleared (next_timer w) (requested env key w)))).
  revert Hpr.
  assert (store (cleared (next_timer w) (requested env key w)) = store w) as Hsc
    by (cbn [cleared store set_timers log]; exact Hsr).
  assert (ui_locked (cleared (next_timer w) (requested env key w)) = ui_locked w) as Huc
    by (cbn [cleared ui_locked set_timers log]; exact Hur).
  assert (count is_capability (trace (cleared (next_timer w) (requested env key w))) =
          count is_capability (trace w)) as Hcc.
  { cbn [cleared trace set_timers log]. rewrite count_app, Hcr. cbn. lia. }
  assert (count is_dispatch (trace (cleared (next_timer w) (requested env key w))) =
          count is_dispatch (trace w)) as Hdc.
  { cbn [cleared trace set_timers log]. rewrite count_app, Hcd. cbn. lia. }
  revert Hsc Huc Hcc Hdc. generalize (cleared (next_timer w) (requested env key w)).
  intros wa Hsc Huc Hcc Hdc Hpr w1 Hdis Hcap Hfr Hui Hst Htm.
  eexists. split; [reflexivity|].
  unfold pending_resets in *.
  cbn [recorded_sync store ui_locked timers trace set_store log].
  rewrite !count_app, Hcap, Hdis, Hcc, Hdc, Hui, Huc, Htm, Hpr.
  cbn [count is_capability is_apply is_release is_dispatch orb].
  rewrite !(lookup_insert_ne _ "lastSyncTime"), !(lookup_insert_ne _ "deviceStatus") by done.
  rewrite Hfr by done. rewrite Hst, Hsc.
  split; [done|]. split; [done|]. split; [done|]. split; [lia|]. split; [lia|].
  destruct Hcs as [-> | [-> | ->] ];
    repeat first [ rewrite decide_True by (done || by left)
                 | rewrite decide_False by (done || by intros [?|?]) ];
    rewrite ?lookup_delete_eq, ?lookup_delete_ne, ?lookup_insert_eq, ?lookup_insert_ne by done;
    rewrite ?lookup_insert_eq; done.
Qed.

(** Three polls that bring Lock, Reminder and Unlock. *)
Lemma polled_lock_reminder_unlock (env1 env2 env3 : Env) (w : World) (key : string)
    (s1 s2 s3 : StatusReport) :
  store w !! "activationKey" = Some key -> key <> "" -> pending_resets w = 0%nat ->
  env_fetch env1 key = inr s1 -> rep_command s1 = Some "lock" ->
  dispatch_returns env1 "lock" s1 ->
  env_fetch env2 key = inr s2 -> rep_command s2 = Some "reminder" ->
  dispatch_returns env2 "reminder" s2 ->
  env_fetch env3 key = inr s3 -> rep_command s3 = Some "unlock" ->
  dispatch_returns env3 "unlock" s3 ->
  exists w1 w2 w3,
    run env1 TASK w = (w1, inr NewData) /\
    run env2 TASK w1 = (w2, inr NewData) /\
    run env3 TASK w2 = (w3, inr NewData) /\
    store w1 !! "isLocked" = Some "true" /\
    store w1 !! "lockMessage" = Some (js_or (rep_lockMessage s1) "") /\
    store w3 !! "isLocked" = Some "false" /\
    store w3 !! "lockMessage" = None /\
    snd (run env3 deviceService.isDeviceLocked w3) = inr false /\
    ui_locked w3 = ui_locked w /\
    count is_dispatch (trace w3) = (count is_dispatch (trace w) + 3)%nat /\
    count is_capability (trace w3) = count is_capability (trace w).
Proof.
  intros Hkey Hne Hp Hf1 Hc1 Hd1 Hf2 Hc2 Hd2 Hf3 Hc3 Hd3.
  destruct (poll_keeps_course env1 w key s1 "lock") as
    (w1 & Hr1 & Hk1 & Hp1 & Hu1 & Hn1 & Hcap1 & Hl1 & Hm1); try done; [by left|].
  destruct (poll_keeps_course env2 w1 key s2 "reminder") as
    (w2 & Hr2 & Hk2 & Hp2 & Hu2 & Hn2 & Hcap2 & _ & _); try done; [right; by left|].
  destruct (poll_keeps_course env3 w2 key s3 "unlock") as
    (w3 & Hr3 & Hk3 & Hp3 & Hu3 & Hn3 & Hcap3 & Hl3 & Hm3); try done; [right; by right|].
  rewrite decide_True in Hl1, Hm1 by done.
  rewrite decide_False in Hl3, Hm3 by done. rewrite decide_True in Hl3, Hm3 by done.
  exists w1, w2, w3. rewrite isDeviceLocked_answer, Hl3.
  repeat split; try done; try congruence; lia.
Qed.

End Channels.

(** What a delivery to the foreground listener leaves alone in the
    store. *)
Lemma foreground_store_frame (env : Env) (d : PushData) (c : string) (w : World)
    (k : string) :
  push_command d = Some c -> c <> "" ->
  k <> "isLocked" -> k <> "lockMessage" -> k <> "kioskModeActive" -> k <> "appHidden" ->
  store (fst (run env (App.foregroundListener d) w)) !! k = store w !! k.
Proof.
  intros Hc Hne Hk1 Hk2 Hk3 Hk4. rewrite (run_foreground env d c w Hc Hne).
  destruct (handleCommand_effect env c (deviceService.payload d) w)
    as (_ & _ & _ & _ & _ & _ & _ & _ & Hst & _).
  destruct (run env (deviceService.handleCommand c (deviceService.payload d)) w)
    as [w1 [e|[]]]; cbn [fst] in *; [by apply Hst|].
  destruct (acknowledged_push_facts c
              (fst (run env (App.onCommandReceived c (deviceService.payload d)) w1)))
    as (-> & _).
  destruct (onCommandReceived_frame is_ack env c (deviceService.payload d) w1) as [_ Hf].
  rewrite Hf by done. by apply Hst.
Qed.

(** The start of the app on an activated device that a pushed Lock has
    just locked: the lockdown is applied once more, and the listeners are
    installed once more. *)
Lemma start_after_pushed_lock (DEV : bool) (senv : SetupEnv) (status : string)
    (env : Env) (d : PushData) (w w1 : World) (l : list setup_op) :
  push_command d = Some "lock" ->
  run env (App.foregroundListener d) w = (w1, inr tt) ->
  store w1 !! "isLocked" = Some "true" ->
  count is_apply (trace w1) = (count is_apply (trace w) + 1)%nat ->
  truthy (store w !! "activationKey") = true ->
  env_permissions senv = inr status ->
  (env_platform (setup_env senv) = android -> env_channel senv = inr tt) ->
  exists ws,
    setup_run senv (AppStart.initializeApp DEV) {| base := w1; setup_log := l |}
      = (ws, inr tt) /\
    count is_apply (trace (base ws)) = (count is_apply (trace w) + 2)%nat /\
    count is_install (setup_log ws) = (count is_install l + 1)%nat.
Proof.
  intros Hc Hrun Hl Ha Hact Hp Hch.
  pose proof (initializeApp_facts DEV senv status {| base := w1; setup_log := l |} Hp Hch)
    as H.
  cbn zeta in H. cbn [base setup_log] in H.
  assert (store w1 !! "activationKey" = store w !! "activationKey") as Hk.
  { replace w1 with (fst (run env (App.foregroundListener d) w)) by (by rewrite Hrun).
    by apply (foreground_store_frame env d "lock"). }
  rewrite Hk, Hact, Hl in H. rewrite bool_decide_eq_true_2 in H by done.
  cbn [andb] in H. destruct H as (ws & Hr & _ & _ & _ & Hap & Hi & _).
  exists ws. split; [done|]. split; lia.
Qed.

Section Converges.
Variable JSON_status : StatusReport -> string.
Variable JSON_error : string -> N -> string.

Local Abbreviation TASK := (deviceService.BACKGROUND_FETCH_TASK JSON_status JSON_error).

(** C6 (amended). Lock, Reminder and Unlock, in this order, from any
    state (the unlocked one among them).  How many times the lockdown
    capability is invoked depends on the way the commands arrive.

    By the dispatcher [handleCommand] itself, and so by three polls of
    the scheduled task, which calls nothing else: the lock flag and the
    lock message are persisted by Lock, the message is cleared by Unlock,
    the lock query ends false, three dispatches have run, and the
    lockdown capability has not been invoked at all; the polls leave the
    screen state as it was.

    By three deliveries to the foreground push listener with the callback
    of [App], each handled by one run of the listener whose dispatch
    returns: the same store, and two invocations in all, one apply for
    Lock, none for Reminder, one release for Unlock.

    Even then two is not the count of the running app.  The pushed Lock
    sets the screen state [isLocked] to true; where it was false, this
    change starts the effect of [App] again, whose [initializeApp], on an
    activated device and when the permission request and the
    notification channel succeed, applies the full lockdown a second time
    and installs the push listeners once more. *)
Theorem lock_reminder_unlock_by_channel (env1 env2 env3 : Env) (w : World) :
  (forall s1 s2 s3 : StatusReport,
     let w1 := play [Dispatch env1 "lock" s1] w in
     let w2 := play [Dispatch env2 "reminder" s2] w1 in
     let w3 := play [Dispatch env3 "unlock" s3] w2 in
     store w1 !! "isLocked" = Some "true" /\
     store w1 !! "lockMessage" = Some (js_or (rep_lockMessage s1) "") /\
     store w3 !! "isLocked" = Some "false" /\
     store w3 !! "lockMessage" = None /\
     snd (run env3 deviceService.isDeviceLocked w3) = inr false /\
     count is_dispatch (trace w3) = (count is_dispatch (trace w) + 3)%nat /\
     count is_capability (trace w3) = count is_capability (trace w)) /\
  (forall (key : string) (s1 s2 s3 : StatusReport),
     store w !! "activationKey" = Some key -> key <> "" -> pending_resets w = 0%nat ->
     env_fetch env1 key = inr s1 -> rep_command s1 = Some "lock" ->
     dispatch_returns env1 "lock" s1 ->
     env_fetch env2 key = inr s2 -> rep_command s2 = Some "reminder" ->
     dispatch_returns env2 "reminder" s2 ->
     env_fetch env3 key = inr s3 -> rep_command s3 = Some "unlock" ->
     dispatch_returns env3 "unlock" s3 ->
     exists w1 w2 w3,
       run env1 TASK w = (w1, inr NewData) /\
       run env2 TASK w1 = (w2, inr NewData) /\
       run env3 TASK w2 = (w3, inr NewData) /\
       store w1 !! "isLocked" = Some "true" /\
       store w1 !! "lockMessage" = Some (js_or (rep_lockMessage s1) "") /\
       store w3 !! "isLocked" = Some "false" /\
       store w3 !! "lockMessage" = None /\
       snd (run env3 deviceService.isDeviceLocked w3) = inr false /\
       ui_locked w3 = ui_locked w /\
       count is_dispatch (trace w3) = (count is_dispatch (trace w) + 3)%nat /\
       count is_capability (trace w3) = count is_capability (trace w)) /\
  (forall d1 d2 d3 : PushData,
     push_command d1 = Some "lock" ->
     push_command d2 = Some "reminder" ->
     push_command d3 = Some "unlock" ->
     dispatch_returns env1 "lock" (deviceService.payload d1) ->
     dispatch_returns env2 "reminder" (deviceService.payload d2) ->
     dispatch_returns env3 "unlock" (deviceService.payload d3) ->
     exists w1 w2 w3,
       run env1 (App.foregroundListener d1) w = (w1, inr tt) /\
       run env2 (App.foregroundListener d2) w1 = (w2, inr tt) /\
       run env3 (App.foregroundListener d3) w2 = (w3, inr tt) /\
       (store w1 !! "isLocked" = Some "true" /\
        store w1 !! "lockMessage" = Some (js_or (push_lockMessage d1) "") /\
        ui_locked w1 = true /\
        count is_apply (trace w1) = (count is_apply (trace w) + 1)%nat /\
        count is_release (trace w1) = count is_release (trace w)) /\
       (count is_capability (trace w2) = count is_capability (trace w1) /\
        store w2 !! "isLocked" = Some "true") /\
       (store w3 !! "isLocked" = Some "false" /\
        store w3 !! "lockMessage" = None /\
        ui_locked w3 = false /\
        snd (run env3 deviceService.isDeviceLocked w3) = inr false /\
        count is_apply (trace w3) = count is_apply (trace w2) /\
        count is_release (trace w3) = (count is_release (trace w2) + 1)%nat) /\
       count is_capability (trace w3) = (count is_capability (trace w) + 2)%nat /\
       (forall (DEV : bool) (senv : SetupEnv) (status : string) (l : list setup_op),
          truthy (store w !! "activationKey") = true ->
          env_permissions senv = inr status ->
          (env_platform (setup_env senv) = android -> env_channel senv = inr tt) ->
          exists ws,
            setup_run senv (AppStart.initializeApp DEV) {| base := w1; setup_log := l |}
              = (ws, inr tt) /\
            count is_apply (trace (base ws)) = (count is_apply (trace w) + 2)%nat /\
            count is_install (setup_log ws) = (count is_install l + 1)%nat)).
Proof.
  split; [|split].
  - intros s1 s2 s3.
    destruct (dispatched_lock_reminder_unlock env1 env2 env3 s1 s2 s3 w)
      as (H1 & H2 & _ & H4 & H5 & H6 & _ & H8 & H9).
    cbn zeta. done.
  - intros key s1 s2 s3. apply polled_lock_reminder_unlock.
  - intros d1 d2 d3 Hc1 Hc2 Hc3 Hd1 Hd2 Hd3.
    destruct (pushed_lock_reminder_unlock env1 env2 env3 d1 d2 d3 w Hc1 Hc2 Hc3 Hd1 Hd2 Hd3)
      as (w1 & w2 & w3 & Hr1 & Hr2 & Hr3 & Hw1 & Hw2 & Hw3 & Hcap).
    exists w1, w2, w3. do 7 (split; [done|]).
    intros DEV senv status l Hact Hp Hch.
    destruct Hw1 as (Hl1 & _ & _ & Ha1 & _).
    by apply (start_after_pushed_lock DEV senv status env1 d1 w w1 l).
Qed.

End Converges.

Lemma lock_reminder_unlock_by_channel_witness :
  let env1 := env_up lock_report 120 in
  let env2 := env_up (report "locked" "reminder" None) 120 in
  let env3 := env_up (report "active" "unlock" None) 120 in
  (exists w1 w2 w3,
     run env1 (deviceService.BACKGROUND_FETCH_TASK show_status show_error) activated
       = (w1, inr NewData) /\
     run env2 (deviceService.BACKGROUND_FETCH_TASK show_status show_error) w1
       = (w2, inr NewData) /\
     run env3 (deviceService.BACKGROUND_FETCH_TASK show_status show_error) w2
       = (w3, inr NewData) /\
     store w1 !! "isLocked" = Some "true" /\
     store w1 !! "lockMessage" = Some (js_or (rep_lockMessage lock_report) "") /\
     store w3 !! "isLocked" = Some "false" /\
     store w3 !! "lockMessage" = None /\
     snd (run env3 deviceService.isDeviceLocked w3) = inr false /\
     ui_locked w3 = ui_locked activated /\
     count is_dispatch (trace w3) = (count is_dispatch (trace activated) + 3)%nat /\
     count is_capability (trace w3) = count is_capability (trace activated)) /\
  (exists w1 w2 w3,
     run env1 (App.foregroundListener lock_push_data) activated = (w1, inr tt) /\
     run env2 (App.foregroundListener (push "reminder" None)) w1 = (w2, inr tt) /\
     run env3 (App.foregroundListener (push "unlock" None)) w2 = (w3, inr tt) /\
     count is_capability (trace w3) = (count is_capability (trace activated) + 2)%nat /\
     exists ws,
       setup_run setup_up (AppStart.initializeApp true) {| base := w1; setup_log := [] |}
         = (ws, inr tt) /\
       count is_apply (trace (base ws)) = (count is_apply (trace activated) + 2)%nat /\
       count is_install (setup_log ws) = 1%nat).
Proof.
  cbn zeta.
  destruct (lock_reminder_unlock_by_channel show_status show_error
              (env_up lock_report 120) (env_up (report "locked" "reminder" None) 120)
              (env_up (report "active" "unlock" None) 120) activated) as (_ & Hpoll & Hpush).
  split.
  - apply (Hpoll "ABC123" lock_report (report "locked" "reminder" None)
             (report "active" "unlock" None));
      try reflexivity; try discriminate; apply dispatch_returns_up.
  - destruct (Hpush lock_push_data (push "reminder" None) (push "unlock" None))
      as (w1 & w2 & w3 & Hr1 & Hr2 & Hr3 & _ & _ & _ & Hcap & Hstart);
      try reflexivity; try apply dispatch_returns_up.
    exists w1, w2, w3. do 4 (split; [done|]).
    apply (Hstart true setup_up "granted" []); [reflexivity|reflexivity|by intros _].
Defined.
